(** * Recensio: the engagement / social data layer

    A shallow embedding of [src/app/content_service.py] and of the
    [toggle_follow] handler of [src/app/views.py].

    The Python code talks to PostgreSQL through raw SQL.  The store is
    modelled as a record of tables, every table being the list of its rows
    in insertion order; each SQL statement becomes a pure function on that
    record and each Python function threads the store through the
    statements it executes, in the order the source executes them.  Django
    runs these statements in autocommit mode (the settings do not enable
    ATOMIC_REQUESTS), so the statements executed before an exception stay
    in the store: fallible functions return the store they leave behind
    together with either the exception or the returned value. *)

From Stdlib Require Import List ZArith String Ascii Bool Lia QArith.
From Stdlib Require Import Sorted Permutation.
Import ListNotations.

Local Open Scope Z_scope.
Local Open Scope bool_scope.

(** ** SQL statements over a table held as a list of rows *)

Module Sql.

Section Table.
Context {row : Type}.

(** [SELECT COUNT( * ) FROM t WHERE p] *)
Definition count_where (p : row -> bool) (t : list row) : Z :=
  Z.of_nat (List.length (filter p t)).

(** [SELECT ... FROM t WHERE p] followed by [cursor.fetchone()] *)
Definition fetchone_where (p : row -> bool) (t : list row) : option row :=
  find p t.

(** [UPDATE t SET ... WHERE p] *)
Definition update_where (p : row -> bool) (f : row -> row) (t : list row)
  : list row :=
  map (fun r => if p r then f r else r) t.

(** [DELETE FROM t WHERE p] *)
Definition delete_where (p : row -> bool) (t : list row) : list row :=
  filter (fun r => negb (p r)) t.

(** [INSERT INTO t VALUES r] *)
Definition insert (r : row) (t : list row) : list row := t ++ [r].

(** [INSERT INTO t VALUES r ON CONFLICT (key) DO NOTHING] *)
Definition insert_or_ignore (conflict : row -> bool) (r : row)
    (t : list row) : list row :=
  if existsb conflict t then t else insert r t.

(** [INSERT INTO t VALUES r ON CONFLICT (key) DO UPDATE SET ...] *)
Definition insert_or_update (conflict : row -> bool) (r : row)
    (f : row -> row) (t : list row) : list row :=
  if existsb conflict t then update_where conflict f t else insert r t.

(** A unique index on the columns [key]: no two rows carry the same key. *)
Fixpoint distinct {K : Type} (eqb : K -> K -> bool) (ks : list K) : bool :=
  match ks with
  | [] => true
  | k :: ks' => negb (existsb (eqb k) ks') && distinct eqb ks'
  end.

Definition unique_on {K : Type} (eqb : K -> K -> bool) (key : row -> K)
    (t : list row) : bool :=
  distinct eqb (map key t).

(** [ORDER BY]: a stable insertion sort; [before a b] says that [a] may
    precede [b].  Rows that tie on every sort key come out in table order,
    where SQL leaves their order open. *)
Fixpoint insert_sorted (before : row -> row -> bool) (x : row)
    (t : list row) : list row :=
  match t with
  | [] => [x]
  | y :: t' =>
      if before x y then x :: y :: t' else y :: insert_sorted before x t'
  end.

Definition order_by (before : row -> row -> bool) (t : list row)
  : list row :=
  fold_right (insert_sorted before) [] t.

(** [LIMIT n] *)
Definition limit (n : nat) (t : list row) : list row := firstn n t.
End Table.

(** [COALESCE(x, 0)], also Python's [x or 0] on a nullable integer *)
Definition coalesce0 (x : option Z) : Z :=
  match x with Some v => v | None => 0 end.

(** [SELECT AVG(score)]: NULL on no rows, else the exact quotient. *)
Definition avg (scores : list Z) : option Q :=
  match scores with
  | [] => None
  | _ :: _ =>
      Some (Qred (fold_right Z.add 0 scores # Pos.of_nat (List.length scores)))
  end.

(** [x DESC NULLS LAST] as "[a] may precede [b]" and as "[a] ties [b]" *)
Definition desc_nulls_last_le (a b : option Z) : bool :=
  match a, b with
  | Some x, Some y => y <=? x
  | Some _, None => true
  | None, Some _ => false
  | None, None => true
  end.

Definition nullable_eqb (a b : option Z) : bool :=
  match a, b with
  | Some x, Some y => x =? y
  | None, None => true
  | _, _ => false
  end.

End Sql.

Import Sql.

(** ** Rows and the store

    The CREATE TABLE statements are not part of the sources.  Rows carry
    the columns the code reads or writes.  Timestamps are integers and
    never NULL (the spec calls them server assigned); the derived counters
    are nullable, because the code reads them through [COALESCE], [or 0]
    and [NULLS LAST]. *)

Record content_row := {
  c_id : Z;
  c_tmdb_id : Z;
  c_media_type : string;
  c_title : string;
  c_poster_path : option string;
  c_backdrop_path : option string;
  c_release_date : option string;
  c_watched_count : option Z;
  c_list_count : option Z;
  c_avg_score : option Q;
  c_total_scores : option Z;
  c_updated_at : Z
}.

Record watched_row := {
  uw_id : Z;
  uw_user_id : Z;
  uw_content_id : Z;
  uw_watched_at : Z
}.

Record rating_row := {
  ur_id : Z;
  ur_user_id : Z;
  ur_content_id : Z;
  ur_score : Z;
  ur_review_text : option string;
  ur_likes_count : option Z;
  ur_rated_at : Z;
  ur_updated_at : Z
}.

Record list_item_row := {
  li_id : Z;
  li_list_id : Z;
  li_content_id : Z;
  li_added_at : Z
}.

Record list_row := {
  ul_id : Z;
  ul_user_id : Z;
  ul_name : string;
  ul_description : option string;
  ul_is_public : bool;
  ul_likes_count : option Z;
  ul_comments_count : option Z;
  ul_created_at : Z;
  ul_updated_at : Z
}.

Record list_like_row := {
  ll_user_id : Z;
  ll_list_id : Z
}.

Record comment_row := {
  lc_id : Z;
  lc_list_id : Z;
  lc_user_id : Z;
  lc_comment_text : string;
  lc_created_at : Z;
  lc_updated_at : Z
}.

Record rating_like_row := {
  url_user_id : Z;
  url_rating_id : Z
}.

Record user_row := {
  u_id : Z;
  u_username : string;
  u_pfp : option string;
  u_followers_count : option Z;
  u_following_count : option Z
}.

Record follow_row := {
  uf_id : Z;
  uf_follower_id : Z;
  uf_followee_id : Z
}.

(** The serial [id] columns draw from one sequence per table. *)
Record sequences := {
  seq_content : Z;
  seq_watched : Z;
  seq_ratings : Z;
  seq_items : Z;
  seq_lists : Z;
  seq_comments : Z;
  seq_follows : Z
}.

Record db := {
  content : list content_row;
  user_watched : list watched_row;
  user_ratings : list rating_row;
  list_items : list list_item_row;
  user_lists : list list_row;
  list_likes : list list_like_row;
  list_comments : list comment_row;
  user_rating_likes : list rating_like_row;
  users : list user_row;
  user_follows : list follow_row;
  seqs : sequences
}.

(** What the missing schema decides: the defaults of the counter columns
    and of [avg_score], the rounding of the [avg_score] column, the
    collation behind [LOWER], and whether [users] has the two denormalized
    follow counters at all. *)
Record schema := {
  default_count : option Z;
  default_avg : option Q;
  numeric_avg : Q -> Q;
  sql_lower : string -> string;
  follow_count_columns : bool
}.

(** *** Writing one table (or one sequence) of the store *)

Definition set_content (d : db) (t : list content_row) : db :=
  {| content := t; user_watched := user_watched d;
     user_ratings := user_ratings d; list_items := list_items d;
     user_lists := user_lists d; list_likes := list_likes d;
     list_comments := list_comments d;
     user_rating_likes := user_rating_likes d; users := users d;
     user_follows := user_follows d; seqs := seqs d |}.

Definition set_user_watched (d : db) (t : list watched_row) : db :=
  {| content := content d; user_watched := t;
     user_ratings := user_ratings d; list_items := list_items d;
     user_lists := user_lists d; list_likes := list_likes d;
     list_comments := list_comments d;
     user_rating_likes := user_rating_likes d; users := users d;
     user_follows := user_follows d; seqs := seqs d |}.

Definition set_user_ratings (d : db) (t : list rating_row) : db :=
  {| content := content d; user_watched := user_watched d;
     user_ratings := t; list_items := list_items d;
     user_lists := user_lists d; list_likes := list_likes d;
     list_comments := list_comments d;
     user_rating_likes := user_rating_likes d; users := users d;
     user_follows := user_follows d; seqs := seqs d |}.

Definition set_list_items (d : db) (t : list list_item_row) : db :=
  {| content := content d; user_watched := user_watched d;
     user_ratings := user_ratings d; list_items := t;
     user_lists := user_lists d; list_likes := list_likes d;
     list_comments := list_comments d;
     user_rating_likes := user_rating_likes d; users := users d;
     user_follows := user_follows d; seqs := seqs d |}.

Definition set_user_lists (d : db) (t : list list_row) : db :=
  {| content := content d; user_watched := user_watched d;
     user_ratings := user_ratings d; list_items := list_items d;
     user_lists := t; list_likes := list_likes d;
     list_comments := list_comments d;
     user_rating_likes := user_rating_likes d; users := users d;
     user_follows := user_follows d; seqs := seqs d |}.

Definition set_list_likes (d : db) (t : list list_like_row) : db :=
  {| content := content d; user_watched := user_watched d;
     user_ratings := user_ratings d; list_items := list_items d;
     user_lists := user_lists d; list_likes := t;
     list_comments := list_comments d;
     user_rating_likes := user_rating_likes d; users := users d;
     user_follows := user_follows d; seqs := seqs d |}.

Definition set_list_comments (d : db) (t : list comment_row) : db :=
  {| content := content d; user_watched := user_watched d;
     user_ratings := user_ratings d; list_items := list_items d;
     user_lists := user_lists d; list_likes := list_likes d;
     list_comments := t;
     user_rating_likes := user_rating_likes d; users := users d;
     user_follows := user_follows d; seqs := seqs d |}.

Definition set_user_rating_likes (d : db) (t : list rating_like_row) : db :=
  {| content := content d; user_watched := user_watched d;
     user_ratings := user_ratings d; list_items := list_items d;
     user_lists := user_lists d; list_likes := list_likes d;
     list_comments := list_comments d;
     user_rating_likes := t; users := users d;
     user_follows := user_follows d; seqs := seqs d |}.

Definition set_users (d : db) (t : list user_row) : db :=
  {| content := content d; user_watched := user_watched d;
     user_ratings := user_ratings d; list_items := list_items d;
     user_lists := user_lists d; list_likes := list_likes d;
     list_comments := list_comments d;
     user_rating_likes := user_rating_likes d; users := t;
     user_follows := user_follows d; seqs := seqs d |}.

Definition set_user_follows (d : db) (t : list follow_row) : db :=
  {| content := content d; user_watched := user_watched d;
     user_ratings := user_ratings d; list_items := list_items d;
     user_lists := user_lists d; list_likes := list_likes d;
     list_comments := list_comments d;
     user_rating_likes := user_rating_likes d; users := users d;
     user_follows := t; seqs := seqs d |}.

Definition set_seqs (d : db) (s : sequences) : db :=
  {| content := content d; user_watched := user_watched d;
     user_ratings := user_ratings d; list_items := list_items d;
     user_lists := user_lists d; list_likes := list_likes d;
     list_comments := list_comments d;
     user_rating_likes := user_rating_likes d; users := users d;
     user_follows := user_follows d; seqs := s |}.

(** [nextval] of each sequence: the value handed out and the store after. *)
Definition nextval_content (d : db) : Z * db :=
  let s := seqs d in
  (seq_content s,
   set_seqs d {| seq_content := seq_content s + 1; seq_watched := seq_watched s;
                 seq_ratings := seq_ratings s; seq_items := seq_items s;
                 seq_lists := seq_lists s; seq_comments := seq_comments s;
                 seq_follows := seq_follows s |}).

Definition nextval_watched (d : db) : Z * db :=
  let s := seqs d in
  (seq_watched s,
   set_seqs d {| seq_content := seq_content s; seq_watched := seq_watched s + 1;
                 seq_ratings := seq_ratings s; seq_items := seq_items s;
                 seq_lists := seq_lists s; seq_comments := seq_comments s;
                 seq_follows := seq_follows s |}).

Definition nextval_ratings (d : db) : Z * db :=
  let s := seqs d in
  (seq_ratings s,
   set_seqs d {| seq_content := seq_content s; seq_watched := seq_watched s;
                 seq_ratings := seq_ratings s + 1; seq_items := seq_items s;
                 seq_lists := seq_lists s; seq_comments := seq_comments s;
                 seq_follows := seq_follows s |}).

Definition nextval_items (d : db) : Z * db :=
  let s := seqs d in
  (seq_items s,
   set_seqs d {| seq_content := seq_content s; seq_watched := seq_watched s;
                 seq_ratings := seq_ratings s; seq_items := seq_items s + 1;
                 seq_lists := seq_lists s; seq_comments := seq_comments s;
                 seq_follows := seq_follows s |}).

Definition nextval_lists (d : db) : Z * db :=
  let s := seqs d in
  (seq_lists s,
   set_seqs d {| seq_content := seq_content s; seq_watched := seq_watched s;
                 seq_ratings := seq_ratings s; seq_items := seq_items s;
                 seq_lists := seq_lists s + 1; seq_comments := seq_comments s;
                 seq_follows := seq_follows s |}).

Definition nextval_comments (d : db) : Z * db :=
  let s := seqs d in
  (seq_comments s,
   set_seqs d {| seq_content := seq_content s; seq_watched := seq_watched s;
                 seq_ratings := seq_ratings s; seq_items := seq_items s;
                 seq_lists := seq_lists s; seq_comments := seq_comments s + 1;
                 seq_follows := seq_follows s |}).

Definition nextval_follows (d : db) : Z * db :=
  let s := seqs d in
  (seq_follows s,
   set_seqs d {| seq_content := seq_content s; seq_watched := seq_watched s;
                 seq_ratings := seq_ratings s; seq_items := seq_items s;
                 seq_lists := seq_lists s; seq_comments := seq_comments s;
                 seq_follows := seq_follows s + 1 |}).

(** ** Python exceptions and results *)

Inductive exn :=
| ValueError (msg : string)
| PermissionError (msg : string)
| TypeError (msg : string).

(** The store a call leaves behind, and what the call raised or returned. *)
Definition outcome (A : Type) : Type := db * (exn + A).

Definition raise {A : Type} (d : db) (e : exn) : outcome A := (d, inl e).
Definition ret {A : Type} (d : db) (a : A) : outcome A := (d, inr a).

(** [None[0]], which [cursor.fetchone()[0]] evaluates when no row came back *)
Definition none_not_subscriptable : exn :=
  TypeError "'NoneType' object is not subscriptable".

(** ** Python strings

    A character stands for a code point below 256.  [str.strip] removes the
    characters for which [str.isspace] holds. *)

Definition isspace (a : ascii) : bool :=
  existsb (Nat.eqb (nat_of_ascii a))
    [9; 10; 11; 12; 13; 28; 29; 30; 31; 32; 133; 160]%nat.

Fixpoint lstrip (s : string) : string :=
  match s with
  | EmptyString => EmptyString
  | String a s' => if isspace a then lstrip s' else s
  end.

Fixpoint rstrip (s : string) : string :=
  match s with
  | EmptyString => EmptyString
  | String a s' =>
      match rstrip s' with
      | EmptyString => if isspace a then EmptyString else String a EmptyString
      | r => String a r
      end
  end.

Definition strip (s : string) : string := rstrip (lstrip s).

(** Python's [len] *)
Definition len (s : string) : Z := Z.of_nat (String.length s).

(** [LOWER] in a collation that folds the ASCII letters only *)
Definition ascii_lower_char (a : ascii) : ascii :=
  let n := nat_of_ascii a in
  if ((65 <=? n) && (n <=? 90))%nat then ascii_of_nat (n + 32) else a.

Fixpoint ascii_lower (s : string) : string :=
  match s with
  | EmptyString => EmptyString
  | String a s' => String (ascii_lower_char a) (ascii_lower s')
  end.

(** ** content_service.py *)

(** The dictionaries the functions return. *)
Record created_list := {
  cl_id : Z;
  cl_name : string;
  cl_description : option string;
  cl_is_public : bool;
  cl_created_at : Z;
  cl_updated_at : Z
}.

Record list_like_result := {
  llr_liked : bool;
  llr_likes_count : option Z
}.

Record review_like_result := {
  rlr_liked : bool;
  rlr_likes_count : Z
}.

Record added_comment := {
  ac_id : Z;
  ac_comment_text : string;
  ac_created_at : Z;
  ac_updated_at : Z;
  ac_comments_count : option Z
}.

Record deleted_comment := {
  dc_deleted : bool;
  dc_comments_count : option Z;
  dc_list_id : Z
}.

Record ranked_list := {
  rl_id : Z;
  rl_user_id : Z;
  rl_name : string;
  rl_description : option string;
  rl_likes_count : Z;
  rl_comments_count : Z;
  rl_created_at : Z;
  rl_updated_at : Z;
  rl_username : string;
  rl_pfp : option string;
  rl_engagement_score : Z
}.

Record user_list_entry := {
  ule_id : Z;
  ule_name : string;
  ule_description : option string;
  ule_is_public : bool;
  ule_likes_count : Z;
  ule_comments_count : Z;
  ule_created_at : Z;
  ule_updated_at : Z
}.

Record recent_review := {
  rr_rating_id : Z;
  rr_score : Z;
  rr_review_text : option string;
  rr_updated_at : Z;
  rr_likes_count : Z;
  rr_tmdb_id : Z;
  rr_media_type : string;
  rr_title : string;
  rr_poster_path : option string
}.

(** The [SET] clauses, one function per UPDATE statement of the source. *)
Definition set_watched_count (n : option Z) (now : Z) (c : content_row)
  : content_row :=
  {| c_id := c_id c; c_tmdb_id := c_tmdb_id c; c_media_type := c_media_type c;
     c_title := c_title c; c_poster_path := c_poster_path c;
     c_backdrop_path := c_backdrop_path c; c_release_date := c_release_date c;
     c_watched_count := n; c_list_count := c_list_count c;
     c_avg_score := c_avg_score c; c_total_scores := c_total_scores c;
     c_updated_at := now |}.

Definition set_list_count (n : option Z) (now : Z) (c : content_row)
  : content_row :=
  {| c_id := c_id c; c_tmdb_id := c_tmdb_id c; c_media_type := c_media_type c;
     c_title := c_title c; c_poster_path := c_poster_path c;
     c_backdrop_path := c_backdrop_path c; c_release_date := c_release_date c;
     c_watched_count := c_watched_count c; c_list_count := n;
     c_avg_score := c_avg_score c; c_total_scores := c_total_scores c;
     c_updated_at := now |}.

Definition set_scores (a : option Q) (n : option Z) (now : Z)
    (c : content_row) : content_row :=
  {| c_id := c_id c; c_tmdb_id := c_tmdb_id c; c_media_type := c_media_type c;
     c_title := c_title c; c_poster_path := c_poster_path c;
     c_backdrop_path := c_backdrop_path c; c_release_date := c_release_date c;
     c_watched_count := c_watched_count c; c_list_count := c_list_count c;
     c_avg_score := a; c_total_scores := n;
     c_updated_at := now |}.

Definition set_rating (score : Z) (review_text : option string) (now : Z)
    (r : rating_row) : rating_row :=
  {| ur_id := ur_id r; ur_user_id := ur_user_id r;
     ur_content_id := ur_content_id r; ur_score := score;
     ur_review_text := review_text; ur_likes_count := ur_likes_count r;
     ur_rated_at := ur_rated_at r; ur_updated_at := now |}.

Definition set_rating_likes_count (n : option Z) (r : rating_row)
  : rating_row :=
  {| ur_id := ur_id r; ur_user_id := ur_user_id r;
     ur_content_id := ur_content_id r; ur_score := ur_score r;
     ur_review_text := ur_review_text r; ur_likes_count := n;
     ur_rated_at := ur_rated_at r; ur_updated_at := ur_updated_at r |}.

Definition set_likes_count (n : option Z) (now : Z) (l : list_row)
  : list_row :=
  {| ul_id := ul_id l; ul_user_id := ul_user_id l; ul_name := ul_name l;
     ul_description := ul_description l; ul_is_public := ul_is_public l;
     ul_likes_count := n; ul_comments_count := ul_comments_count l;
     ul_created_at := ul_created_at l; ul_updated_at := now |}.

Definition set_comments_count (n : option Z) (now : Z) (l : list_row)
  : list_row :=
  {| ul_id := ul_id l; ul_user_id := ul_user_id l; ul_name := ul_name l;
     ul_description := ul_description l; ul_is_public := ul_is_public l;
     ul_likes_count := ul_likes_count l; ul_comments_count := n;
     ul_created_at := ul_created_at l; ul_updated_at := now |}.

(** The WHERE clauses. *)
Definition content_key (tmdb_id : Z) (media_type : string) (c : content_row)
  : bool :=
  (c_tmdb_id c =? tmdb_id) && String.eqb (c_media_type c) media_type.

Definition content_has_id (id : Z) (c : content_row) : bool := c_id c =? id.

Definition watched_key (user_id content_id : Z) (w : watched_row) : bool :=
  (uw_user_id w =? user_id) && (uw_content_id w =? content_id).

Definition watched_of_content (content_id : Z) (w : watched_row) : bool :=
  uw_content_id w =? content_id.

Definition rating_key (user_id content_id : Z) (r : rating_row) : bool :=
  (ur_user_id r =? user_id) && (ur_content_id r =? content_id).

Definition rating_of_content (content_id : Z) (r : rating_row) : bool :=
  ur_content_id r =? content_id.

Definition rating_has_id (id : Z) (r : rating_row) : bool := ur_id r =? id.

Definition item_key (list_id content_id : Z) (i : list_item_row) : bool :=
  (li_list_id i =? list_id) && (li_content_id i =? content_id).

Definition item_of_content (content_id : Z) (i : list_item_row) : bool :=
  li_content_id i =? content_id.

Definition list_has_id (id : Z) (l : list_row) : bool := ul_id l =? id.

Definition list_like_key (user_id list_id : Z) (k : list_like_row) : bool :=
  (ll_user_id k =? user_id) && (ll_list_id k =? list_id).

Definition like_of_list (list_id : Z) (k : list_like_row) : bool :=
  ll_list_id k =? list_id.

Definition comment_has_id (id : Z) (c : comment_row) : bool := lc_id c =? id.

Definition comment_of_list (list_id : Z) (c : comment_row) : bool :=
  lc_list_id c =? list_id.

Definition rating_like_key (user_id rating_id : Z) (k : rating_like_row)
  : bool :=
  (url_user_id k =? user_id) && (url_rating_id k =? rating_id).

Definition like_of_rating (rating_id : Z) (k : rating_like_row) : bool :=
  url_rating_id k =? rating_id.

Section Model.

Variable sch : schema.

(** [base64.b64encode(...).decode('utf-8')], a library function *)
Variable b64encode : string -> string.

Definition get_or_create_content (d : db) (now : Z) (tmdb_id : Z)
    (media_type title : string)
    (poster_path backdrop_path release_date : option string) : db * Z :=
  match fetchone_where (content_key tmdb_id media_type) (content d) with
  | Some row => (d, c_id row)
  | None =>
      let (id, d1) := nextval_content d in
      (set_content d1
         (insert {| c_id := id; c_tmdb_id := tmdb_id;
                    c_media_type := media_type; c_title := title;
                    c_poster_path := poster_path;
                    c_backdrop_path := backdrop_path;
                    c_release_date := release_date;
                    c_watched_count := default_count sch;
                    c_list_count := default_count sch;
                    c_avg_score := default_avg sch;
                    c_total_scores := default_count sch;
                    c_updated_at := now |} (content d1)),
       id)
  end.

(** The serial default is evaluated before the conflict is detected, so the
    sequence advances also when the insert is ignored. *)
Definition mark_as_watched (d : db) (now : Z) (user_id tmdb_id : Z)
    (media_type title : string) (poster_path : option string) : db :=
  let (d1, content_id) :=
    get_or_create_content d now tmdb_id media_type title poster_path
      None None in
  let (id, d2) := nextval_watched d1 in
  let d3 :=
    set_user_watched d2
      (insert_or_ignore (watched_key user_id content_id)
         {| uw_id := id; uw_user_id := user_id; uw_content_id := content_id;
            uw_watched_at := now |} (user_watched d2)) in
  set_content d3
    (update_where (content_has_id content_id)
       (set_watched_count
          (Some (count_where (watched_of_content content_id)
                   (user_watched d3))) now)
       (content d3)).

Definition add_rating (d : db) (now : Z) (user_id tmdb_id : Z)
    (media_type title : string) (score : Z) (review_text : option string)
    (poster_path : option string) : db :=
  let (d1, content_id) :=
    get_or_create_content d now tmdb_id media_type title poster_path
      None None in
  let (id, d2) := nextval_ratings d1 in
  let d3 :=
    set_user_ratings d2
      (insert_or_update (rating_key user_id content_id)
         {| ur_id := id; ur_user_id := user_id; ur_content_id := content_id;
            ur_score := score; ur_review_text := review_text;
            ur_likes_count := default_count sch;
            ur_rated_at := now; ur_updated_at := now |}
         (set_rating score review_text now) (user_ratings d2)) in
  let scores :=
    map ur_score (filter (rating_of_content content_id) (user_ratings d3)) in
  set_content d3
    (update_where (content_has_id content_id)
       (set_scores (option_map (numeric_avg sch) (avg scores))
          (Some (count_where (rating_of_content content_id)
                   (user_ratings d3))) now)
       (content d3)).

Definition add_to_list (d : db) (now : Z) (list_id tmdb_id : Z)
    (media_type title : string) (poster_path : option string) : db :=
  let (d1, content_id) :=
    get_or_create_content d now tmdb_id media_type title poster_path
      None None in
  let (id, d2) := nextval_items d1 in
  let d3 :=
    set_list_items d2
      (insert_or_ignore (item_key list_id content_id)
         {| li_id := id; li_list_id := list_id; li_content_id := content_id;
            li_added_at := now |} (list_items d2)) in
  set_content d3
    (update_where (content_has_id content_id)
       (set_list_count
          (Some (count_where (item_of_content content_id) (list_items d3)))
          now)
       (content d3)).

Definition list_name_key (user_id : Z) (name : string) (l : list_row) : bool :=
  (ul_user_id l =? user_id)
  && String.eqb (sql_lower sch (ul_name l)) (sql_lower sch name).

Definition user_has_list_name (d : db) (user_id : Z) (name : string) : bool :=
  match fetchone_where (list_name_key user_id name) (user_lists d) with
  | Some _ => true
  | None => false
  end.

Definition create_user_list (d : db) (now : Z) (user_id : Z) (name : string)
    (description : option string) (is_public : bool) : outcome created_list :=
  if String.eqb name "" || String.eqb (strip name) "" then
    raise d (ValueError "List name is required")
  else
    let name := strip name in
    if 200 <? len name then
      raise d (ValueError "List name must be 200 characters or fewer")
    else if user_has_list_name d user_id name then
      raise d (ValueError "You already have a list with that name")
    else
      let (id, d1) := nextval_lists d in
      let row :=
        {| ul_id := id; ul_user_id := user_id; ul_name := name;
           ul_description := description; ul_is_public := is_public;
           ul_likes_count := default_count sch;
           ul_comments_count := default_count sch;
           ul_created_at := now; ul_updated_at := now |} in
      ret (set_user_lists d1 (insert row (user_lists d1)))
        {| cl_id := ul_id row; cl_name := ul_name row;
           cl_description := ul_description row;
           cl_is_public := ul_is_public row;
           cl_created_at := ul_created_at row;
           cl_updated_at := ul_updated_at row |}.

Definition verify_user_owns_list (d : db) (user_id list_id : Z) : bool :=
  match fetchone_where
          (fun l => (ul_id l =? list_id) && (ul_user_id l =? user_id))
          (user_lists d) with
  | Some _ => true
  | None => false
  end.


Definition toggle_like_list (d : db) (now : Z) (user_id list_id : Z)
  : outcome list_like_result :=
  let exists_ :=
    match fetchone_where (list_like_key user_id list_id) (list_likes d) with
    | Some _ => true
    | None => false
    end in
  let d1 :=
    if exists_ then
      set_list_likes d
        (delete_where (list_like_key user_id list_id) (list_likes d))
    else
      set_list_likes d
        (insert {| ll_user_id := user_id; ll_list_id := list_id |}
           (list_likes d)) in
  let liked_now := negb exists_ in
  let d2 :=
    set_user_lists d1
      (update_where (list_has_id list_id)
         (set_likes_count
            (Some (count_where (like_of_list list_id) (list_likes d1))) now)
         (user_lists d1)) in
  match fetchone_where (list_has_id list_id) (user_lists d2) with
  | None => raise d2 none_not_subscriptable
  | Some l =>
      ret d2 {| llr_liked := liked_now; llr_likes_count := ul_likes_count l |}
  end.

Definition add_list_comment (d : db) (now : Z) (user_id list_id : Z)
    (comment_text : string) : outcome added_comment :=
  if String.eqb comment_text "" || String.eqb (strip comment_text) "" then
    raise d (ValueError "Comment cannot be empty")
  else
    let text := strip comment_text in
    let (id, d1) := nextval_comments d in
    let d2 :=
      set_list_comments d1
        (insert {| lc_id := id; lc_list_id := list_id; lc_user_id := user_id;
                   lc_comment_text := text; lc_created_at := now;
                   lc_updated_at := now |} (list_comments d1)) in
    let d3 :=
      set_user_lists d2
        (update_where (list_has_id list_id)
           (set_comments_count
              (Some (count_where (comment_of_list list_id)
                       (list_comments d2))) now)
           (user_lists d2)) in
    match fetchone_where (list_has_id list_id) (user_lists d3) with
    | None => raise d3 none_not_subscriptable
    | Some l =>
        ret d3 {| ac_id := id; ac_comment_text := text;
                  ac_created_at := now; ac_updated_at := now;
                  ac_comments_count := ul_comments_count l |}
    end.

Definition delete_list_comment (d : db) (now : Z)
    (actor_user_id comment_id : Z) : outcome deleted_comment :=
  match fetchone_where (comment_has_id comment_id) (list_comments d) with
  | None => raise d (ValueError "Comment not found")
  | Some row =>
      let list_id := lc_list_id row in
      let comment_user_id := lc_user_id row in
      match fetchone_where (list_has_id list_id) (user_lists d) with
      | None => raise d (ValueError "List not found")
      | Some list_row_ =>
          let list_owner_id := ul_user_id list_row_ in
          if negb (actor_user_id =? comment_user_id)
             && negb (actor_user_id =? list_owner_id) then
            raise d (PermissionError "Not allowed to delete this comment")
          else
            let d1 :=
              set_list_comments d
                (delete_where (comment_has_id comment_id) (list_comments d)) in
            let d2 :=
              set_user_lists d1
                (update_where (list_has_id list_id)
                   (set_comments_count
                      (Some (count_where (comment_of_list list_id)
                               (list_comments d1))) now)
                   (user_lists d1)) in
            match fetchone_where (list_has_id list_id) (user_lists d2) with
            | None => raise d2 none_not_subscriptable
            | Some l =>
                ret d2 {| dc_deleted := true;
                          dc_comments_count := ul_comments_count l;
                          dc_list_id := list_id |}
            end
      end
  end.

(** The UPDATE of this function has no [updated_at] in its SET clause, and
    the function reads no clock. *)
Definition toggle_like_review (d : db) (user_id rating_id : Z)
  : outcome review_like_result :=
  let exists_ :=
    match fetchone_where (rating_like_key user_id rating_id)
            (user_rating_likes d) with
    | Some _ => true
    | None => false
    end in
  let d1 :=
    if exists_ then
      set_user_rating_likes d
        (delete_where (rating_like_key user_id rating_id)
           (user_rating_likes d))
    else
      set_user_rating_likes d
        (insert {| url_user_id := user_id; url_rating_id := rating_id |}
           (user_rating_likes d)) in
  let liked_now := negb exists_ in
  let d2 :=
    set_user_ratings d1
      (update_where (rating_has_id rating_id)
         (set_rating_likes_count
            (Some (count_where (like_of_rating rating_id)
                     (user_rating_likes d1))))
         (user_ratings d1)) in
  match fetchone_where (rating_has_id rating_id) (user_ratings d2) with
  | None => raise d2 none_not_subscriptable
  | Some r =>
      ret d2 {| rlr_liked := liked_now;
                rlr_likes_count := coalesce0 (ur_likes_count r) |}
  end.

(** *** The read side *)

(** [base64.b64encode(pfp).decode('utf-8') if pfp else None] *)
Definition encode_pfp (pfp : option string) : option string :=
  match pfp with
  | None => None
  | Some bytes => if String.eqb bytes "" then None else Some (b64encode bytes)
  end.

(** [FROM user_lists ul JOIN users u ON ul.user_id = u.id] *)
Definition lists_with_owner (d : db) : list (list_row * user_row) :=
  flat_map
    (fun l => map (pair l) (filter (fun u => u_id u =? ul_user_id l) (users d)))
    (user_lists d).

Definition engagement_score (l : list_row) : Z :=
  coalesce0 (ul_likes_count l) + coalesce0 (ul_comments_count l).

(** [ORDER BY engagement_score DESC, ul.likes_count DESC NULLS LAST,
    ul.updated_at DESC] *)
Definition engagement_order (a b : list_row * user_row) : bool :=
  let la := fst a in
  let lb := fst b in
  if engagement_score lb <? engagement_score la then true
  else if engagement_score la <? engagement_score lb then false
  else if nullable_eqb (ul_likes_count la) (ul_likes_count lb) then
    ul_updated_at lb <=? ul_updated_at la
  else desc_nulls_last_le (ul_likes_count la) (ul_likes_count lb).

Definition ranked_list_of (r : list_row * user_row) : ranked_list :=
  let (l, u) := r in
  {| rl_id := ul_id l; rl_user_id := ul_user_id l; rl_name := ul_name l;
     rl_description := ul_description l;
     rl_likes_count := coalesce0 (ul_likes_count l);
     rl_comments_count := coalesce0 (ul_comments_count l);
     rl_created_at := ul_created_at l; rl_updated_at := ul_updated_at l;
     rl_username := u_username u; rl_pfp := encode_pfp (u_pfp u);
     rl_engagement_score := engagement_score l |}.

(** The rows the query of [get_top_lists_by_engagement] selects, in order. *)
Definition top_lists_rows (d : db) (limit_ : nat) : list (list_row * user_row) :=
  limit limit_
    (order_by engagement_order
       (filter (fun r => ul_is_public (fst r)) (lists_with_owner d))).

Definition get_top_lists_by_engagement (d : db) (limit_ : nat)
  : list ranked_list :=
  map ranked_list_of (top_lists_rows d limit_).

(** [ORDER BY updated_at DESC, created_at DESC] *)
Definition recency_order (a b : list_row) : bool :=
  if ul_updated_at b <? ul_updated_at a then true
  else if ul_updated_at a <? ul_updated_at b then false
  else ul_created_at b <=? ul_created_at a.

Definition user_list_entry_of (l : list_row) : user_list_entry :=
  {| ule_id := ul_id l; ule_name := ul_name l;
     ule_description := ul_description l; ule_is_public := ul_is_public l;
     ule_likes_count := coalesce0 (ul_likes_count l);
     ule_comments_count := coalesce0 (ul_comments_count l);
     ule_created_at := ul_created_at l; ule_updated_at := ul_updated_at l |}.

Definition get_user_lists (d : db) (user_id : Z) (is_public : option bool)
  : list user_list_entry :=
  let rows :=
    match is_public with
    | None =>
        order_by recency_order
          (filter (fun l => ul_user_id l =? user_id) (user_lists d))
    | Some p =>
        order_by recency_order
          (filter (fun l => (ul_user_id l =? user_id)
                            && Bool.eqb (ul_is_public l) p)
             (user_lists d))
    end in
  map user_list_entry_of rows.

(** [FROM user_ratings ur JOIN content c ON ur.content_id = c.id] *)
Definition ratings_with_content (d : db) : list (rating_row * content_row) :=
  flat_map
    (fun r =>
       map (pair r) (filter (fun c => c_id c =? ur_content_id r) (content d)))
    (user_ratings d).

(** [ORDER BY ur.updated_at DESC] *)
Definition review_order (a b : rating_row * content_row) : bool :=
  ur_updated_at (fst b) <=? ur_updated_at (fst a).

Definition recent_review_of (x : rating_row * content_row) : recent_review :=
  let (r, c) := x in
  {| rr_rating_id := ur_id r; rr_score := ur_score r;
     rr_review_text := ur_review_text r; rr_updated_at := ur_updated_at r;
     rr_likes_count := coalesce0 (ur_likes_count r);
     rr_tmdb_id := c_tmdb_id c; rr_media_type := c_media_type c;
     rr_title := c_title c; rr_poster_path := c_poster_path c |}.

Definition has_review (r : rating_row) : bool :=
  match ur_review_text r with Some _ => true | None => false end.

Definition get_user_recent_reviews (d : db) (user_id : Z)
    (limit_ : option nat) : list recent_review :=
  let rows :=
    order_by review_order
      (filter (fun x => (ur_user_id (fst x) =? user_id) && has_review (fst x))
         (ratings_with_content d)) in
  map recent_review_of
    (match limit_ with Some n => limit n rows | None => rows end).

(** ** views.py: the follow handler *)

(** [json.loads(request.body)]: either it raises (the text of the exception
    is carried along) or it yields the payload, of which the handler reads
    the key [username]. *)
Inductive json_body :=
| BadJson (err : string)
| Payload (username : option string).

Record request := {
  session_user_id : option Z;
  body : json_body
}.

Inductive json_response :=
| JsonError (status : Z) (error : string)
| JsonFollow (followed : bool) (followers : option Z).

Definition status_code (r : json_response) : Z :=
  match r with
  | JsonError status _ => status
  | JsonFollow _ _ => 200
  end.

Definition username_key (name : string) (u : user_row) : bool :=
  String.eqb (sql_lower sch (u_username u)) (sql_lower sch name).

Definition user_has_id (id : Z) (u : user_row) : bool := u_id u =? id.

Definition follow_key (follower_id followee_id : Z) (f : follow_row) : bool :=
  (uf_follower_id f =? follower_id) && (uf_followee_id f =? followee_id).

Definition follow_of_followee (followee_id : Z) (f : follow_row) : bool :=
  uf_followee_id f =? followee_id.


(** [SET followers_count = followers_count + delta]; NULL stays NULL. *)
Definition bump_followers (delta : Z) (u : user_row) : user_row :=
  {| u_id := u_id u; u_username := u_username u; u_pfp := u_pfp u;
     u_followers_count := option_map (fun n => n + delta) (u_followers_count u);
     u_following_count := u_following_count u |}.

Definition bump_following (delta : Z) (u : user_row) : user_row :=
  {| u_id := u_id u; u_username := u_username u; u_pfp := u_pfp u;
     u_followers_count := u_followers_count u;
     u_following_count :=
       option_map (fun n => n + delta) (u_following_count u) |}.

(** The two UPDATEs inside [try: ... except Exception: pass]: without the
    columns the first one raises and nothing is written. *)
Definition adjust_follow_counts (d : db) (delta : Z) (user_id target_id : Z)
  : db :=
  if follow_count_columns sch then
    let d1 :=
      set_users d
        (update_where (user_has_id target_id) (bump_followers delta)
           (users d)) in
    set_users d1
      (update_where (user_has_id user_id) (bump_following delta) (users d1))
  else d.

(** [(cursor.fetchone() or [0])[0]] on the stored counter, with the live
    count as the path taken when the column does not exist. *)
Definition current_followers (d : db) (target_id : Z) : option Z :=
  if follow_count_columns sch then
    match fetchone_where (user_has_id target_id) (users d) with
    | Some u => u_followers_count u
    | None => Some 0
    end
  else Some (count_where (follow_of_followee target_id) (user_follows d)).

Definition toggle_follow (d : db) (req : request) : db * json_response :=
  match session_user_id req with
  | None => (d, JsonError 401 "Not authenticated")
  | Some user_id =>
      match body req with
      | BadJson err => (d, JsonError 500 err)
      | Payload None => (d, JsonError 400 "Missing username")
      | Payload (Some target_username) =>
          if String.eqb target_username "" then
            (d, JsonError 400 "Missing username")
          else
            match fetchone_where (username_key target_username) (users d) with
            | None => (d, JsonError 404 "User not found")
            | Some row =>
                let target_id := u_id row in
                if user_id =? target_id then
                  (d, JsonError 400 "Cannot follow yourself")
                else
                  match fetchone_where (follow_key user_id target_id)
                          (user_follows d) with
                  | Some f =>
                      let d1 :=
                        set_user_follows d
                          (delete_where (fun g => uf_id g =? uf_id f)
                             (user_follows d)) in
                      let d2 := adjust_follow_counts d1 (-1) user_id target_id in
                      (d2, JsonFollow false (current_followers d2 target_id))
                  | None =>
                      let (id, d0) := nextval_follows d in
                      let d1 :=
                        set_user_follows d0
                          (insert {| uf_id := id; uf_follower_id := user_id;
                                     uf_followee_id := target_id |}
                             (user_follows d0)) in
                      let d2 := adjust_follow_counts d1 1 user_id target_id in
                      (d2, JsonFollow true (current_followers d2 target_id))
                  end
            end
      end
  end.

End Model.

(** ** Constraints of the store

    [ON CONFLICT (user_id, content_id)] is accepted by PostgreSQL only when
    a unique index covers exactly these columns, so the source itself
    witnesses the first two constraints.  The others are the natural keys
    and the primary key the spec lists for the join relations. *)

Definition key2_eqb (a b : Z * Z) : bool :=
  (fst a =? fst b) && (snd a =? snd b).

Definition watched_unique (d : db) : bool :=
  unique_on key2_eqb (fun w => (uw_user_id w, uw_content_id w))
    (user_watched d).

Definition ratings_unique (d : db) : bool :=
  unique_on key2_eqb (fun r => (ur_user_id r, ur_content_id r))
    (user_ratings d).



(** The users that have a watch row for a content, each counted once. *)
Definition distinct_watchers (d : db) (content_id : Z) : list Z :=
  nodup Z.eq_dec
    (map uw_user_id (filter (watched_of_content content_id) (user_watched d))).

(** Two rating rows that agree on every column but [likes_count]. *)
Definition same_but_likes_count (r r' : rating_row) : Prop :=
  ur_id r' = ur_id r /\ ur_user_id r' = ur_user_id r
  /\ ur_content_id r' = ur_content_id r /\ ur_score r' = ur_score r
  /\ ur_review_text r' = ur_review_text r /\ ur_rated_at r' = ur_rated_at r
  /\ ur_updated_at r' = ur_updated_at r.

(** ** A concrete schema and concrete stores *)

Definition plain_schema : schema :=
  {| default_count := Some 0;
     default_avg := None;
     numeric_avg := fun q => q;
     sql_lower := ascii_lower;
     follow_count_columns := true |}.

(** The same schema with counter columns that have no default. *)
Definition null_default_schema : schema :=
  {| default_count := None;
     default_avg := None;
     numeric_avg := fun q => q;
     sql_lower := ascii_lower;
     follow_count_columns := true |}.

Definition fresh_sequences : sequences :=
  {| seq_content := 1; seq_watched := 1; seq_ratings := 1; seq_items := 1;
     seq_lists := 1; seq_comments := 1; seq_follows := 1 |}.

Definition empty_db : db :=
  {| content := []; user_watched := []; user_ratings := []; list_items := [];
     user_lists := []; list_likes := []; list_comments := [];
     user_rating_likes := []; users := []; user_follows := [];
     seqs := fresh_sequences |}.

Definition alice : user_row :=
  {| u_id := 1; u_username := "alice"; u_pfp := None;
     u_followers_count := Some 0; u_following_count := Some 0 |}.

Definition bob : user_row :=
  {| u_id := 2; u_username := "bob"; u_pfp := None;
     u_followers_count := Some 0; u_following_count := Some 0 |}.

Definition carol : user_row :=
  {| u_id := 3; u_username := "carol"; u_pfp := None;
     u_followers_count := Some 0; u_following_count := Some 0 |}.

Definition three_users : db := set_users empty_db [alice; bob; carol].

(** Alice owns a public list that nobody has liked; so does Bob. *)
Definition alice_list : list_row :=
  {| ul_id := 1; ul_user_id := 1; ul_name := "My Favorites";
     ul_description := None; ul_is_public := true;
     ul_likes_count := Some 0; ul_comments_count := Some 1;
     ul_created_at := 1; ul_updated_at := 1 |}.

Definition bob_list : list_row :=
  {| ul_id := 2; ul_user_id := 2; ul_name := "Noir";
     ul_description := None; ul_is_public := true;
     ul_likes_count := Some 0; ul_comments_count := Some 0;
     ul_created_at := 2; ul_updated_at := 2 |}.

(** Bob's comment on Alice's list. *)
Definition bob_comment : comment_row :=
  {| lc_id := 1; lc_list_id := 1; lc_user_id := 2;
     lc_comment_text := "Nice picks"; lc_created_at := 3;
     lc_updated_at := 3 |}.

Definition commented_list : db :=
  set_seqs
    (set_list_comments (set_user_lists three_users [alice_list; bob_list])
       [bob_comment])
    {| seq_content := 1; seq_watched := 1; seq_ratings := 1; seq_items := 1;
       seq_lists := 3; seq_comments := 2; seq_follows := 1 |}.


Definition follow_request (user_id : Z) (username : string) : request :=
  {| session_user_id := Some user_id; body := Payload (Some username) |}.

(** Two public lists without likes or comments, under a schema whose counter
    columns have no default: the older one was liked and unliked, so its
    [likes_count] is 0; the newer one was never touched, so its
    [likes_count] is NULL. *)
Definition two_quiet_lists : db :=
  let d0 := set_users empty_db [alice] in
  let d1 := fst (create_user_list null_default_schema d0 1 1 "Older" None
                   true) in
  let d2 := fst (toggle_like_list d1 2 1 1) in
  let d3 := fst (toggle_like_list d2 5 1 1) in
  fst (create_user_list null_default_schema d3 10 1 "Newer" None true).

(** A list with 8 likes and no comment, a list with 5 likes and 10
    comments, and a private list with more of both. *)
Definition two_ranked_lists : db :=
  set_user_lists three_users
    [{| ul_id := 1; ul_user_id := 1; ul_name := "Liked";
        ul_description := None; ul_is_public := true;
        ul_likes_count := Some 8; ul_comments_count := Some 0;
        ul_created_at := 1; ul_updated_at := 20 |};
     {| ul_id := 2; ul_user_id := 2; ul_name := "Discussed";
        ul_description := None; ul_is_public := true;
        ul_likes_count := Some 5; ul_comments_count := Some 10;
        ul_created_at := 2; ul_updated_at := 10 |};
     {| ul_id := 3; ul_user_id := 3; ul_name := "Hidden";
        ul_description := None; ul_is_public := false;
        ul_likes_count := Some 50; ul_comments_count := Some 50;
        ul_created_at := 3; ul_updated_at := 30 |}].

(** Alice's review of a film, and Bob's later one. *)
Definition two_reviews : db :=
  let d1 := add_rating plain_schema empty_db 1 1 603 "movie" "The Matrix" 80
              (Some "Holds up"%string) None in
  add_rating plain_schema d1 2 2 603 "movie" "The Matrix" 60
    (Some "Overrated"%string) None.

(** The ranking as the specification words it, read off the returned
    entries: NULL counters count as 0 in every sort key. *)
Definition spec_engagement_order (a b : ranked_list) : bool :=
  let ea := rl_likes_count a + rl_comments_count a in
  let eb := rl_likes_count b + rl_comments_count b in
  if eb <? ea then true
  else if ea <? eb then false
  else if rl_likes_count b <? rl_likes_count a then true
  else if rl_likes_count a <? rl_likes_count b then false
  else rl_updated_at b <=? rl_updated_at a.

(** A stand-in for base64 in the examples, where no user has a picture. *)
Definition no_encoding (bytes : string) : string := bytes.

(** * The rest of the service and of the handlers *)

(** ** Python dictionaries

    A [dict] keeps its keys in insertion order; assigning to a key that is
    present replaces the value in place. *)

Section Dict.
Context {K V : Type} (eqb : K -> K -> bool).

Definition dict_get (k : K) (m : list (K * V)) : option V :=
  option_map snd (find (fun kv => eqb (fst kv) k) m).

Definition dict_set (k : K) (v : V) (m : list (K * V)) : list (K * V) :=
  if existsb (fun kv => eqb (fst kv) k) m then
    map (fun kv => if eqb (fst kv) k then (fst kv, v) else kv) m
  else m ++ [(k, v)].
End Dict.

(** ** content_service.py: statistics *)

(** A Python number as the dictionaries carry it: the literal [0], or
    [float(q)] for a decimal [q] read from the store. *)
Inductive py_number :=
| PyInt (z : Z)
| PyFloat (q : Q).

Record content_stats := {
  cs_watched_count : option Z;
  cs_list_count : option Z;
  cs_avg_score : py_number
}.

(** [float(avg) if avg else 0]: NULL and a zero decimal are falsy. *)
Definition avg_or_zero (a : option Q) : py_number :=
  match a with
  | Some q => if Qeq_bool q 0 then PyInt 0 else PyFloat q
  | None => PyInt 0
  end.

Definition stats_of (c : content_row) : content_stats :=
  {| cs_watched_count := c_watched_count c;
     cs_list_count := c_list_count c;
     cs_avg_score := avg_or_zero (c_avg_score c) |}.

Definition zero_stats : content_stats :=
  {| cs_watched_count := Some 0; cs_list_count := Some 0;
     cs_avg_score := PyInt 0 |}.

Definition get_content_stats (d : db) (tmdb_id : Z) (media_type : string)
  : content_stats :=
  match fetchone_where (content_key tmdb_id media_type) (content d) with
  | Some row => stats_of row
  | None => zero_stats
  end.

(** An entry of a catalog response: the keys the code reads or writes, and
    the other keys as they came. *)
Record catalog_item := {
  item_id : option Z;
  item_media_type : option string;
  item_other : list (string * string);
  item_custom_stats : option content_stats
}.

(** [item.get('media_type', 'movie')] *)
Definition media_type_of (item : catalog_item) : string :=
  match item_media_type item with
  | Some m => m
  | None => "movie"%string
  end.

Definition stats_key_eqb (a b : option Z * string) : bool :=
  match fst a, fst b with
  | Some x, Some y => (x =? y) && String.eqb (snd a) (snd b)
  | None, None => String.eqb (snd a) (snd b)
  | _, _ => false
  end.

Definition set_custom_stats (s : content_stats) (item : catalog_item)
  : catalog_item :=
  {| item_id := item_id item; item_media_type := item_media_type item;
     item_other := item_other item; item_custom_stats := Some s |}.

(** The query of the first loop; an item without [id] binds NULL, which
    equals no [tmdb_id]. *)
Definition stats_row (d : db) (item : catalog_item) : option content_row :=
  match item_id item with
  | Some tmdb_id =>
      fetchone_where (content_key tmdb_id (media_type_of item)) (content d)
  | None => None
  end.

Definition enrich_content_with_stats (d : db) (content_list : list catalog_item)
  : list catalog_item :=
  match content_list with
  | [] => content_list
  | _ :: _ =>
      let stats_map :=
        fold_left
          (fun m item =>
             match stats_row d item with
             | Some row =>
                 dict_set stats_key_eqb (item_id item, media_type_of item)
                   (stats_of row) m
             | None => m
             end)
          content_list [] in
      map (fun item =>
             match dict_get stats_key_eqb (item_id item, media_type_of item)
                     stats_map with
             | Some s => set_custom_stats s item
             | None => set_custom_stats zero_stats item
             end)
        content_list
  end.

(** ** content_service.py: membership tests *)

(** [FROM user_watched uw JOIN content c ON uw.content_id = c.id] *)
Definition watched_with_content (d : db) : list (watched_row * content_row) :=
  flat_map
    (fun w =>
       map (pair w) (filter (fun c => c_id c =? uw_content_id w) (content d)))
    (user_watched d).

Definition has_user_watched (d : db) (user_id tmdb_id : Z)
    (media_type : string) : bool :=
  match fetchone_where
          (fun x => (uw_user_id (fst x) =? user_id)
                    && content_key tmdb_id media_type (snd x))
          (watched_with_content d) with
  | Some _ => true
  | None => false
  end.

Definition has_user_rated (d : db) (user_id tmdb_id : Z)
    (media_type : string) : bool :=
  match fetchone_where
          (fun x => (ur_user_id (fst x) =? user_id)
                    && content_key tmdb_id media_type (snd x))
          (ratings_with_content d) with
  | Some _ => true
  | None => false
  end.

(** ** content_service.py: lists and their items *)

Record list_entry := {
  le_id : Z;
  le_user_id : Z;
  le_name : string;
  le_description : option string;
  le_is_public : bool;
  le_likes_count : Z;
  le_comments_count : Z;
  le_created_at : Z;
  le_updated_at : Z
}.

Definition list_entry_of (l : list_row) : list_entry :=
  {| le_id := ul_id l; le_user_id := ul_user_id l; le_name := ul_name l;
     le_description := ul_description l; le_is_public := ul_is_public l;
     le_likes_count := coalesce0 (ul_likes_count l);
     le_comments_count := coalesce0 (ul_comments_count l);
     le_created_at := ul_created_at l; le_updated_at := ul_updated_at l |}.

(** [s.replace('-', ' ')] *)
Fixpoint hyphens_to_spaces (s : string) : string :=
  match s with
  | EmptyString => EmptyString
  | String a s' =>
      String (if Ascii.eqb a "-" then " "%char else a) (hyphens_to_spaces s')
  end.

Fixpoint has_hyphen (s : string) : bool :=
  match s with
  | EmptyString => false
  | String a s' => Ascii.eqb a "-" || has_hyphen s'
  end.

Record list_item_entry := {
  lie_tmdb_id : Z;
  lie_media_type : string;
  lie_title : string;
  lie_poster_path : option string
}.

(** [FROM list_items li JOIN content c ON li.content_id = c.id] *)
Definition items_with_content (d : db) : list (list_item_row * content_row) :=
  flat_map
    (fun i =>
       map (pair i) (filter (fun c => c_id c =? li_content_id i) (content d)))
    (list_items d).

(** [ORDER BY li.added_at DESC] *)
Definition added_order (a b : list_item_row * content_row) : bool :=
  li_added_at (fst b) <=? li_added_at (fst a).

Definition list_item_entry_of (x : list_item_row * content_row)
  : list_item_entry :=
  {| lie_tmdb_id := c_tmdb_id (snd x); lie_media_type := c_media_type (snd x);
     lie_title := c_title (snd x); lie_poster_path := c_poster_path (snd x) |}.

Definition get_list_items (d : db) (list_id : Z) : list list_item_entry :=
  map list_item_entry_of
    (order_by added_order
       (filter (fun x => li_list_id (fst x) =? list_id)
          (items_with_content d))).

Definition get_recent_list_items (d : db) (list_id : Z) (limit_ : nat)
  : list list_item_entry :=
  map list_item_entry_of
    (limit limit_
       (order_by added_order
          (filter (fun x => li_list_id (fst x) =? list_id)
             (items_with_content d)))).

Record item_counts := {
  ic_total : Z;
  ic_movies : Z;
  ic_shows : Z
}.

(** [SUM(CASE WHEN c.media_type = m THEN 1 ELSE 0 END)]: NULL over no row *)
Definition sum_of_media (m : string)
    (rows : list (list_item_row * content_row)) : option Z :=
  match rows with
  | [] => None
  | _ :: _ =>
      Some (fold_right Z.add 0
              (map (fun x => if String.eqb (c_media_type (snd x)) m
                             then 1 else 0) rows))
  end.

Definition get_list_item_counts (d : db) (list_id : Z) : item_counts :=
  let rows :=
    filter (fun x => li_list_id (fst x) =? list_id) (items_with_content d) in
  {| ic_total := coalesce0 (Some (Z.of_nat (List.length rows)));
     ic_movies := coalesce0 (sum_of_media "movie" rows);
     ic_shows := coalesce0 (sum_of_media "tv" rows) |}.


(** [ORDER BY ul.likes_count DESC NULLS LAST, ul.updated_at DESC] *)
Definition popular_order (a b : list_row * user_row) : bool :=
  if nullable_eqb (ul_likes_count (fst a)) (ul_likes_count (fst b)) then
    ul_updated_at (fst b) <=? ul_updated_at (fst a)
  else desc_nulls_last_le (ul_likes_count (fst a)) (ul_likes_count (fst b)).

Record found_list := {
  fl_id : Z;
  fl_user_id : Z;
  fl_name : string;
  fl_description : option string;
  fl_is_public : bool;
  fl_likes_count : Z;
  fl_comments_count : Z;
  fl_updated_at : Z;
  fl_username : string;
  fl_pfp : option string
}.

Record review_entry := {
  re_user_id : Z;
  re_username : string;
  re_pfp : option string;
  re_rating_id : Z;
  re_score : Z;
  re_review_text : option string;
  re_rated_at : Z;
  re_updated_at : Z;
  re_likes_count : Z;
  re_liked_by_me : bool
}.

(** [FROM user_ratings ur JOIN content c ON ur.content_id = c.id
     JOIN users u ON ur.user_id = u.id] *)
Definition reviews_joined (d : db)
  : list (rating_row * content_row * user_row) :=
  flat_map
    (fun rc =>
       map (pair rc)
         (filter (fun u => u_id u =? ur_user_id (fst rc)) (users d)))
    (ratings_with_content d).

(** [CASE WHEN %s IS NULL THEN FALSE ELSE EXISTS (...) END] *)
Definition liked_by (d : db) (current_user_id : option Z) (rating_id : Z)
  : bool :=
  match current_user_id with
  | None => false
  | Some uid =>
      existsb (fun k => (url_rating_id k =? rating_id)
                        && (url_user_id k =? uid))
        (user_rating_likes d)
  end.

Section ReadSide.

Variable sch : schema.

(** [base64.b64encode(...).decode('utf-8')], a library function *)
Variable b64encode : string -> string.

(** [text ILIKE pattern], an operator of the database *)
Variable ilike : string -> string -> bool.

(** The lookup behind the list page: hyphens of the URL part become
    spaces before the case-insensitive comparison. *)
Definition get_list_by_user_and_name (d : db) (user_id : Z)
    (name_or_slug : string) : option list_entry :=
  let guess_name := hyphens_to_spaces name_or_slug in
  match fetchone_where (list_name_key sch user_id guess_name)
          (user_lists d) with
  | None => None
  | Some row => Some (list_entry_of row)
  end.




Definition found_list_of (r : list_row * user_row) : found_list :=
  let (l, u) := r in
  {| fl_id := ul_id l; fl_user_id := ul_user_id l; fl_name := ul_name l;
     fl_description := ul_description l; fl_is_public := ul_is_public l;
     fl_likes_count := coalesce0 (ul_likes_count l);
     fl_comments_count := coalesce0 (ul_comments_count l);
     fl_updated_at := ul_updated_at l;
     fl_username := u_username u; fl_pfp := encode_pfp b64encode (u_pfp u) |}.

(** [ul.name ILIKE q OR ul.description ILIKE q OR u.username ILIKE q]; a
    NULL description makes its disjunct NULL, which selects nothing. *)
Definition search_match (q : string) (r : list_row * user_row) : bool :=
  ilike (ul_name (fst r)) q
  || match ul_description (fst r) with
     | Some text => ilike text q
     | None => false
     end
  || ilike (u_username (snd r)) q.

(** [if viewer_user_id:] is false for [None] and for 0. *)
Definition search_visible (viewer_user_id : option Z)
    (r : list_row * user_row) : bool :=
  match viewer_user_id with
  | Some v =>
      if v =? 0 then ul_is_public (fst r)
      else ul_is_public (fst r) || (ul_user_id (fst r) =? v)
  | None => ul_is_public (fst r)
  end.

Definition search_lists (d : db) (query : string) (viewer_user_id : option Z)
    (limit_ offset : nat) : list found_list :=
  let q := ("%" ++ strip query ++ "%")%string in
  map found_list_of
    (limit limit_
       (skipn offset
          (order_by popular_order
             (filter (fun r => search_visible viewer_user_id r
                               && search_match q r)
                (lists_with_owner d))))).

(** The loop over the rows: a picture is encoded when it is not empty. *)
Definition review_entry_of (d : db) (current_user_id : option Z)
    (x : rating_row * content_row * user_row) : review_entry :=
  let r := fst (fst x) in
  let u := snd x in
  {| re_user_id := u_id u; re_username := u_username u;
     re_pfp := match u_pfp u with
               | Some bytes =>
                   if String.eqb bytes "" then Some bytes
                   else Some (b64encode bytes)
               | None => None
               end;
     re_rating_id := ur_id r; re_score := ur_score r;
     re_review_text := ur_review_text r; re_rated_at := ur_rated_at r;
     re_updated_at := ur_updated_at r;
     re_likes_count := coalesce0 (ur_likes_count r);
     re_liked_by_me := liked_by d current_user_id (ur_id r) |}.

(** [ORDER BY ur.updated_at DESC] *)
Definition joined_review_order (a b : rating_row * content_row * user_row)
  : bool :=
  ur_updated_at (fst (fst b)) <=? ur_updated_at (fst (fst a)).

Definition get_content_reviews (d : db) (tmdb_id : Z) (media_type : string)
    (current_user_id : option Z) : list review_entry :=
  map (review_entry_of d current_user_id)
    (order_by joined_review_order
       (filter (fun x => content_key tmdb_id media_type (snd (fst x))
                         && has_review (fst (fst x)))
          (reviews_joined d))).

End ReadSide.

(** ** views.py: the JSON handlers around the service *)

(** [json.loads(request.body)]: it raises, or it yields the keys the
    handler reads. *)
Inductive parsed (A : Type) :=
| Unparsable (err : string)
| Parsed (payload : A).

Arguments Unparsable {A} err.
Arguments Parsed {A} payload.

(** [JsonResponse({'success': False, 'error': ...}, status=...)] or
    [JsonResponse({'success': True, ...})] *)
Inductive response (A : Type) :=
| Failure (status : Z) (error : string)
| Success (payload : A).

Arguments Failure {A} status error.
Arguments Success {A} payload.

Definition response_status {A : Type} (r : response A) : Z :=
  match r with
  | Failure status _ => status
  | Success _ => 200
  end.

(** Truthiness of a value read with [data.get]: a missing key, [0] and the
    empty string are falsy. *)
Definition truthy_int (x : option Z) : option Z :=
  match x with
  | Some z => if z =? 0 then None else Some z
  | None => None
  end.

Definition truthy_text (x : option string) : option string :=
  match x with
  | Some s => if String.eqb s "" then None else Some s
  | None => None
  end.

Record content_payload := {
  cp_tmdb_id : option Z;
  cp_media_type : option string;
  cp_title : option string;
  cp_poster_path : option string
}.


Record list_item_payload := {
  lp_list_id : option Z;
  lp_tmdb_id : option Z;
  lp_media_type : option string;
  lp_title : option string;
  lp_poster_path : option string
}.


Section Handlers.

Variable sch : schema.

Definition mark_watched (d : db) (now : Z) (session : option Z)
    (body : parsed content_payload) : db * response content_stats :=
  match session with
  | None => (d, Failure 401 "Not logged in")
  | Some user_id =>
      match body with
      | Unparsable err => (d, Failure 500 err)
      | Parsed data =>
          match truthy_int (cp_tmdb_id data),
                truthy_text (cp_media_type data),
                truthy_text (cp_title data) with
          | Some tmdb_id, Some media_type, Some title =>
              let d' := mark_as_watched sch d now user_id tmdb_id media_type
                          title (cp_poster_path data) in
              (d', Success (get_content_stats d' tmdb_id media_type))
          | _, _, _ => (d, Failure 400 "Missing required fields")
          end
      end
  end.


Definition add_to_list_view (d : db) (now : Z) (session : option Z)
    (body : parsed list_item_payload) : db * response content_stats :=
  match session with
  | None => (d, Failure 401 "Not logged in")
  | Some user_id =>
      match body with
      | Unparsable err => (d, Failure 500 err)
      | Parsed data =>
          match truthy_int (lp_list_id data),
                truthy_int (lp_tmdb_id data),
                truthy_text (lp_media_type data),
                truthy_text (lp_title data) with
          | Some list_id, Some tmdb_id, Some media_type, Some title =>
              if negb (verify_user_owns_list d user_id list_id) then
                (d, Failure 403 "Unauthorized list access")
              else
                let d' := add_to_list sch d now list_id tmdb_id media_type
                            title (lp_poster_path data) in
                (d', Success (get_content_stats d' tmdb_id media_type))
          | _, _, _, _ => (d, Failure 400 "Missing required fields")
          end
      end
  end.

End Handlers.

(** The [except] clauses of [delete_list_comment_view], in their order. *)
Definition delete_list_comment_view (d : db) (now : Z) (session : option Z)
    (body : parsed (option Z)) : db * response deleted_comment :=
  match session with
  | None => (d, Failure 401 "Not logged in")
  | Some user_id =>
      match body with
      | Unparsable err => (d, Failure 500 err)
      | Parsed comment_id =>
          match truthy_int comment_id with
          | None => (d, Failure 400 "Missing comment_id")
          | Some comment_id =>
              match delete_list_comment d now user_id comment_id with
              | (d', inr result) => (d', Success result)
              | (d', inl (PermissionError msg)) => (d', Failure 403 msg)
              | (d', inl (ValueError msg)) => (d', Failure 404 msg)
              | (d', inl (TypeError msg)) => (d', Failure 500 msg)
              end
          end
      end
  end.

(** ** views.py: the per-user settings

    The handler creates its table itself, with
    [PRIMARY KEY (user_id, key)]. *)

Record setting_row := {
  us_user_id : Z;
  us_key : string;
  us_value : option string
}.

Definition setting_key (user_id : Z) (key : string) (r : setting_row) : bool :=
  (us_user_id r =? user_id) && String.eqb (us_key r) key.

Definition key_text_eqb (a b : Z * string) : bool :=
  (fst a =? fst b) && String.eqb (snd a) (snd b).

Definition settings_unique (t : list setting_row) : bool :=
  unique_on key_text_eqb (fun r => (us_user_id r, us_key r)) t.

(** [{k: v for (k, v) in rows}] *)
Definition get_user_settings (t : list setting_row) (user_id : Z)
  : list (string * option string) :=
  fold_left (fun m r => dict_set String.eqb (us_key r) (us_value r) m)
    (filter (fun r => us_user_id r =? user_id) t) [].

Definition set_setting_value (v : option string) (r : setting_row)
  : setting_row :=
  {| us_user_id := us_user_id r; us_key := us_key r; us_value := v |}.

(** The loop over [updates.items()]; each value arrives as [str(v)]. *)
Definition set_user_settings (t : list setting_row) (user_id : Z)
    (updates : list (string * string)) : list setting_row :=
  fold_left
    (fun t kv =>
       insert_or_update (setting_key user_id (fst kv))
         {| us_user_id := user_id; us_key := fst kv;
            us_value := Some (snd kv) |}
         (set_setting_value (Some (snd kv))) t)
    updates t.

(** ** views.py: slugs *)

(** [\w] of the [re] module on the code points below 256 *)
Definition isword (a : ascii) : bool :=
  let n := nat_of_ascii a in
  (((48 <=? n) && (n <=? 57)) || ((65 <=? n) && (n <=? 90)) || (n =? 95)
   || ((97 <=? n) && (n <=? 122))
   || existsb (Nat.eqb n) [170; 178; 179; 181; 185; 186; 188; 189; 190]
   || ((192 <=? n) && (n <=? 214)) || ((216 <=? n) && (n <=? 246))
   || ((248 <=? n) && (n <=? 255)))%nat.

(** [str.lower] on the code points below 256 *)
Definition py_lower_char (a : ascii) : ascii :=
  let n := nat_of_ascii a in
  if (((65 <=? n) && (n <=? 90)) || ((192 <=? n) && (n <=? 214))
      || ((216 <=? n) && (n <=? 222)))%nat
  then ascii_of_nat (n + 32) else a.

Fixpoint py_lower (s : string) : string :=
  match s with
  | EmptyString => EmptyString
  | String a s' => String (py_lower_char a) (py_lower s')
  end.

Definition is_hyphen (a : ascii) : bool := Ascii.eqb a "-".

(** [re.sub(r'[^\w\s-]', '', s)] *)
Fixpoint drop_special (s : string) : string :=
  match s with
  | EmptyString => EmptyString
  | String a s' =>
      if isword a || isspace a || is_hyphen a
      then String a (drop_special s') else drop_special s'
  end.

(** [re.sub(r'[-\s]+', '-', s)]; [in_run] says that the character before
    belonged to the run being replaced. *)
Fixpoint collapse_runs (in_run : bool) (s : string) : string :=
  match s with
  | EmptyString => EmptyString
  | String a s' =>
      if is_hyphen a || isspace a then
        if in_run then collapse_runs true s'
        else String "-" (collapse_runs true s')
      else String a (collapse_runs false s')
  end.

(** [s.strip(chars)] for the characters selected by [p] *)
Fixpoint lstrip_chars (p : ascii -> bool) (s : string) : string :=
  match s with
  | EmptyString => EmptyString
  | String a s' => if p a then lstrip_chars p s' else s
  end.

Fixpoint rstrip_chars (p : ascii -> bool) (s : string) : string :=
  match s with
  | EmptyString => EmptyString
  | String a s' =>
      match rstrip_chars p s' with
      | EmptyString => if p a then EmptyString else String a EmptyString
      | r => String a r
      end
  end.

Definition strip_chars (p : ascii -> bool) (s : string) : string :=
  rstrip_chars p (lstrip_chars p s).

(** [s.strip('-')] *)
Definition strip_hyphens (s : string) : string := strip_chars is_hyphen s.

Definition slugify_title (title : string) (year : option string) : string :=
  let slug := drop_special (py_lower title) in
  let slug := strip_hyphens (collapse_runs false slug) in
  match year with
  | Some y => if String.eqb y "" then slug else (slug ++ "-" ++ y)%string
  | None => slug
  end.

(** [s.rsplit('-', 1)] when [s] has a hyphen: what precedes the last one
    and what follows it. *)
Fixpoint rsplit_hyphen (s : string) : option (string * string) :=
  match s with
  | EmptyString => None
  | String a s' =>
      match rsplit_hyphen s' with
      | Some (before, after) => Some (String a before, after)
      | None => if is_hyphen a then Some (EmptyString, s') else None
      end
  end.

(** [str.isdigit] on the code points below 256 *)
Definition isdigit_char (a : ascii) : bool :=
  let n := nat_of_ascii a in
  (((48 <=? n) && (n <=? 57)) || existsb (Nat.eqb n) [178; 179; 185])%nat.

Fixpoint all_digits (s : string) : bool :=
  match s with
  | EmptyString => true
  | String a s' => isdigit_char a && all_digits s'
  end.

Definition isdigit (s : string) : bool :=
  negb (String.eqb s "") && all_digits s.

(** The first statements of [movie_detail] and [tv_detail]: [parts[0]], out
    of which the title searched for is made, and the year. *)
Definition slug_parts (slug : string) : string * option string :=
  match rsplit_hyphen slug with
  | Some (before, after) =>
      (before, if isdigit after then Some after else None)
  | None => (slug, None)
  end.

(** ** settings.py *)

(** [s.split(',')] *)
Fixpoint split_commas (s : string) : list string :=
  match s with
  | EmptyString => [EmptyString]
  | String a s' =>
      if Ascii.eqb a "," then EmptyString :: split_commas s'
      else match split_commas s' with
           | [] => [String a EmptyString]
           | first :: others => String a first :: others
           end
  end.

(** [_split_env_list]; [env] is the value of the variable when it is set. *)
Definition _split_env_list (env : option string) (default_value : string)
  : list string :=
  let raw := match env with Some v => v | None => default_value end in
  map strip
    (filter (fun item => negb (String.eqb item "")
                         && negb (String.eqb (strip item) ""))
       (split_commas raw)).

(** [','.join(items)] *)
Fixpoint join_commas (items : list string) : string :=
  match items with
  | [] => EmptyString
  | [x] => x
  | x :: rest => (x ++ "," ++ join_commas rest)%string
  end.

Fixpoint has_comma (s : string) : bool :=
  match s with
  | EmptyString => false
  | String a s' => Ascii.eqb a "," || has_comma s'
  end.

(** ** Further constraints of the store *)

(** One content row per catalog key. *)
Definition content_unique (d : db) : bool :=
  unique_on key_text_eqb (fun c => (c_tmdb_id c, c_media_type c)) (content d).


(** ** Shapes of strings *)

Fixpoint all_chars (p : ascii -> bool) (s : string) : bool :=
  match s with
  | EmptyString => true
  | String a s' => p a && all_chars p s'
  end.

(** The first character, when there is one, satisfies [p]. *)
Definition head_is (p : ascii -> bool) (s : string) : bool :=
  match s with
  | EmptyString => false
  | String a _ => p a
  end.

(** The last character, when there is one, satisfies [p]. *)
Fixpoint last_is (p : ascii -> bool) (s : string) : bool :=
  match s with
  | EmptyString => false
  | String a EmptyString => p a
  | String _ s' => last_is p s'
  end.

(** Two hyphens in a row. *)
Fixpoint double_hyphen (s : string) : bool :=
  match s with
  | EmptyString => false
  | String a s' => (is_hyphen a && head_is is_hyphen s') || double_hyphen s'
  end.

(** What a slug is made of: word characters and hyphens, none of them
    changed by [str.lower]. *)
Definition slug_char (a : ascii) : bool := isword a || is_hyphen a.

Definition lowered (a : ascii) : bool := Ascii.eqb (py_lower_char a) a.

(** ** A pattern matcher for the examples

    [ILIKE] restricted to the patterns [search_lists] builds from a query
    without wild cards: the text between the two [%] occurs in the column,
    letters compared without case. *)

Fixpoint occurs_in (part text : string) : bool :=
  String.prefix part text
  || match text with
     | EmptyString => false
     | String _ rest => occurs_in part rest
     end.

Definition ilike_contains (text pattern : string) : bool :=
  occurs_in
    (ascii_lower (strip_chars (fun a => Ascii.eqb a "%") pattern))
    (ascii_lower text).

(** * Properties *)

(** ** Facts about the SQL statements *)

Section SqlFacts.
Context {row : Type}.
Implicit Types (p q : row -> bool) (f : row -> row) (t : list row).

Lemma count_where_nonneg p t : 0 <= count_where p t.
Proof. unfold count_where. lia. Qed.

Lemma count_where_app p t1 t2 :
  count_where p (t1 ++ t2) = count_where p t1 + count_where p t2.
Proof.
  unfold count_where. rewrite filter_app, length_app. lia.
Qed.

Lemma count_where_insert p r t :
  count_where p (insert r t) = count_where p t + (if p r then 1 else 0).
Proof.
  unfold insert. rewrite count_where_app. unfold count_where at 2. simpl.
  destruct (p r); reflexivity.
Qed.

Lemma count_where_ext p q t :
  (forall r, In r t -> p r = q r) -> count_where p t = count_where q t.
Proof.
  intros H. unfold count_where. f_equal. f_equal.
  now apply filter_ext_in.
Qed.

Lemma fetchone_some p t r :
  fetchone_where p t = Some r -> In r t /\ p r = true.
Proof. apply find_some. Qed.

Lemma fetchone_none_iff p t :
  fetchone_where p t = None <-> count_where p t = 0.
Proof.
  unfold fetchone_where, count_where.
  induction t as [|x t IH]; simpl.
  - tauto.
  - destruct (p x); simpl.
    + split; [discriminate | lia].
    + exact IH.
Qed.

Lemma existsb_fetchone p t :
  existsb p t = match fetchone_where p t with Some _ => true | None => false end.
Proof.
  unfold fetchone_where.
  induction t as [|x t IH]; simpl; [reflexivity|].
  destruct (p x); simpl; auto.
Qed.

Lemma fetchone_app p t1 t2 :
  fetchone_where p (t1 ++ t2) =
  match fetchone_where p t1 with
  | Some r => Some r
  | None => fetchone_where p t2
  end.
Proof.
  unfold fetchone_where.
  induction t1 as [|x t1 IH]; simpl; [reflexivity|].
  destruct (p x); auto.
Qed.

Lemma update_where_In p f t r' :
  In r' (update_where p f t) <->
  exists r, In r t /\ r' = (if p r then f r else r).
Proof.
  unfold update_where. rewrite in_map_iff.
  split; intros (r & H1 & H2); exists r; auto.
Qed.

Lemma length_update_where p f t :
  List.length (update_where p f t) = List.length t.
Proof. apply length_map. Qed.

Lemma filter_update_where p q f t :
  (forall r, p (f r) = p r) ->
  filter p (update_where q f t) = update_where q f (filter p t).
Proof.
  intros Hp. unfold update_where.
  induction t as [|x t IH]; simpl; [reflexivity|].
  assert (E : p (if q x then f x else x) = p x)
    by (destruct (q x); auto).
  rewrite E. destruct (p x); simpl; rewrite IH; reflexivity.
Qed.

Lemma count_update_where p q f t :
  (forall r, p (f r) = p r) ->
  count_where p (update_where q f t) = count_where p t.
Proof.
  intros Hp. unfold count_where.
  rewrite filter_update_where by assumption.
  now rewrite length_update_where.
Qed.

Lemma fetchone_update_where p q f t :
  (forall r, p (f r) = p r) ->
  fetchone_where p (update_where q f t) =
  option_map (fun r => if q r then f r else r) (fetchone_where p t).
Proof.
  intros Hp. unfold fetchone_where, update_where.
  induction t as [|x t IH]; simpl; [reflexivity|].
  assert (E : p (if q x then f x else x) = p x)
    by (destruct (q x); auto).
  rewrite E. destruct (p x); simpl; auto.
Qed.

Lemma count_delete_where p t : count_where p (delete_where p t) = 0.
Proof.
  unfold count_where, delete_where.
  induction t as [|x t IH]; simpl; [reflexivity|].
  destruct (p x) eqn:E; simpl; [exact IH|].
  rewrite E. exact IH.
Qed.

Lemma delete_where_In p t r :
  In r (delete_where p t) <-> In r t /\ p r = false.
Proof.
  unfold delete_where. rewrite filter_In.
  destruct (p r); simpl; intuition congruence.
Qed.

(** Deleting by [p] leaves the rows counted by a disjoint [q] alone. *)
Lemma count_delete_where_other p q t :
  (forall r, In r t -> q r = true -> p r = false) ->
  count_where q (delete_where p t) = count_where q t.
Proof.
  unfold count_where, delete_where.
  induction t as [|x t IH]; simpl; intros H; [reflexivity|].
  assert (IH' : Z.of_nat (List.length (filter q (filter (fun r => negb (p r)) t)))
                = Z.of_nat (List.length (filter q t)))
    by (apply IH; intros; apply H; auto).
  destruct (q x) eqn:Eq.
  - rewrite (H x (or_introl eq_refl) Eq). simpl. rewrite Eq. simpl. lia.
  - destruct (p x); simpl; [|rewrite Eq]; exact IH'.
Qed.

Section Unique.
Context {K : Type} (eqb : K -> K -> bool) (key : row -> K).
Hypothesis eqb_eq : forall a b, eqb a b = true <-> a = b.

Lemma distinct_NoDup (ks : list K) : distinct eqb ks = true <-> NoDup ks.
Proof.
  induction ks as [|k ks IH]; simpl.
  - split; [constructor | reflexivity].
  - rewrite andb_true_iff, negb_true_iff, IH, NoDup_cons_iff.
    assert (E : existsb (eqb k) ks = false <-> ~ In k ks).
    { rewrite <- not_true_iff_false, existsb_exists.
      split; intros H C; apply H.
      - exists k. split; [assumption | now apply eqb_eq].
      - destruct C as (x & Hx & Hk). apply eqb_eq in Hk. now subst. }
    tauto.
Qed.

(** Under a unique index at most one row answers a key lookup. *)
Lemma unique_on_count p t k :
  unique_on eqb key t = true ->
  (forall r, p r = true -> key r = k) ->
  count_where p t <= 1.
Proof.
  unfold unique_on, count_where. intros U Hk.
  induction t as [|x t IH]; simpl in *; [lia|].
  apply andb_true_iff in U. destruct U as [Hx U].
  specialize (IH U).
  destruct (p x) eqn:Ex; simpl; [|assumption].
  assert (filter p t = []) as ->; [|simpl; lia].
  destruct (filter p t) as [|y l] eqn:El; [reflexivity|exfalso].
  assert (Hy : In y (filter p t)) by (rewrite El; left; reflexivity).
  apply filter_In in Hy. destruct Hy as [Hy Hpy].
  apply negb_true_iff in Hx.
  apply not_true_iff_false in Hx. apply Hx.
  apply existsb_exists. exists (key y). split.
  - now apply in_map.
  - apply eqb_eq. rewrite (Hk _ Ex), (Hk _ Hpy). reflexivity.
Qed.

Lemma unique_on_insert t r :
  unique_on eqb key t = true ->
  (forall x, In x t -> key x <> key r) ->
  unique_on eqb key (insert r t) = true.
Proof.
  unfold unique_on, insert. rewrite !distinct_NoDup, map_app. simpl.
  intros U Hr. apply NoDup_app; auto.
  - repeat constructor. simpl. tauto.
  - intros k Hk [<-|[]]. apply in_map_iff in Hk.
    destruct Hk as (x & Hx & Hin). now apply (Hr x).
Qed.

Lemma unique_on_update p f t :
  unique_on eqb key t = true ->
  (forall r, key (f r) = key r) ->
  unique_on eqb key (update_where p f t) = true.
Proof.
  unfold unique_on, update_where. intros U Hf.
  rewrite map_map.
  erewrite map_ext; [exact U|].
  intros r. simpl. destruct (p r); auto.
Qed.

End Unique.
End SqlFacts.

Lemma key2_eqb_eq (a b : Z * Z) : key2_eqb a b = true <-> a = b.
Proof.
  destruct a as [a1 a2], b as [b1 b2]. unfold key2_eqb. simpl.
  rewrite andb_true_iff, !Z.eqb_eq.
  split; [intros [-> ->]; reflexivity | intros [= -> ->]; auto].
Qed.

Lemma update_where_hit {row : Type} (p : row -> bool) (f : row -> row)
    (t : list row) (r' : row) :
  (forall r, p (f r) = p r) ->
  In r' (update_where p f t) -> p r' = true ->
  exists r, In r t /\ p r = true /\ r' = f r.
Proof.
  intros Hp Hin Hr'. apply update_where_In in Hin.
  destruct Hin as (r & Hr & E). exists r.
  destruct (p r) eqn:Epr; subst r'; auto.
  congruence.
Qed.

Lemma update_where_miss {row : Type} (p : row -> bool) (f : row -> row)
    (t : list row) (r' : row) :
  (forall r, p (f r) = p r) ->
  In r' (update_where p f t) -> p r' = false -> In r' t.
Proof.
  intros Hp Hin Hr'. apply update_where_In in Hin.
  destruct Hin as (r & Hr & E).
  destruct (p r) eqn:Epr; subst r'; auto.
  rewrite Hp in Hr'. congruence.
Qed.

Lemma update_where_keeps {row : Type} (p : row -> bool) (f : row -> row)
    (t : list row) (r : row) :
  In r t -> p r = true -> In (f r) (update_where p f t).
Proof.
  intros Hin Hp. apply update_where_In. exists r. now rewrite Hp.
Qed.

(** ** The content identity resolver *)

Section Properties.

Variable sch : schema.

Lemma content_key_refl tmdb_id media_type c :
  c_tmdb_id c = tmdb_id -> c_media_type c = media_type ->
  content_key tmdb_id media_type c = true.
Proof.
  intros <- <-. unfold content_key.
  now rewrite Z.eqb_refl, String.eqb_refl.
Qed.

(** The handle returned is the id of the first content row carrying the
    catalog key in the store that is returned. *)
Lemma get_or_create_content_handle d now tmdb_id media_type title p b r :
  exists c,
    fetchone_where (content_key tmdb_id media_type)
      (content (fst (get_or_create_content sch d now tmdb_id media_type
                       title p b r))) = Some c
    /\ c_id c =
       snd (get_or_create_content sch d now tmdb_id media_type title p b r).
Proof.
  unfold get_or_create_content.
  destruct (fetchone_where _ (content d)) as [c|] eqn:E; simpl.
  - exists c. auto.
  - unfold insert. rewrite fetchone_app, E. simpl.
    rewrite content_key_refl by reflexivity.
    eexists. split; reflexivity.
Qed.

(** A second resolution of the same key changes nothing. *)
Lemma get_or_create_content_again d now tmdb_id media_type title p b r c :
  fetchone_where (content_key tmdb_id media_type) (content d) = Some c ->
  get_or_create_content sch d now tmdb_id media_type title p b r
  = (d, c_id c).
Proof.
  intros E. unfold get_or_create_content. now rewrite E.
Qed.

(** The resolver writes [content] and its sequence only. *)
Lemma get_or_create_content_frame d now tmdb_id media_type title p b r :
  let d1 := fst (get_or_create_content sch d now tmdb_id media_type
                   title p b r) in
  user_watched d1 = user_watched d /\ user_ratings d1 = user_ratings d
  /\ list_items d1 = list_items d /\ user_lists d1 = user_lists d
  /\ list_likes d1 = list_likes d /\ list_comments d1 = list_comments d
  /\ user_rating_likes d1 = user_rating_likes d /\ users d1 = users d
  /\ user_follows d1 = user_follows d.
Proof.
  unfold get_or_create_content.
  destruct (fetchone_where _ (content d)); simpl; repeat split.
Qed.

(** ** Watch marks *)

Lemma watched_key_iff user_id content_id w :
  watched_key user_id content_id w = true <->
  (uw_user_id w, uw_content_id w) = (user_id, content_id).
Proof.
  unfold watched_key. rewrite andb_true_iff, !Z.eqb_eq.
  split; [intros [-> ->]; reflexivity | intros [= -> ->]; auto].
Qed.

(** What [mark_as_watched] writes, statement by statement. *)
Lemma mark_as_watched_tables d now user_id tmdb_id media_type title poster :
  let d1 := fst (get_or_create_content sch d now tmdb_id media_type title
                   poster None None) in
  let cid := snd (get_or_create_content sch d now tmdb_id media_type title
                    poster None None) in
  let d' := mark_as_watched sch d now user_id tmdb_id media_type title
              poster in
  user_watched d' =
    insert_or_ignore (watched_key user_id cid)
      {| uw_id := seq_watched (seqs d1); uw_user_id := user_id;
         uw_content_id := cid; uw_watched_at := now |} (user_watched d)
  /\ content d' =
     update_where (content_has_id cid)
       (set_watched_count
          (Some (count_where (watched_of_content cid) (user_watched d'))) now)
       (content d1).
Proof.
  intros d1 cid d'. subst d'. unfold mark_as_watched.
  pose proof (get_or_create_content_frame d now tmdb_id media_type title
                poster None None) as F.
  simpl in F. destruct F as (Fw & _).
  fold d1 in Fw. subst d1 cid.
  destruct (get_or_create_content sch d now tmdb_id media_type title
              poster None None) as [d1 cid].
  simpl in *. rewrite Fw. split; reflexivity.
Qed.

(** After the call every content row with the resolved id stores the
    aggregate, whatever it stored before, and there is such a row. *)
Lemma mark_as_watched_counter d now user_id tmdb_id media_type title poster :
  let cid := snd (get_or_create_content sch d now tmdb_id media_type title
                    poster None None) in
  let d' := mark_as_watched sch d now user_id tmdb_id media_type title
              poster in
  (exists c, fetchone_where (content_key tmdb_id media_type) (content d')
             = Some c /\ c_id c = cid)
  /\ forall c, In c (content d') -> c_id c = cid ->
       c_watched_count c
       = Some (count_where (watched_of_content cid) (user_watched d')).
Proof.
  intros cid d'.
  destruct (mark_as_watched_tables d now user_id tmdb_id media_type title
              poster) as [_ Hc].
  fold cid d' in Hc.
  destruct (get_or_create_content_handle d now tmdb_id media_type title
              poster None None) as (c0 & Hf & Hid).
  fold cid in Hid. split.
  - rewrite Hc, fetchone_update_where by reflexivity.
    rewrite Hf. simpl. eexists. split; [reflexivity|].
    destruct (content_has_id cid c0); assumption.
  - intros c Hin Hcid. rewrite Hc in Hin.
    apply update_where_hit in Hin; [| reflexivity
                                    | unfold content_has_id; now apply Z.eqb_eq].
    destruct Hin as (r0 & _ & _ & ->). reflexivity.
Qed.

Section InsertOrIgnore.
Context {row K : Type} (eqb : K -> K -> bool) (key : row -> K).
Hypothesis eqb_eq : forall a b, eqb a b = true <-> a = b.
Variables (conflict : row -> bool) (k : K) (r : row).
Hypothesis conflict_key : forall x, conflict x = true <-> key x = k.
Hypothesis key_r : key r = k.

Lemma insert_or_ignore_unique t :
  unique_on eqb key t = true ->
  unique_on eqb key (insert_or_ignore conflict r t) = true.
Proof.
  intros U. unfold insert_or_ignore.
  destruct (existsb conflict t) eqn:E; [assumption|].
  apply unique_on_insert; auto.
  intros x Hx Hk.
  apply not_true_iff_false in E. apply E.
  apply existsb_exists. exists x. split; [assumption|].
  apply conflict_key. congruence.
Qed.

Lemma insert_or_ignore_one t :
  unique_on eqb key t = true ->
  count_where conflict (insert_or_ignore conflict r t) = 1.
Proof.
  intros U. unfold insert_or_ignore.
  destruct (existsb conflict t) eqn:E.
  - assert (count_where conflict t <= 1)
      by (apply (unique_on_count eqb key eqb_eq conflict t k U);
          intros; now apply conflict_key).
    rewrite existsb_fetchone in E.
    destruct (fetchone_where conflict t) eqn:F; [|discriminate].
    assert (count_where conflict t <> 0)
      by (rewrite <- fetchone_none_iff; congruence).
    pose proof (count_where_nonneg conflict t). lia.
  - rewrite count_where_insert.
    rewrite existsb_fetchone in E.
    destruct (fetchone_where conflict t) eqn:F; [discriminate|].
    apply fetchone_none_iff in F. rewrite F.
    assert (conflict r = true) as -> by now apply conflict_key.
    reflexivity.
Qed.

(** Once the key is present the statement does nothing. *)
Lemma insert_or_ignore_present r' t :
  0 < count_where conflict t -> insert_or_ignore conflict r' t = t.
Proof.
  intros H. unfold insert_or_ignore. rewrite existsb_fetchone.
  destruct (fetchone_where conflict t) eqn:F; [reflexivity|].
  apply fetchone_none_iff in F. lia.
Qed.
End InsertOrIgnore.

(** Under the unique index, counting the watch rows of a content counts
    its distinct watchers. *)
Lemma watchers_NoDup (t : list watched_row) content_id :
  NoDup (map (fun w => (uw_user_id w, uw_content_id w)) t) ->
  NoDup (map uw_user_id (filter (watched_of_content content_id) t)).
Proof.
  induction t as [|w t IH]; simpl; intros U; [constructor|].
  apply NoDup_cons_iff in U. destruct U as [Hw U].
  destruct (watched_of_content content_id w) eqn:E; simpl; auto.
  constructor; auto.
  intros C. apply Hw. apply in_map_iff in C.
  destruct C as (x & Hx & Hin). apply filter_In in Hin.
  destruct Hin as [Hin Ex].
  apply in_map_iff. exists x. split; [|assumption].
  unfold watched_of_content in *. apply Z.eqb_eq in E, Ex. congruence.
Qed.

Lemma count_distinct_watchers d content_id :
  watched_unique d = true ->
  count_where (watched_of_content content_id) (user_watched d)
  = Z.of_nat (List.length (distinct_watchers d content_id)).
Proof.
  unfold watched_unique, unique_on, distinct_watchers, count_where.
  intros U. apply (distinct_NoDup key2_eqb key2_eqb_eq) in U.
  rewrite nodup_fixed_point by now apply watchers_NoDup.
  now rewrite length_map.
Qed.

Lemma mark_as_watched_unique d now user_id tmdb_id media_type title poster :
  watched_unique d = true ->
  watched_unique
    (mark_as_watched sch d now user_id tmdb_id media_type title poster)
  = true.
Proof.
  intros U. unfold watched_unique.
  destruct (mark_as_watched_tables d now user_id tmdb_id media_type title
              poster) as [-> _].
  apply (insert_or_ignore_unique key2_eqb _ key2_eqb_eq _
           (user_id,
            snd (get_or_create_content sch d now tmdb_id media_type title
                   poster None None))).
  - intros x. apply watched_key_iff.
  - reflexivity.
  - exact U.
Qed.

(** C2: marking the same (user, content) pair as watched twice leaves
    exactly one watch row for the pair, and the content's [watched_count]
    is then the number of distinct users that have a watch row for it. *)
Theorem mark_as_watched_twice
    d now1 now2 user_id tmdb_id media_type title1 title2 poster1 poster2 :
  watched_unique d = true ->
  let d1 := mark_as_watched sch d now1 user_id tmdb_id media_type title1
              poster1 in
  let d2 := mark_as_watched sch d1 now2 user_id tmdb_id media_type title2
              poster2 in
  exists c,
    fetchone_where (content_key tmdb_id media_type) (content d2) = Some c
    /\ count_where (watched_key user_id (c_id c)) (user_watched d2) = 1
    /\ user_watched d2 = user_watched d1
    /\ c_watched_count c
       = Some (Z.of_nat (List.length (distinct_watchers d2 (c_id c))))
    /\ forall c', In c' (content d2) -> c_id c' = c_id c ->
         c_watched_count c' = c_watched_count c.
Proof.
  intros U d1 d2.
  (* first call *)
  destruct (mark_as_watched_counter d now1 user_id tmdb_id media_type title1
              poster1) as [(c1 & Hf1 & Hid1) _].
  destruct (mark_as_watched_tables d now1 user_id tmdb_id media_type title1
              poster1) as [Hw1 _].
  fold d1 in Hf1, Hw1.
  set (cid := snd (get_or_create_content sch d now1 tmdb_id media_type
                     title1 poster1 None None)) in *.
  assert (One : count_where (watched_key user_id cid) (user_watched d1) = 1).
  { rewrite Hw1.
    apply (insert_or_ignore_one key2_eqb
             (fun w => (uw_user_id w, uw_content_id w)) key2_eqb_eq _
             (user_id, cid)).
    - intros x. apply watched_key_iff.
    - reflexivity.
    - exact U. }
  assert (U1 : watched_unique d1 = true)
    by now apply mark_as_watched_unique.
  (* second call: the resolver finds the row of the first call *)
  pose proof (get_or_create_content_again d1 now2 tmdb_id media_type title2
                poster2 None None c1 Hf1) as G.
  destruct (mark_as_watched_tables d1 now2 user_id tmdb_id media_type title2
              poster2) as [Hw2 _].
  destruct (mark_as_watched_counter d1 now2 user_id tmdb_id media_type title2
              poster2) as [(c2 & Hf2 & Hid2) Hcnt].
  fold d2 in Hw2, Hf2, Hcnt.
  rewrite G in Hw2, Hid2, Hcnt. simpl in Hw2, Hid2, Hcnt.
  rewrite Hid1 in Hw2, Hid2, Hcnt.
  rewrite insert_or_ignore_present in Hw2 by lia.
  assert (U2 : watched_unique d2 = true)
    by now apply mark_as_watched_unique.
  apply fetchone_some in Hf2 as Hin2. destruct Hin2 as [Hin2 _].
  exists c2. rewrite Hid2. repeat split.
  - assumption.
  - now rewrite Hw2.
  - assumption.
  - rewrite (Hcnt c2 Hin2 Hid2). f_equal.
    now apply count_distinct_watchers.
  - intros c' Hin' Hid'.
    now rewrite (Hcnt c' Hin' Hid'), (Hcnt c2 Hin2 Hid2).
Qed.

(** ** Ratings *)

Lemma rating_key_iff user_id content_id r :
  rating_key user_id content_id r = true <->
  (ur_user_id r, ur_content_id r) = (user_id, content_id).
Proof.
  unfold rating_key. rewrite andb_true_iff, !Z.eqb_eq.
  split; [intros [-> ->]; reflexivity | intros [= -> ->]; auto].
Qed.

Lemma add_rating_tables d now user_id tmdb_id media_type title score review
    poster :
  let d1 := fst (get_or_create_content sch d now tmdb_id media_type title
                   poster None None) in
  let cid := snd (get_or_create_content sch d now tmdb_id media_type title
                    poster None None) in
  let d' := add_rating sch d now user_id tmdb_id media_type title score
              review poster in
  user_ratings d' =
    insert_or_update (rating_key user_id cid)
      {| ur_id := seq_ratings (seqs d1); ur_user_id := user_id;
         ur_content_id := cid; ur_score := score; ur_review_text := review;
         ur_likes_count := default_count sch; ur_rated_at := now;
         ur_updated_at := now |}
      (set_rating score review now) (user_ratings d)
  /\ content d' =
     update_where (content_has_id cid)
       (set_scores
          (option_map (numeric_avg sch)
             (avg (map ur_score
                     (filter (rating_of_content cid) (user_ratings d')))))
          (Some (count_where (rating_of_content cid) (user_ratings d'))) now)
       (content d1).
Proof.
  intros d1 cid d'. subst d'. unfold add_rating.
  pose proof (get_or_create_content_frame d now tmdb_id media_type title
                poster None None) as F.
  simpl in F. destruct F as (_ & Fr & _).
  fold d1 in Fr. subst d1 cid.
  destruct (get_or_create_content sch d now tmdb_id media_type title
              poster None None) as [d1 cid].
  simpl in *. rewrite Fr. split; reflexivity.
Qed.

(** After the call every content row with the resolved id stores the
    average and the number of the ratings that reference it. *)
Lemma add_rating_counter d now user_id tmdb_id media_type title score review
    poster :
  let cid := snd (get_or_create_content sch d now tmdb_id media_type title
                    poster None None) in
  let d' := add_rating sch d now user_id tmdb_id media_type title score
              review poster in
  (exists c, fetchone_where (content_key tmdb_id media_type) (content d')
             = Some c /\ c_id c = cid)
  /\ forall c, In c (content d') -> c_id c = cid ->
       c_avg_score c
       = option_map (numeric_avg sch)
           (avg (map ur_score
                   (filter (rating_of_content cid) (user_ratings d'))))
       /\ c_total_scores c
          = Some (count_where (rating_of_content cid) (user_ratings d')).
Proof.
  intros cid d'.
  destruct (add_rating_tables d now user_id tmdb_id media_type title score
              review poster) as [_ Hc].
  fold cid d' in Hc.
  destruct (get_or_create_content_handle d now tmdb_id media_type title
              poster None None) as (c0 & Hf & Hid).
  fold cid in Hid. split.
  - rewrite Hc, fetchone_update_where by reflexivity.
    rewrite Hf. simpl. eexists. split; [reflexivity|].
    destruct (content_has_id cid c0); assumption.
  - intros c Hin Hcid. rewrite Hc in Hin.
    apply update_where_hit in Hin; [| reflexivity
                                    | unfold content_has_id; now apply Z.eqb_eq].
    destruct Hin as (r0 & _ & _ & ->). split; reflexivity.
Qed.

(** C4: a rating submitted for a (user, content) pair that already has one
    overwrites the score and the review text of that row and adds no row;
    the pair has exactly one rating row afterwards, no pair has two, and
    the content's [avg_score] is the average of the scores now stored. *)
Theorem add_rating_overwrites
    d now user_id tmdb_id media_type title score review poster c r0 :
  ratings_unique d = true ->
  fetchone_where (content_key tmdb_id media_type) (content d) = Some c ->
  fetchone_where (rating_key user_id (c_id c)) (user_ratings d) = Some r0 ->
  let d' := add_rating sch d now user_id tmdb_id media_type title score
              review poster in
  user_ratings d'
  = update_where (rating_key user_id (c_id c))
      (set_rating score review now) (user_ratings d)
  /\ List.length (user_ratings d') = List.length (user_ratings d)
  /\ count_where (rating_key user_id (c_id c)) (user_ratings d') = 1
  /\ (fetchone_where (rating_key user_id (c_id c)) (user_ratings d')
      = Some (set_rating score review now r0)
      /\ ur_score (set_rating score review now r0) = score
      /\ ur_review_text (set_rating score review now r0) = review)
  /\ ratings_unique d' = true
  /\ exists c',
       fetchone_where (content_key tmdb_id media_type) (content d') = Some c'
       /\ c_id c' = c_id c
       /\ c_avg_score c'
          = option_map (numeric_avg sch)
              (avg (map ur_score
                      (filter (rating_of_content (c_id c))
                         (user_ratings d')))).
Proof.
  intros U Hc Hr d'.
  destruct (add_rating_tables d now user_id tmdb_id media_type title score
              review poster) as [Ht _].
  destruct (add_rating_counter d now user_id tmdb_id media_type title score
              review poster) as [(c' & Hf' & Hid') Hcnt].
  fold d' in Ht, Hf', Hcnt.
  rewrite (get_or_create_content_again d now tmdb_id media_type title poster
             None None c Hc) in Ht, Hid', Hcnt.
  simpl in Ht, Hid', Hcnt.
  assert (Hup : user_ratings d'
                = update_where (rating_key user_id (c_id c))
                    (set_rating score review now) (user_ratings d)).
  { rewrite Ht. unfold insert_or_update.
    rewrite existsb_fetchone, Hr. reflexivity. }
  assert (Hone : count_where (rating_key user_id (c_id c)) (user_ratings d)
                 = 1).
  { assert (count_where (rating_key user_id (c_id c)) (user_ratings d) <= 1).
    { apply (unique_on_count key2_eqb
               (fun r => (ur_user_id r, ur_content_id r)) key2_eqb_eq _ _
               (user_id, c_id c) U).
      intros r. apply rating_key_iff. }
    assert (count_where (rating_key user_id (c_id c)) (user_ratings d) <> 0)
      by (rewrite <- fetchone_none_iff; congruence).
    pose proof (count_where_nonneg (rating_key user_id (c_id c))
                  (user_ratings d)).
    lia. }
  split; [exact Hup|].
  split; [rewrite Hup; apply length_update_where|].
  split; [rewrite Hup, count_update_where by reflexivity; exact Hone|].
  split.
  { rewrite Hup, fetchone_update_where by reflexivity.
    rewrite Hr. simpl.
    apply fetchone_some in Hr. destruct Hr as [_ ->]. auto. }
  split.
  { unfold ratings_unique. rewrite Hup.
    now apply unique_on_update. }
  exists c'. split; [exact Hf'|]. split; [exact Hid'|].
  apply fetchone_some in Hf'. destruct Hf' as [Hin' _].
  now destruct (Hcnt c' Hin' Hid').
Qed.

(** ** List items *)

Lemma add_to_list_tables d now list_id tmdb_id media_type title poster :
  let d1 := fst (get_or_create_content sch d now tmdb_id media_type title
                   poster None None) in
  let cid := snd (get_or_create_content sch d now tmdb_id media_type title
                    poster None None) in
  let d' := add_to_list sch d now list_id tmdb_id media_type title poster in
  list_items d' =
    insert_or_ignore (item_key list_id cid)
      {| li_id := seq_items (seqs d1); li_list_id := list_id;
         li_content_id := cid; li_added_at := now |} (list_items d)
  /\ content d' =
     update_where (content_has_id cid)
       (set_list_count
          (Some (count_where (item_of_content cid) (list_items d'))) now)
       (content d1).
Proof.
  intros d1 cid d'. subst d'. unfold add_to_list.
  pose proof (get_or_create_content_frame d now tmdb_id media_type title
                poster None None) as F.
  simpl in F. destruct F as (_ & _ & Fi & _).
  fold d1 in Fi. subst d1 cid.
  destruct (get_or_create_content sch d now tmdb_id media_type title
              poster None None) as [d1 cid].
  simpl in *. rewrite Fi. split; reflexivity.
Qed.

Lemma add_to_list_counter d now list_id tmdb_id media_type title poster :
  let cid := snd (get_or_create_content sch d now tmdb_id media_type title
                    poster None None) in
  let d' := add_to_list sch d now list_id tmdb_id media_type title poster in
  (exists c, fetchone_where (content_key tmdb_id media_type) (content d')
             = Some c /\ c_id c = cid)
  /\ forall c, In c (content d') -> c_id c = cid ->
       c_list_count c
       = Some (count_where (item_of_content cid) (list_items d')).
Proof.
  intros cid d'.
  destruct (add_to_list_tables d now list_id tmdb_id media_type title
              poster) as [_ Hc].
  fold cid d' in Hc.
  destruct (get_or_create_content_handle d now tmdb_id media_type title
              poster None None) as (c0 & Hf & Hid).
  fold cid in Hid. split.
  - rewrite Hc, fetchone_update_where by reflexivity.
    rewrite Hf. simpl. eexists. split; [reflexivity|].
    destruct (content_has_id cid c0); assumption.
  - intros c Hin Hcid. rewrite Hc in Hin.
    apply update_where_hit in Hin; [| reflexivity
                                    | unfold content_has_id; now apply Z.eqb_eq].
    destruct Hin as (r0 & _ & _ & ->). reflexivity.
Qed.

(** ** List likes *)


Lemma delete_where_absent {row : Type} (p : row -> bool) (t : list row) :
  count_where p t = 0 -> delete_where p t = t.
Proof.
  unfold count_where, delete_where.
  induction t as [|x t IH]; simpl; [reflexivity|].
  destruct (p x); simpl; intros H; [lia|].
  now rewrite IH.
Qed.







(** ** ORDER BY *)

Lemma limit_In {row : Type} (n : nat) (t : list row) (x : row) :
  In x (limit n t) -> In x t.
Proof.
  unfold limit. revert n.
  induction t as [|y t IH]; intros [|n]; simpl; try tauto.
  intros [->|H]; eauto.
Qed.

Section OrderBy.
Context {row : Type} (before : row -> row -> bool).

Lemma insert_sorted_perm x t :
  Permutation (x :: t) (insert_sorted before x t).
Proof.
  induction t as [|y t IH]; simpl.
  - apply Permutation_refl.
  - destruct (before x y).
    + apply Permutation_refl.
    + eapply perm_trans; [apply perm_swap|].
      now apply perm_skip.
Qed.

Lemma order_by_perm t : Permutation t (order_by before t).
Proof.
  unfold order_by.
  induction t as [|x t IH]; simpl.
  - constructor.
  - eapply perm_trans; [apply perm_skip, IH|].
    apply insert_sorted_perm.
Qed.

Lemma order_by_In t x : In x (order_by before t) <-> In x t.
Proof.
  split; apply Permutation_in;
    [apply Permutation_sym|]; apply order_by_perm.
Qed.

Hypothesis before_total : forall a b, before a b = false -> before b a = true.
Hypothesis before_trans :
  forall a b c, before a b = true -> before b c = true -> before a c = true.

Lemma insert_sorted_sorted x t :
  StronglySorted (fun a b => before a b = true) t ->
  StronglySorted (fun a b => before a b = true) (insert_sorted before x t).
Proof.
  induction 1 as [|y t St IH Hy]; simpl.
  - repeat constructor.
  - destruct (before x y) eqn:E.
    + constructor; [now constructor|].
      constructor; [exact E|].
      eapply Forall_impl; [|exact Hy].
      intros z Hz. exact (before_trans _ _ _ E Hz).
    + constructor; [exact IH|].
      apply Forall_forall. intros z Hz.
      apply (Permutation_in _ (Permutation_sym (insert_sorted_perm x t)))
        in Hz.
      destruct Hz as [<-|Hz].
      * now apply before_total.
      * rewrite Forall_forall in Hy. now apply Hy.
Qed.

Lemma order_by_sorted t :
  StronglySorted (fun a b => before a b = true) (order_by before t).
Proof.
  unfold order_by.
  induction t as [|x t IH]; simpl.
  - constructor.
  - now apply insert_sorted_sorted.
Qed.

Lemma limit_sorted n t :
  StronglySorted (fun a b => before a b = true) t ->
  StronglySorted (fun a b => before a b = true) (limit n t).
Proof.
  unfold limit. intros St. revert n.
  induction St as [|y t St IH Hy]; intros [|n]; simpl; try constructor.
  - apply IH.
  - rewrite Forall_forall in *. intros z Hz.
    apply Hy. eapply limit_In; eassumption.
Qed.
End OrderBy.

(** Sorting commutes with a map that leaves the sort keys alone. *)
Lemma order_by_map {A B : Type} (beforeA : A -> A -> bool)
    (beforeB : B -> B -> bool) (g : A -> B) (t : list A) :
  (forall a b, beforeB (g a) (g b) = beforeA a b) ->
  order_by beforeB (map g t) = map g (order_by beforeA t).
Proof.
  intros Hg. unfold order_by.
  induction t as [|x t IH]; simpl; [reflexivity|].
  rewrite IH. generalize (fold_right (insert_sorted beforeA) [] t).
  intros s. induction s as [|y s IHs]; simpl; [reflexivity|].
  rewrite Hg. destruct (beforeA x y); simpl; [reflexivity|].
  now rewrite IHs.
Qed.

Lemma filter_map_comm {A B : Type} (p : B -> bool) (g : A -> B) (t : list A) :
  filter p (map g t) = map g (filter (fun a => p (g a)) t).
Proof.
  induction t as [|x t IH]; simpl; [reflexivity|].
  destruct (p (g x)); simpl; now rewrite IH.
Qed.

(** ** Lists ranked by engagement *)

(** The ORDER BY clause of [get_top_lists_by_engagement], key by key. *)
Lemma engagement_order_iff a b :
  engagement_order a b = true <->
  engagement_score (fst b) < engagement_score (fst a)
  \/ (engagement_score (fst a) = engagement_score (fst b)
      /\ match ul_likes_count (fst a), ul_likes_count (fst b) with
         | Some x, Some y =>
             y < x \/ (x = y /\ ul_updated_at (fst b) <= ul_updated_at (fst a))
         | Some _, None => True
         | None, Some _ => False
         | None, None => ul_updated_at (fst b) <= ul_updated_at (fst a)
         end).
Proof.
  unfold engagement_order.
  destruct (Z.ltb_spec (engagement_score (fst b)) (engagement_score (fst a))).
  { split; auto. }
  destruct (Z.ltb_spec (engagement_score (fst a)) (engagement_score (fst b))).
  { split; [discriminate|]. intros [?|[? _]]; lia. }
  destruct (ul_likes_count (fst a)) as [x|], (ul_likes_count (fst b)) as [y|];
    simpl.
  - destruct (Z.eqb_spec x y).
    + rewrite Z.leb_le. split; [intros; right; split; [lia|right; lia]|].
      intros [?|[_ [?|[_ ?]]]]; lia.
    + rewrite Z.leb_le. split; [intros; right; split; lia|].
      intros [?|[_ [?|[? _]]]]; lia.
  - split; auto. intros _. right. split; [lia|exact I].
  - split; [discriminate|]. intros [?|[_ []]]. lia.
  - rewrite Z.leb_le. split; [intros; right; split; lia|].
    intros [?|[_ ?]]; lia.
Qed.

Lemma engagement_order_total a b :
  engagement_order a b = false -> engagement_order b a = true.
Proof.
  intros H. apply not_true_iff_false in H.
  rewrite engagement_order_iff in H. apply engagement_order_iff.
  destruct (ul_likes_count (fst a)) as [x|], (ul_likes_count (fst b)) as [y|];
    try (destruct (Z.lt_trichotomy (engagement_score (fst a))
                     (engagement_score (fst b))) as [?|[?|?]];
         [left; assumption | | exfalso; apply H; left; assumption]).
  - right. split; [lia|].
    destruct (Z.lt_trichotomy x y) as [?|[?|?]];
      [left; assumption | | exfalso; apply H; right; split; auto].
    right. split; [lia|].
    destruct (Z.le_gt_cases (ul_updated_at (fst a)) (ul_updated_at (fst b)));
      [assumption|].
    exfalso. apply H. right. split; [assumption|]. right. split; lia.
  - exfalso. apply H. right. split; [assumption|exact I].
  - right. split; [lia|exact I].
  - right. split; [lia|].
    destruct (Z.le_gt_cases (ul_updated_at (fst a)) (ul_updated_at (fst b)));
      [assumption|].
    exfalso. apply H. right. split; [assumption|lia].
Qed.

Lemma engagement_order_trans a b c :
  engagement_order a b = true -> engagement_order b c = true ->
  engagement_order a c = true.
Proof.
  rewrite !engagement_order_iff.
  destruct (ul_likes_count (fst a)) as [x|], (ul_likes_count (fst b)) as [y|],
           (ul_likes_count (fst c)) as [z|];
    intros [?|[? ?]] [?|[? ?]];
    try (left; lia); try contradiction;
    try (right; split; [lia|]); try exact I; try lia.
Qed.

Lemma lists_with_owner_In d l u :
  In (l, u) (lists_with_owner d) <->
  In l (user_lists d) /\ In u (users d) /\ u_id u = ul_user_id l.
Proof.
  unfold lists_with_owner. rewrite in_flat_map. split.
  - intros (l' & Hl & Hin). apply in_map_iff in Hin.
    destruct Hin as (u' & [= -> ->] & Hu). apply filter_In in Hu.
    destruct Hu as [Hu E]. apply Z.eqb_eq in E. auto.
  - intros (Hl & Hu & E). exists l. split; [assumption|].
    apply in_map. apply filter_In. split; [assumption|].
    now apply Z.eqb_eq.
Qed.

Variable b64encode : string -> string.

(** C9 (as the code has it): [get_top_lists_by_engagement] returns public
    lists only, each joined with its owner, at most [limit] of them and the
    first ones of the full ranking; the ranking is by
    COALESCE(likes_count, 0) + COALESCE(comments_count, 0) descending, then
    by likes_count descending with a NULL likes_count after every value,
    then by updated_at descending.  A list with 5 likes and 10 comments
    ranks above one with 8 likes and no comment. *)
Theorem get_top_lists_by_engagement_ranking d limit_ :
  let rows := top_lists_rows d limit_ in
  get_top_lists_by_engagement b64encode d limit_
  = map (ranked_list_of b64encode) rows
  /\ (List.length rows <= limit_)%nat
  /\ Forall (fun r => ul_is_public (fst r) = true
                      /\ In (fst r) (user_lists d)
                      /\ In (snd r) (users d)
                      /\ u_id (snd r) = ul_user_id (fst r)) rows
  /\ (exists ranking,
        Permutation
          (filter (fun r => ul_is_public (fst r)) (lists_with_owner d))
          ranking
        /\ rows = firstn limit_ ranking)
  /\ StronglySorted (fun a b => engagement_order a b = true) rows
  /\ (forall a b,
        engagement_order a b = true <->
        engagement_score (fst b) < engagement_score (fst a)
        \/ (engagement_score (fst a) = engagement_score (fst b)
            /\ match ul_likes_count (fst a), ul_likes_count (fst b) with
               | Some x, Some y =>
                   y < x
                   \/ (x = y
                       /\ ul_updated_at (fst b) <= ul_updated_at (fst a))
               | Some _, None => True
               | None, Some _ => False
               | None, None =>
                   ul_updated_at (fst b) <= ul_updated_at (fst a)
               end))
  /\ (forall a b,
        ul_likes_count (fst a) = Some 5 ->
        ul_comments_count (fst a) = Some 10 ->
        ul_likes_count (fst b) = Some 8 ->
        ul_comments_count (fst b) = Some 0 ->
        engagement_order a b = true /\ engagement_order b a = false).
Proof.
  intros rows. subst rows. unfold top_lists_rows.
  split; [reflexivity|].
  split; [unfold limit; apply firstn_le_length|].
  split.
  { apply Forall_forall. intros [l u] Hin.
    apply limit_In in Hin. apply order_by_In in Hin.
    apply filter_In in Hin. destruct Hin as [Hin Hpub].
    apply lists_with_owner_In in Hin. simpl in *. tauto. }
  split.
  { eexists. split; [apply order_by_perm | reflexivity]. }
  split.
  { apply limit_sorted, order_by_sorted.
    - exact engagement_order_total.
    - exact engagement_order_trans. }
  split; [exact engagement_order_iff|].
  intros a b La Ca Lb Cb.
  unfold engagement_order, engagement_score.
  rewrite La, Ca, Lb, Cb. split; reflexivity.
Qed.

(** ** Lists ordered by recency *)




(** ** Comments *)

Lemma blank_text_test text :
  String.eqb text "" || String.eqb (strip text) "" = String.eqb (strip text) "".
Proof.
  destruct (String.eqb_spec text "") as [->|]; reflexivity.
Qed.

(** A comment with text is stored and the list's counter is recomputed. *)
Lemma add_list_comment_counter d now user_id list_id text :
  strip text <> ""%string ->
  let o := add_list_comment d now user_id list_id text in
  list_comments (fst o)
  = insert {| lc_id := seq_comments (seqs d); lc_list_id := list_id;
              lc_user_id := user_id; lc_comment_text := strip text;
              lc_created_at := now; lc_updated_at := now |}
      (list_comments d)
  /\ user_lists (fst o)
     = update_where (list_has_id list_id)
         (set_comments_count
            (Some (count_where (comment_of_list list_id)
                     (list_comments (fst o)))) now)
         (user_lists d)
  /\ forall l, In l (user_lists (fst o)) -> ul_id l = list_id ->
       ul_comments_count l
       = Some (count_where (comment_of_list list_id) (list_comments (fst o))).
Proof.
  intros Htext o. subst o. unfold add_list_comment.
  rewrite blank_text_test.
  apply String.eqb_neq in Htext. rewrite Htext.
  cbv zeta. unfold nextval_comments.
  cbn [set_seqs set_list_comments set_user_lists user_lists list_comments
       seqs seq_comments].
  rewrite fetchone_update_where by reflexivity.
  assert (Hit : forall t l,
             In l (update_where (list_has_id list_id)
                     (set_comments_count t now) (user_lists d)) ->
             ul_id l = list_id -> ul_comments_count l = t).
  { intros t l Hin Hid.
    apply update_where_hit in Hin; [| reflexivity
                                    | unfold list_has_id; now apply Z.eqb_eq].
    destruct Hin as (r & _ & _ & ->). reflexivity. }
  destruct (fetchone_where (list_has_id list_id) (user_lists d));
    cbn [option_map raise ret fst set_user_lists set_list_comments
         user_lists list_comments];
    repeat split; apply Hit.
Qed.

(** A permitted delete removes the comment and recomputes the counter of
    the comment's list. *)
Lemma delete_list_comment_permitted d now actor comment_id c l :
  fetchone_where (comment_has_id comment_id) (list_comments d) = Some c ->
  fetchone_where (list_has_id (lc_list_id c)) (user_lists d) = Some l ->
  actor = lc_user_id c \/ actor = ul_user_id l ->
  let d' := fst (delete_list_comment d now actor comment_id) in
  let n := count_where (comment_of_list (lc_list_id c)) (list_comments d') in
  delete_list_comment d now actor comment_id
  = ret d' {| dc_deleted := true; dc_comments_count := Some n;
              dc_list_id := lc_list_id c |}
  /\ list_comments d'
     = delete_where (comment_has_id comment_id) (list_comments d)
  /\ user_lists d'
     = update_where (list_has_id (lc_list_id c))
         (set_comments_count (Some n) now) (user_lists d)
  /\ forall l', In l' (user_lists d') -> ul_id l' = lc_list_id c ->
       ul_comments_count l' = Some n.
Proof.
  intros Hc Hl Hperm d' n. subst n d'.
  unfold delete_list_comment. rewrite Hc, Hl.
  assert (G : negb (actor =? lc_user_id c) && negb (actor =? ul_user_id l)
              = false).
  { destruct Hperm as [->| ->]; rewrite Z.eqb_refl; simpl;
      [reflexivity | apply andb_false_r]. }
  rewrite G. cbv zeta.
  cbn [set_list_comments set_user_lists user_lists list_comments].
  rewrite fetchone_update_where by reflexivity. rewrite Hl.
  cbn [option_map raise ret fst set_user_lists set_list_comments
       user_lists list_comments].
  apply fetchone_some in Hl. destruct Hl as [_ Hl]. rewrite Hl.
  repeat split.
  intros l' Hin Hid.
  apply update_where_hit in Hin; [| reflexivity
                                  | unfold list_has_id; now apply Z.eqb_eq].
  destruct Hin as (r & _ & _ & ->). reflexivity.
Qed.

(** C5: [delete_list_comment] succeeds, deleting the comment and
    recomputing the [comments_count] of its list, exactly when the actor
    is the author of the comment or the owner of its list; a missing
    comment or list raises the not-found [ValueError] whoever the actor
    is; any other actor gets [PermissionError]; and every failure leaves
    the store as it was. *)
Theorem delete_list_comment_authorization d now actor comment_id :
  (fetchone_where (comment_has_id comment_id) (list_comments d) = None ->
   delete_list_comment d now actor comment_id
   = raise d (ValueError "Comment not found"))
  /\ (forall c,
        fetchone_where (comment_has_id comment_id) (list_comments d)
        = Some c ->
        fetchone_where (list_has_id (lc_list_id c)) (user_lists d) = None ->
        delete_list_comment d now actor comment_id
        = raise d (ValueError "List not found"))
  /\ (forall c l,
        fetchone_where (comment_has_id comment_id) (list_comments d)
        = Some c ->
        fetchone_where (list_has_id (lc_list_id c)) (user_lists d) = Some l ->
        (actor <> lc_user_id c /\ actor <> ul_user_id l ->
         delete_list_comment d now actor comment_id
         = raise d (PermissionError "Not allowed to delete this comment"))
        /\ (actor = lc_user_id c \/ actor = ul_user_id l ->
            exists d',
              let n := count_where (comment_of_list (lc_list_id c))
                         (list_comments d') in
              delete_list_comment d now actor comment_id
              = ret d' {| dc_deleted := true; dc_comments_count := Some n;
                          dc_list_id := lc_list_id c |}
              /\ list_comments d'
                 = delete_where (comment_has_id comment_id) (list_comments d)
              /\ count_where (comment_has_id comment_id) (list_comments d')
                 = 0
              /\ (forall l', In l' (user_lists d') ->
                    ul_id l' = lc_list_id c ->
                    ul_comments_count l' = Some n))
        /\ ((exists d' r,
               delete_list_comment d now actor comment_id = ret d' r)
            <-> actor = lc_user_id c \/ actor = ul_user_id l)).
Proof.
  split; [|split].
  - intros Hc. unfold delete_list_comment. now rewrite Hc.
  - intros c Hc Hl. unfold delete_list_comment. now rewrite Hc, Hl.
  - intros c l Hc Hl.
    assert (Denied : actor <> lc_user_id c /\ actor <> ul_user_id l ->
                     delete_list_comment d now actor comment_id
                     = raise d (PermissionError
                                  "Not allowed to delete this comment")).
    { intros [Na No]. unfold delete_list_comment. rewrite Hc, Hl.
      apply Z.eqb_neq in Na, No. now rewrite Na, No. }
    assert (Allowed : actor = lc_user_id c \/ actor = ul_user_id l ->
              exists d',
                let n := count_where (comment_of_list (lc_list_id c))
                           (list_comments d') in
                delete_list_comment d now actor comment_id
                = ret d' {| dc_deleted := true; dc_comments_count := Some n;
                            dc_list_id := lc_list_id c |}
                /\ list_comments d'
                   = delete_where (comment_has_id comment_id)
                       (list_comments d)
                /\ count_where (comment_has_id comment_id) (list_comments d')
                   = 0
                /\ (forall l', In l' (user_lists d') ->
                      ul_id l' = lc_list_id c ->
                      ul_comments_count l' = Some n)).
    { intros Hperm.
      destruct (delete_list_comment_permitted d now actor comment_id c l
                  Hc Hl Hperm) as (R & Tc & _ & Cnt).
      eexists. cbv zeta. split; [exact R|]. split; [exact Tc|].
      split; [|exact Cnt].
      rewrite Tc. apply count_delete_where. }
    split; [exact Denied|]. split; [exact Allowed|].
    split.
    + intros (d' & r & E).
      destruct (Z.eq_dec actor (lc_user_id c)) as [|Na]; [now left|].
      destruct (Z.eq_dec actor (ul_user_id l)) as [|No]; [now right|].
      rewrite (Denied (conj Na No)) in E. discriminate.
    + intros Hperm. destruct (Allowed Hperm) as (d' & E & _).
      eauto.
Qed.

(** ** Review likes *)

(** What [toggle_like_review] writes: the like relation and the
    [likes_count] of the rating rows with the given id. *)
Lemma toggle_like_review_tables d user_id rating_id :
  let d' := fst (toggle_like_review d user_id rating_id) in
  user_ratings d'
  = update_where (rating_has_id rating_id)
      (set_rating_likes_count
         (Some (count_where (like_of_rating rating_id)
                  (user_rating_likes d'))))
      (user_ratings d)
  /\ content d' = content d /\ user_watched d' = user_watched d
  /\ list_items d' = list_items d /\ user_lists d' = user_lists d
  /\ list_likes d' = list_likes d /\ list_comments d' = list_comments d
  /\ users d' = users d /\ user_follows d' = user_follows d
  /\ seqs d' = seqs d.
Proof.
  intros d'. subst d'. unfold toggle_like_review. cbv zeta.
  destruct (fetchone_where (rating_like_key user_id rating_id)
              (user_rating_likes d));
    match goal with
    | |- context [match ?x with Some _ => _ | None => _ end] => destruct x
    end; cbn; repeat split.
Qed.

(** The join with [content] sees the same pairs, rating by rating, when
    only [likes_count] changed. *)
Lemma ratings_with_content_map (g : rating_row -> rating_row) d d' :
  (forall r, ur_content_id (g r) = ur_content_id r) ->
  user_ratings d' = map g (user_ratings d) ->
  content d' = content d ->
  ratings_with_content d'
  = map (fun x => (g (fst x), snd x)) (ratings_with_content d).
Proof.
  intros Hg Hr Hc. unfold ratings_with_content. rewrite Hr, Hc.
  clear Hr Hc.
  induction (user_ratings d) as [|r t IH]; simpl; [reflexivity|].
  rewrite map_app, IH, map_map, Hg. reflexivity.
Qed.

(** C7: [toggle_like_review] writes, besides the like relation, only the
    [likes_count] of the rating, which becomes the number of like rows of
    that rating; [updated_at] and every other column of every rating row
    stay as they were, and so do the other tables.  The reviews therefore
    keep their places in the orderings by [updated_at]. *)
Theorem toggle_like_review_frame d user_id rating_id :
  let d' := fst (toggle_like_review d user_id rating_id) in
  let n := count_where (like_of_rating rating_id) (user_rating_likes d') in
  Forall2 same_but_likes_count (user_ratings d) (user_ratings d')
  /\ (forall r, In r (user_ratings d') -> ur_id r = rating_id ->
        ur_likes_count r = Some n)
  /\ (forall r, In r (user_ratings d') -> ur_id r <> rating_id ->
        In r (user_ratings d))
  /\ (content d' = content d /\ user_watched d' = user_watched d
      /\ list_items d' = list_items d /\ user_lists d' = user_lists d
      /\ list_likes d' = list_likes d /\ list_comments d' = list_comments d
      /\ users d' = users d /\ user_follows d' = user_follows d)
  /\ forall reader limit_,
       map rr_rating_id (get_user_recent_reviews d' reader limit_)
       = map rr_rating_id (get_user_recent_reviews d reader limit_)
       /\ map rr_updated_at (get_user_recent_reviews d' reader limit_)
          = map rr_updated_at (get_user_recent_reviews d reader limit_).
Proof.
  intros d' n.
  destruct (toggle_like_review_tables d user_id rating_id)
    as (T & Fc & Fw & Fi & Fl & Fk & Fm & Fu & Ff & _).
  fold d' in T, Fc, Fw, Fi, Fl, Fk, Fm, Fu, Ff. fold n in T.
  split; [|split; [|split; [|split]]].
  - rewrite T. unfold update_where. clear T.
    induction (user_ratings d) as [|r t IH]; simpl; constructor; auto.
    unfold same_but_likes_count.
    destruct (rating_has_id rating_id r); repeat split.
  - intros r Hin Hid. rewrite T in Hin.
    apply update_where_hit in Hin; [| reflexivity
                                    | unfold rating_has_id; now apply Z.eqb_eq].
    destruct Hin as (r0 & _ & _ & ->). reflexivity.
  - intros r Hin Hid. rewrite T in Hin.
    apply update_where_miss in Hin; [assumption | reflexivity|].
    unfold rating_has_id. now apply Z.eqb_neq.
  - tauto.
  - intros reader limit_.
    set (g := fun r => if rating_has_id rating_id r
                       then set_rating_likes_count (Some n) r else r).
    assert (Gid : forall r, ur_id (g r) = ur_id r)
      by (intros r; unfold g; destruct (rating_has_id rating_id r);
          reflexivity).
    assert (Gts : forall r, ur_updated_at (g r) = ur_updated_at r)
      by (intros r; unfold g; destruct (rating_has_id rating_id r);
          reflexivity).
    assert (Gc : forall r, ur_content_id (g r) = ur_content_id r)
      by (intros r; unfold g; destruct (rating_has_id rating_id r);
          reflexivity).
    assert (Gu : forall r, ur_user_id (g r) = ur_user_id r)
      by (intros r; unfold g; destruct (rating_has_id rating_id r);
          reflexivity).
    assert (Gr : forall r, has_review (g r) = has_review r)
      by (intros r; unfold g; destruct (rating_has_id rating_id r);
          reflexivity).
    set (G := fun x : rating_row * content_row => (g (fst x), snd x)).
    assert (Rows :
      forall lim,
        match lim with
        | Some k =>
            limit k
              (order_by review_order
                 (filter (fun x => (ur_user_id (fst x) =? reader)
                                   && has_review (fst x))
                    (ratings_with_content d')))
        | None =>
            order_by review_order
              (filter (fun x => (ur_user_id (fst x) =? reader)
                                && has_review (fst x))
                 (ratings_with_content d'))
        end
        = map G
            match lim with
            | Some k =>
                limit k
                  (order_by review_order
                     (filter (fun x => (ur_user_id (fst x) =? reader)
                                       && has_review (fst x))
                        (ratings_with_content d)))
            | None =>
                order_by review_order
                  (filter (fun x => (ur_user_id (fst x) =? reader)
                                    && has_review (fst x))
                     (ratings_with_content d))
            end).
    { intros lim.
      rewrite (ratings_with_content_map g d d' Gc T Fc). fold G.
      rewrite filter_map_comm.
      rewrite (filter_ext
                 (fun a => (ur_user_id (fst (G a)) =? reader)
                           && has_review (fst (G a)))
                 (fun x => (ur_user_id (fst x) =? reader)
                           && has_review (fst x)))
        by (intros a; simpl; now rewrite Gu, Gr).
      rewrite (order_by_map review_order review_order G)
        by (intros a b; unfold review_order; simpl; now rewrite !Gts).
      destruct lim; [unfold limit; now rewrite firstn_map | reflexivity]. }
    unfold get_user_recent_reviews. rewrite (Rows limit_).
    rewrite !map_map. split; apply map_ext; intros [r c]; simpl; auto.
Qed.

(** ** Creating lists *)

Lemma user_has_list_name_iff d user_id name :
  user_has_list_name sch d user_id name = true <->
  exists l, In l (user_lists d) /\ ul_user_id l = user_id
            /\ sql_lower sch (ul_name l) = sql_lower sch name.
Proof.
  unfold user_has_list_name. rewrite <- existsb_fetchone, existsb_exists.
  unfold list_name_key.
  split; intros (l & Hin & H); exists l; (split; [assumption|]).
  - apply andb_true_iff in H. destruct H as [Hu Hn].
    apply Z.eqb_eq in Hu. apply String.eqb_eq in Hn. auto.
  - destruct H as [Hu Hn].
    apply andb_true_iff. split; [now apply Z.eqb_eq | now apply String.eqb_eq].
Qed.

(** C6: [create_user_list] raises [ValueError], the validation error, and
    leaves the store as it was when the name is empty after trimming, longer
    than 200 characters after trimming, or equal up to case to the name of
    a list of the same owner; otherwise, also when the lists carrying that
    name all belong to other users, it stores the list and returns it. *)
Theorem create_user_list_validation
    d now user_id name description is_public :
  let name' := strip name in
  ((name' = ""%string
    \/ 200 < len name'
    \/ exists l, In l (user_lists d) /\ ul_user_id l = user_id
                 /\ sql_lower sch (ul_name l) = sql_lower sch name') ->
   exists msg,
     create_user_list sch d now user_id name description is_public
     = raise d (ValueError msg))
  /\ (name' <> ""%string ->
      len name' <= 200 ->
      (forall l, In l (user_lists d) ->
         sql_lower sch (ul_name l) = sql_lower sch name' ->
         ul_user_id l <> user_id) ->
      exists d',
        create_user_list sch d now user_id name description is_public
        = ret d' {| cl_id := seq_lists (seqs d); cl_name := name';
                    cl_description := description;
                    cl_is_public := is_public;
                    cl_created_at := now; cl_updated_at := now |}
        /\ user_lists d'
           = insert {| ul_id := seq_lists (seqs d); ul_user_id := user_id;
                       ul_name := name'; ul_description := description;
                       ul_is_public := is_public;
                       ul_likes_count := default_count sch;
                       ul_comments_count := default_count sch;
                       ul_created_at := now; ul_updated_at := now |}
               (user_lists d)
        /\ list_comments d' = list_comments d
        /\ list_likes d' = list_likes d).
Proof.
  intros name'. unfold create_user_list. rewrite blank_text_test.
  fold name'. split.
  - intros Bad.
    destruct (String.eqb_spec name' "") as [E|NE]; [eauto|].
    destruct (Z.ltb_spec 200 (len name')) as [L|L]; [eauto|].
    destruct Bad as [E|[L'|Taken]]; [contradiction | lia |].
    apply user_has_list_name_iff in Taken. rewrite Taken. eauto.
  - intros NE L Free.
    apply String.eqb_neq in NE. rewrite NE.
    destruct (Z.ltb_spec 200 (len name')); [lia|].
    destruct (user_has_list_name sch d user_id name') eqn:T.
    + apply user_has_list_name_iff in T.
      destruct T as (l & Hin & Hu & Hn). now destruct (Free l Hin Hn).
    + eexists. cbn. repeat split.
Qed.

(** ** Follows *)


(** C8 (as the code has it): a logged-in user who names themselves as the
    target of [toggle_follow] is answered with status 400 and the error
    "Cannot follow yourself"; the store, and with it the follow relation
    and both follow counters, is left as it was. *)
Theorem toggle_follow_self_rejected d user_id username row :
  username <> ""%string ->
  fetchone_where (username_key sch username) (users d) = Some row ->
  u_id row = user_id ->
  toggle_follow sch d
    {| session_user_id := Some user_id; body := Payload (Some username) |}
  = (d, JsonError 400 "Cannot follow yourself").
Proof.
  intros NE Hrow Hid. unfold toggle_follow. simpl.
  apply String.eqb_neq in NE. rewrite NE, Hrow, Hid, Z.eqb_refl.
  reflexivity.
Qed.


(** ** Derived counters *)





End Properties.

(** * The properties at concrete stores *)



Lemma mark_as_watched_twice_witness :
  watched_unique empty_db = true
  /\ exists c,
       fetchone_where (content_key 603 "movie")
         (content (mark_as_watched plain_schema
                     (mark_as_watched plain_schema empty_db 1 7 603 "movie"
                        "The Matrix" None)
                     2 7 603 "movie" "The Matrix" None)) = Some c
       /\ c_watched_count c = Some 1.
Proof.
  split; [reflexivity|].
  destruct (mark_as_watched_twice plain_schema empty_db 1 2 7 603 "movie"
              "The Matrix" "The Matrix" None None eq_refl)
    as (c & Hc & _ & _ & Hn & _).
  exists c. split; [exact Hc|].
  rewrite Hn.
  vm_compute in Hc. injection Hc as <-. reflexivity.
Defined.


(** Scores 80 then 60 from one user: one row, score 60, average 60. *)
Lemma add_rating_overwrites_witness :
  let d := add_rating plain_schema empty_db 1 7 603 "movie" "The Matrix" 80
             None None in
  let d' := add_rating plain_schema d 2 7 603 "movie" "The Matrix" 60
              (Some "Better the first time"%string) None in
  ratings_unique d = true
  /\ List.length (user_ratings d') = 1%nat
  /\ map ur_score (user_ratings d') = [60]
  /\ map c_avg_score (content d') = [Some (60 # 1)].
Proof.
  cbv zeta. split; [reflexivity|].
  destruct (add_rating_overwrites plain_schema
              (add_rating plain_schema empty_db 1 7 603 "movie" "The Matrix"
                 80 None None)
              2 7 603 "movie" "The Matrix" 60
              (Some "Better the first time"%string) None
              {| c_id := 1; c_tmdb_id := 603; c_media_type := "movie";
                 c_title := "The Matrix"; c_poster_path := None;
                 c_backdrop_path := None; c_release_date := None;
                 c_watched_count := Some 0; c_list_count := Some 0;
                 c_avg_score := Some (80 # 1); c_total_scores := Some 1;
                 c_updated_at := 1 |}
              {| ur_id := 1; ur_user_id := 7; ur_content_id := 1;
                 ur_score := 80; ur_review_text := None;
                 ur_likes_count := Some 0; ur_rated_at := 1;
                 ur_updated_at := 1 |}
              eq_refl eq_refl eq_refl)
    as (_ & Hlen & _).
  split; [exact Hlen|]. split; reflexivity.
Defined.

Lemma delete_list_comment_authorization_witness :
  delete_list_comment commented_list 9 3 1
  = raise commented_list
      (PermissionError "Not allowed to delete this comment")
  /\ (exists d' r, delete_list_comment commented_list 9 2 1 = ret d' r)
  /\ (exists d' r, delete_list_comment commented_list 9 1 1 = ret d' r)
  /\ delete_list_comment commented_list 9 1 8
     = raise commented_list (ValueError "Comment not found").
Proof.
  split; [|split; [|split]].
  - destruct (delete_list_comment_authorization commented_list 9 3 1)
      as (_ & _ & H).
    destruct (H bob_comment alice_list eq_refl eq_refl) as (Denied & _).
    apply Denied. split; discriminate.
  - destruct (delete_list_comment_authorization commented_list 9 2 1)
      as (_ & _ & H).
    destruct (H bob_comment alice_list eq_refl eq_refl) as (_ & _ & Iff).
    apply Iff. left. reflexivity.
  - destruct (delete_list_comment_authorization commented_list 9 1 1)
      as (_ & _ & H).
    destruct (H bob_comment alice_list eq_refl eq_refl) as (_ & _ & Iff).
    apply Iff. right. reflexivity.
  - destruct (delete_list_comment_authorization commented_list 9 1 8)
      as (Missing & _).
    apply Missing. reflexivity.
Defined.

(** "My Favorites" exists for Alice: she cannot create "my favorites",
    Bob can create "My Favorites". *)
Lemma create_user_list_validation_witness :
  (exists msg,
     create_user_list plain_schema commented_list 9 1 "  my favorites " None
       true
     = raise commented_list (ValueError msg))
  /\ exists d',
       create_user_list plain_schema commented_list 9 2 "My Favorites" None
         true
       = ret d' {| cl_id := 3; cl_name := "My Favorites";
                   cl_description := None; cl_is_public := true;
                   cl_created_at := 9; cl_updated_at := 9 |}.
Proof.
  split.
  - destruct (create_user_list_validation plain_schema commented_list 9 1
                "  my favorites " None true) as (Bad & _).
    apply Bad. right. right. exists alice_list.
    split; [left; reflexivity|]. split; reflexivity.
  - destruct (create_user_list_validation plain_schema commented_list 9 2
                "My Favorites" None true) as (_ & Good).
    destruct Good as (d' & E & _).
    + discriminate.
    + vm_compute. discriminate.
    + intros l [<-|[<-|[]]]; vm_compute; intros E; discriminate.
    + exists d'. exact E.
Defined.

(** Carol likes the older review: it stays behind the newer one. *)
Lemma toggle_like_review_frame_witness :
  let d' := fst (toggle_like_review two_reviews 3 1) in
  map ur_likes_count (user_ratings d') = [Some 1; Some 0]
  /\ map ur_updated_at (user_ratings d') = map ur_updated_at
                                             (user_ratings two_reviews)
  /\ map rr_rating_id (get_user_recent_reviews d' 1 None)
     = map rr_rating_id (get_user_recent_reviews two_reviews 1 None).
Proof.
  cbv zeta. split; [reflexivity|]. split; [reflexivity|].
  destruct (toggle_like_review_frame two_reviews 3 1)
    as (_ & _ & _ & _ & Order).
  exact (proj1 (Order 1 None)).
Defined.

(** C8, refuted as worded: the answer to a self-follow carries status 400,
    not 403. *)
Lemma toggle_follow_self_is_400 :
  snd (toggle_follow plain_schema three_users (follow_request 1 "Alice"))
  = JsonError 400 "Cannot follow yourself"
  /\ status_code
       (snd (toggle_follow plain_schema three_users
               (follow_request 1 "Alice")))
     <> 403.
Proof.
  split; [reflexivity|]. vm_compute. discriminate.
Qed.

Lemma toggle_follow_self_rejected_witness :
  "Alice"%string <> ""%string
  /\ fetchone_where (username_key plain_schema "Alice") (users three_users)
     = Some alice
  /\ u_id alice = 1
  /\ toggle_follow plain_schema three_users (follow_request 1 "Alice")
     = (three_users, JsonError 400 "Cannot follow yourself").
Proof.
  split; [discriminate|]. split; [reflexivity|]. split; [reflexivity|].
  apply (toggle_follow_self_rejected plain_schema three_users 1 "Alice"
           alice); [discriminate | reflexivity | reflexivity].
Defined.

(** C9, refuted as worded: both lists have no like and no comment, so with
    NULL counted as 0 the more recently updated list 2 would come first;
    the query puts list 1 first, because its [likes_count] is 0 and not
    NULL. *)
Lemma get_top_lists_by_engagement_nulls_last :
  map rl_id (get_top_lists_by_engagement no_encoding two_quiet_lists 6)
  = [1; 2]
  /\ map rl_updated_at
       (get_top_lists_by_engagement no_encoding two_quiet_lists 6)
     = [5; 10]
  /\ ~ StronglySorted (fun a b => spec_engagement_order a b = true)
         (get_top_lists_by_engagement no_encoding two_quiet_lists 6).
Proof.
  split; [reflexivity|]. split; [reflexivity|].
  intros St. apply StronglySorted_inv in St. destruct St as [_ Fa].
  apply Forall_inv in Fa. vm_compute in Fa. discriminate.
Qed.

(** 5 likes and 10 comments rank above 8 likes and no comment; the private
    list is not returned. *)
Lemma get_top_lists_by_engagement_ranking_witness :
  map rl_id (get_top_lists_by_engagement no_encoding two_ranked_lists 6)
  = [2; 1]
  /\ StronglySorted (fun a b => engagement_order a b = true)
       (top_lists_rows two_ranked_lists 6)
  /\ Forall (fun r => ul_is_public (fst r) = true)
       (top_lists_rows two_ranked_lists 6).
Proof.
  split; [reflexivity|].
  destruct (get_top_lists_by_engagement_ranking no_encoding two_ranked_lists
              6) as (_ & _ & Pub & _ & St & _).
  split; [exact St|].
  eapply Forall_impl; [|exact Pub]. simpl. tauto.
Defined.


(** Liking and unliking a list leaves its counter where it was and still
    reorders the owner's lists; liking and unliking a review reorders
    nothing. *)
Example like_and_unlike_moves_a_list :
  let d := set_user_lists three_users
             [alice_list;
              {| ul_id := 2; ul_user_id := 1; ul_name := "Noir";
                 ul_description := None; ul_is_public := true;
                 ul_likes_count := Some 0; ul_comments_count := Some 0;
                 ul_created_at := 2; ul_updated_at := 2 |}] in
  let d' := fst (toggle_like_list (fst (toggle_like_list d 8 3 1)) 9 3 1) in
  map ul_likes_count (user_lists d') = map ul_likes_count (user_lists d)
  /\ map ule_id (get_user_lists d 1 None) = [2; 1]
  /\ map ule_id (get_user_lists d' 1 None) = [1; 2].
Proof. repeat split. Qed.

(** * The rest of the service and of the handlers: properties *)

Lemma key_text_eqb_eq (a b : Z * string) : key_text_eqb a b = true <-> a = b.
Proof.
  destruct a as [a1 a2], b as [b1 b2]. unfold key_text_eqb. simpl.
  rewrite andb_true_iff, Z.eqb_eq, String.eqb_eq.
  split; [intros [-> ->]; reflexivity | intros [= -> ->]; auto].
Qed.

Lemma content_key_iff tmdb_id media_type c :
  content_key tmdb_id media_type c = true <->
  (c_tmdb_id c, c_media_type c) = (tmdb_id, media_type).
Proof.
  unfold content_key. rewrite andb_true_iff, Z.eqb_eq, String.eqb_eq.
  split; [intros [-> ->]; reflexivity | intros [= -> ->]; auto].
Qed.

Lemma count_pos_In {row : Type} (p : row -> bool) (t : list row) (r : row) :
  In r t -> p r = true -> 0 < count_where p t.
Proof.
  intros Hin Hp. unfold count_where.
  assert (H : In r (filter p t)) by (apply filter_In; auto).
  destruct (filter p t); [contradiction | simpl; lia].
Qed.

Lemma fetchone_found {row : Type} (p : row -> bool) (t : list row) (r : row) :
  In r t -> p r = true -> exists r', fetchone_where p t = Some r'.
Proof.
  intros Hin Hp. destruct (fetchone_where p t) eqn:F; [eauto|].
  apply fetchone_none_iff in F.
  pose proof (count_pos_In p t r Hin Hp). lia.
Qed.

Section MoreProperties.

Variable sch : schema.

(** ** The content identity resolver *)

(** X1: resolving a catalog key a second time, with whatever title or
    poster, returns the same id and writes nothing; a key that is already
    present is never rewritten; and the resolver keeps one row per key. *)
Theorem get_or_create_content_idempotent
    d now tmdb_id media_type title p b r now' title' p' b' r' :
  let o := get_or_create_content sch d now tmdb_id media_type title p b r in
  get_or_create_content sch (fst o) now' tmdb_id media_type title' p' b' r'
  = o
  /\ (forall c,
        fetchone_where (content_key tmdb_id media_type) (content d) = Some c ->
        o = (d, c_id c))
  /\ (content_unique d = true -> content_unique (fst o) = true)
  /\ (forall c, In c (content d) -> In c (content (fst o))).
Proof.
  intros o.
  destruct (get_or_create_content_handle sch d now tmdb_id media_type title
              p b r) as (c & Hf & Hid).
  fold o in Hf, Hid.
  split; [|split; [|split]].
  - rewrite (get_or_create_content_again sch (fst o) now' tmdb_id media_type
               title' p' b' r' c Hf).
    rewrite Hid. now destruct o.
  - intros c0 H0. subst o.
    apply (get_or_create_content_again sch d now tmdb_id media_type title
             p b r c0 H0).
  - intros U. subst o. unfold get_or_create_content in *.
    destruct (fetchone_where (content_key tmdb_id media_type) (content d))
      eqn:F; simpl; [exact U|].
    unfold content_unique. simpl.
    apply unique_on_insert; auto using key_text_eqb_eq.
    intros x Hx E. simpl in E.
    apply fetchone_none_iff in F.
    assert (0 < count_where (content_key tmdb_id media_type) (content d)).
    { apply (count_pos_In _ _ x Hx). now apply content_key_iff. }
    lia.
  - intros c0 H0. subst o. unfold get_or_create_content.
    destruct (fetchone_where (content_key tmdb_id media_type) (content d));
      simpl; [exact H0|].
    unfold insert. apply in_or_app. now left.
Qed.

(** ** Watching *)

Lemma watched_with_content_In d w c :
  In (w, c) (watched_with_content d) <->
  In w (user_watched d) /\ In c (content d) /\ c_id c = uw_content_id w.
Proof.
  unfold watched_with_content. rewrite in_flat_map. split.
  - intros (w' & Hw & Hin). apply in_map_iff in Hin.
    destruct Hin as (c' & [= -> ->] & Hc). apply filter_In in Hc.
    destruct Hc as [Hc E]. apply Z.eqb_eq in E. auto.
  - intros (Hw & Hc & E). exists w. split; [assumption|].
    apply in_map. apply filter_In. split; [assumption|].
    now apply Z.eqb_eq.
Qed.

Lemma ratings_with_content_In d r c :
  In (r, c) (ratings_with_content d) <->
  In r (user_ratings d) /\ In c (content d) /\ c_id c = ur_content_id r.
Proof.
  unfold ratings_with_content. rewrite in_flat_map. split.
  - intros (r' & Hr & Hin). apply in_map_iff in Hin.
    destruct Hin as (c' & [= -> ->] & Hc). apply filter_In in Hc.
    destruct Hc as [Hc E]. apply Z.eqb_eq in E. auto.
  - intros (Hr & Hc & E). exists r. split; [assumption|].
    apply in_map. apply filter_In. split; [assumption|].
    now apply Z.eqb_eq.
Qed.

Lemma insert_or_ignore_has {row : Type} (conflict : row -> bool) (r : row)
    (t : list row) :
  conflict r = true ->
  exists x, In x (insert_or_ignore conflict r t) /\ conflict x = true.
Proof.
  intros Hr. unfold insert_or_ignore.
  destruct (existsb conflict t) eqn:E.
  - apply existsb_exists in E. exact E.
  - exists r. split; [|assumption]. unfold insert.
    apply in_or_app. right. now left.
Qed.

(** X2: a logged-in request to [mark_watched] that carries an id, a media
    type and a title is answered with the statistics of the content, whose
    [watched_count] is the number of watch rows of the content and at least
    one; afterwards [has_user_watched] holds for the user. *)
Theorem mark_watched_reports_the_mark
    d now user_id tmdb_id media_type title poster :
  tmdb_id <> 0 -> media_type <> ""%string -> title <> ""%string ->
  let o := mark_watched sch d now (Some user_id)
             (Parsed {| cp_tmdb_id := Some tmdb_id;
                        cp_media_type := Some media_type;
                        cp_title := Some title;
                        cp_poster_path := poster |}) in
  exists stats n,
    snd o = Success stats
    /\ fst o = mark_as_watched sch d now user_id tmdb_id media_type title
                 poster
    /\ cs_watched_count stats = Some n
    /\ 1 <= n
    /\ (exists c,
          fetchone_where (content_key tmdb_id media_type) (content (fst o))
          = Some c
          /\ n = count_where (watched_of_content (c_id c))
                   (user_watched (fst o)))
    /\ has_user_watched (fst o) user_id tmdb_id media_type = true.
Proof.
  intros Ht Hm Hti o. subst o. unfold mark_watched. simpl.
  apply Z.eqb_neq in Ht. apply String.eqb_neq in Hm, Hti.
  rewrite Ht, Hm, Hti. simpl.
  set (d' := mark_as_watched sch d now user_id tmdb_id media_type title
               poster).
  destruct (mark_as_watched_counter sch d now user_id tmdb_id media_type
              title poster) as ((c & Hf & Hid) & Hcnt).
  destruct (mark_as_watched_tables sch d now user_id tmdb_id media_type
              title poster) as (Hw & _).
  fold d' in Hf, Hcnt, Hw.
  set (cid := snd (get_or_create_content sch d now tmdb_id media_type title
                     poster None None)) in *.
  apply fetchone_some in Hf as Hc. destruct Hc as [Hin Hkey].
  destruct (insert_or_ignore_has (watched_key user_id cid)
              {| uw_id := seq_watched
                            (seqs (fst (get_or_create_content sch d now
                                          tmdb_id media_type title poster
                                          None None)));
                 uw_user_id := user_id; uw_content_id := cid;
                 uw_watched_at := now |} (user_watched d))
    as (w & Hwin & Hwk).
  { unfold watched_key. simpl. now rewrite !Z.eqb_refl. }
  rewrite <- Hw in Hwin.
  apply andb_true_iff in Hwk. destruct Hwk as [Hwu Hwc].
  exists (stats_of c),
         (count_where (watched_of_content cid) (user_watched d')).
  split; [unfold get_content_stats; now rewrite Hf|].
  split; [reflexivity|].
  split; [simpl; now apply Hcnt|].
  split.
  { assert (0 < count_where (watched_of_content cid) (user_watched d'))
      by (apply (count_pos_In _ _ w Hwin); exact Hwc).
    lia. }
  split.
  { exists c. split; [exact Hf|]. now rewrite Hid. }
  unfold has_user_watched.
  destruct (fetchone_found
              (fun x => (uw_user_id (fst x) =? user_id)
                        && content_key tmdb_id media_type (snd x))
              (watched_with_content d') (w, c)) as (x & ->);
    [| simpl; now rewrite Hwu, Hkey | reflexivity].
  apply watched_with_content_In. split; [assumption|].
  split; [assumption|]. apply Z.eqb_eq in Hwc. congruence.
Qed.

(** ** Rating *)

Lemma insert_or_update_rows {row : Type} (conflict : row -> bool) (r : row)
    (f : row -> row) (t : list row) (x : row) :
  (forall y, conflict (f y) = conflict y) ->
  conflict r = true ->
  In x (insert_or_update conflict r f t) ->
  (conflict x = false /\ In x t)
  \/ (conflict x = true /\ (x = r \/ exists y, In y t /\ x = f y)).
Proof.
  intros Hf Hr. unfold insert_or_update.
  destruct (existsb conflict t) eqn:E; intros Hin.
  - destruct (conflict x) eqn:Ex.
    + right. split; [reflexivity|]. right.
      apply update_where_hit in Hin; auto.
      destruct Hin as (y & Hy & _ & ->). eauto.
    + left. split; [reflexivity|].
      apply update_where_miss in Hin; auto.
  - unfold insert in Hin. apply in_app_or in Hin.
    destruct Hin as [Hin|[<-|[]]].
    + left. split; [|assumption].
      apply not_true_iff_false. intros Ex.
      apply not_true_iff_false in E. apply E.
      apply existsb_exists. eauto.
    + right. auto.
Qed.

Lemma insert_or_update_has {row : Type} (conflict : row -> bool) (r : row)
    (f : row -> row) (t : list row) :
  (forall y, conflict (f y) = conflict y) ->
  conflict r = true ->
  exists x, In x (insert_or_update conflict r f t) /\ conflict x = true.
Proof.
  intros Hf Hr. unfold insert_or_update.
  destruct (existsb conflict t) eqn:E.
  - apply existsb_exists in E. destruct E as (y & Hy & Hc).
    exists (f y). split; [now apply update_where_keeps | now rewrite Hf].
  - exists r. split; [|assumption]. unfold insert.
    apply in_or_app. right. now left.
Qed.

(** X3: after [add_rating] the user has a rating of the content:
    [has_user_rated] holds, and every rating row of the pair carries the
    score and the review text just submitted, so that a submission without
    text erases the text of an earlier review. *)
Theorem add_rating_then_has_user_rated
    d now user_id tmdb_id media_type title score review poster :
  let d' := add_rating sch d now user_id tmdb_id media_type title score
              review poster in
  has_user_rated d' user_id tmdb_id media_type = true
  /\ exists c,
       fetchone_where (content_key tmdb_id media_type) (content d') = Some c
       /\ (exists r, In r (user_ratings d')
                     /\ rating_key user_id (c_id c) r = true)
       /\ forall r, In r (user_ratings d') ->
            rating_key user_id (c_id c) r = true ->
            ur_score r = score /\ ur_review_text r = review.
Proof.
  intros d'.
  destruct (add_rating_counter sch d now user_id tmdb_id media_type title
              score review poster) as ((c & Hf & Hid) & _).
  destruct (add_rating_tables sch d now user_id tmdb_id media_type title
              score review poster) as (Ht & _).
  fold d' in Hf, Ht.
  set (cid := snd (get_or_create_content sch d now tmdb_id media_type title
                     poster None None)) in *.
  set (new := {| ur_id := seq_ratings
                            (seqs (fst (get_or_create_content sch d now
                                          tmdb_id media_type title poster
                                          None None)));
                 ur_user_id := user_id; ur_content_id := cid;
                 ur_score := score; ur_review_text := review;
                 ur_likes_count := default_count sch; ur_rated_at := now;
                 ur_updated_at := now |}) in *.
  assert (Knew : rating_key user_id cid new = true)
    by (unfold rating_key; simpl; now rewrite !Z.eqb_refl).
  destruct (insert_or_update_has (rating_key user_id cid) new
              (set_rating score review now) (user_ratings d))
    as (r & Hr & Kr); [reflexivity | exact Knew |].
  rewrite <- Ht in Hr.
  apply fetchone_some in Hf as Hc. destruct Hc as [Hcin Hkey].
  split.
  - unfold has_user_rated.
    apply andb_true_iff in Kr. destruct Kr as [Ku Kc].
    destruct (fetchone_found
                (fun x => (ur_user_id (fst x) =? user_id)
                          && content_key tmdb_id media_type (snd x))
                (ratings_with_content d') (r, c)) as (x & ->);
      [| simpl; now rewrite Ku, Hkey | reflexivity].
    apply ratings_with_content_In. split; [assumption|].
    split; [assumption|]. apply Z.eqb_eq in Kc. congruence.
  - exists c. split; [exact Hf|]. rewrite Hid. split; [eauto|].
    intros x Hx Kx. rewrite Ht in Hx.
    apply insert_or_update_rows in Hx; [| reflexivity | exact Knew].
    destruct Hx as [[Kx' _]|[_ [->|(y & _ & ->)]]];
      [congruence | split; reflexivity | split; reflexivity].
Qed.



(** ** List items *)

Lemma items_with_content_In d i c :
  In (i, c) (items_with_content d) <->
  In i (list_items d) /\ In c (content d) /\ c_id c = li_content_id i.
Proof.
  unfold items_with_content. rewrite in_flat_map. split.
  - intros (i' & Hi & Hin). apply in_map_iff in Hin.
    destruct Hin as (c' & [= -> ->] & Hc). apply filter_In in Hc.
    destruct Hc as [Hc E]. apply Z.eqb_eq in E. auto.
  - intros (Hi & Hc & E). exists i. split; [assumption|].
    apply in_map. apply filter_In. split; [assumption|].
    now apply Z.eqb_eq.
Qed.

Lemma insert_or_ignore_rows {row : Type} (conflict : row -> bool) (r : row)
    (t : list row) (x : row) :
  In x (insert_or_ignore conflict r t) -> In x t \/ x = r.
Proof.
  unfold insert_or_ignore.
  destruct (existsb conflict t); [now left|].
  unfold insert. intros Hin. apply in_app_or in Hin.
  destruct Hin as [Hin|[<-|[]]]; auto.
Qed.

(** X5: [add_to_list_view] writes only for the owner of the list: every
    item row present after the call was there before or belongs to a list
    that the logged-in user owns; a user who does not own the list named in
    a complete request is answered with status 403; and every failure
    leaves the store as it was. *)
Theorem add_to_list_view_owner_only d now session body :
  (forall i, In i (list_items (fst (add_to_list_view sch d now session body)))
     -> In i (list_items d)
        \/ exists user_id, session = Some user_id
                           /\ verify_user_owns_list d user_id (li_list_id i)
                              = true)
  /\ (forall user_id list_id tmdb_id media_type title poster,
        session = Some user_id ->
        body = Parsed {| lp_list_id := Some list_id;
                         lp_tmdb_id := Some tmdb_id;
                         lp_media_type := Some media_type;
                         lp_title := Some title;
                         lp_poster_path := poster |} ->
        list_id <> 0 -> tmdb_id <> 0 -> media_type <> ""%string ->
        title <> ""%string ->
        verify_user_owns_list d user_id list_id = false ->
        add_to_list_view sch d now session body
        = (d, Failure 403 "Unauthorized list access"))
  /\ (forall status msg,
        snd (add_to_list_view sch d now session body) = Failure status msg ->
        fst (add_to_list_view sch d now session body) = d).
Proof.
  unfold add_to_list_view. split; [|split].
  - intros i.
    destruct session as [user_id|]; [|now left].
    destruct body as [err|data]; [now left|].
    destruct (truthy_int (lp_list_id data)) as [list_id|]; [|now left].
    destruct (truthy_int (lp_tmdb_id data)) as [tmdb_id|]; [|now left].
    destruct (truthy_text (lp_media_type data)) as [media_type|];
      [|now left].
    destruct (truthy_text (lp_title data)) as [title|]; [|now left].
    destruct (verify_user_owns_list d user_id list_id) eqn:Own;
      [|now left].
    simpl. intros Hin.
    destruct (add_to_list_tables sch d now list_id tmdb_id media_type title
                (lp_poster_path data)) as (Ht & _).
    rewrite Ht in Hin. apply insert_or_ignore_rows in Hin.
    destruct Hin as [Hin| ->]; [now left|].
    right. exists user_id. simpl. auto.
  - intros user_id list_id tmdb_id media_type title poster -> ->
      Hl Ht Hm Hti Own. simpl.
    apply Z.eqb_neq in Hl, Ht. apply String.eqb_neq in Hm, Hti.
    now rewrite Hl, Ht, Hm, Hti, Own.
  - intros status msg.
    destruct session as [user_id|]; [|reflexivity].
    destruct body as [err|data]; [reflexivity|].
    destruct (truthy_int (lp_list_id data)) as [list_id|]; [|reflexivity].
    destruct (truthy_int (lp_tmdb_id data)) as [tmdb_id|]; [|reflexivity].
    destruct (truthy_text (lp_media_type data)) as [media_type|];
      [|reflexivity].
    destruct (truthy_text (lp_title data)) as [title|]; [|reflexivity].
    destruct (verify_user_owns_list d user_id list_id); [|reflexivity].
    simpl. discriminate.
Qed.

(** X6: after [add_to_list] the content is among the items that
    [get_list_items] returns for the list, and its [list_count] is at least
    one; adding the same content to the same list again leaves the item
    rows as they are. *)
Theorem add_to_list_then_listed
    d now now' list_id tmdb_id media_type title title' poster poster' :
  let d' := add_to_list sch d now list_id tmdb_id media_type title poster in
  (exists e, In e (get_list_items d' list_id)
             /\ lie_tmdb_id e = tmdb_id /\ lie_media_type e = media_type)
  /\ (exists n, cs_list_count (get_content_stats d' tmdb_id media_type)
                = Some n /\ 1 <= n)
  /\ list_items (add_to_list sch d' now' list_id tmdb_id media_type title'
                   poster')
     = list_items d'.
Proof.
  intros d'.
  destruct (add_to_list_counter sch d now list_id tmdb_id media_type title
              poster) as ((c & Hf & Hid) & Hcnt).
  destruct (add_to_list_tables sch d now list_id tmdb_id media_type title
              poster) as (Ht & _).
  fold d' in Hf, Hcnt, Ht.
  set (cid := snd (get_or_create_content sch d now tmdb_id media_type title
                     poster None None)) in *.
  destruct (insert_or_ignore_has (item_key list_id cid)
              {| li_id := seq_items
                            (seqs (fst (get_or_create_content sch d now
                                          tmdb_id media_type title poster
                                          None None)));
                 li_list_id := list_id; li_content_id := cid;
                 li_added_at := now |} (list_items d))
    as (i & Hi & Ki).
  { unfold item_key. simpl. now rewrite !Z.eqb_refl. }
  rewrite <- Ht in Hi.
  apply andb_true_iff in Ki. destruct Ki as [Kl Kc].
  apply fetchone_some in Hf as Hc. destruct Hc as [Hcin Hkey].
  apply content_key_iff in Hkey as Hk. injection Hk as Hk1 Hk2.
  split; [|split].
  - exists (list_item_entry_of (i, c)). split; [|split; assumption].
    unfold get_list_items. apply in_map. apply order_by_In.
    apply filter_In. split; [|exact Kl].
    apply items_with_content_In. split; [assumption|].
    split; [assumption|]. apply Z.eqb_eq in Kc. congruence.
  - exists (count_where (item_of_content cid) (list_items d')).
    unfold get_content_stats. rewrite Hf. simpl.
    split; [now apply Hcnt|].
    assert (0 < count_where (item_of_content cid) (list_items d'))
      by (apply (count_pos_In _ _ i Hi); exact Kc).
    lia.
  - destruct (add_to_list_tables sch d' now' list_id tmdb_id media_type
                title' poster') as (Ht' & _).
    rewrite Ht'.
    rewrite (get_or_create_content_again sch d' now' tmdb_id media_type
               title' poster' None None c Hf). simpl.
    rewrite Hid.
    apply insert_or_ignore_present.
    apply (count_pos_In _ _ i Hi).
    unfold item_key. now rewrite Kl, Kc.
Qed.

Lemma sum_of_media_bounds m rows :
  0 <= coalesce0 (sum_of_media m rows)
  /\ coalesce0 (sum_of_media m rows)
     = count_where (fun x => String.eqb (c_media_type (snd x)) m) rows.
Proof.
  unfold sum_of_media, count_where.
  assert (E : forall l : list (list_item_row * content_row),
             fold_right Z.add 0
               (map (fun x => if String.eqb (c_media_type (snd x)) m
                              then 1 else 0) l)
             = Z.of_nat
                 (List.length
                    (filter (fun x => String.eqb (c_media_type (snd x)) m)
                       l))).
  { induction l as [|x l IH]; [reflexivity|].
    cbn [map fold_right filter]. rewrite IH.
    destruct (String.eqb (c_media_type (snd x)) m);
      cbn [List.length]; lia. }
  destruct rows as [|x rows]; [simpl; lia|].
  cbn [coalesce0]. rewrite E. split; [lia|reflexivity].
Qed.

(** X7: the counts of [get_list_item_counts] are never negative, movies and
    shows together never exceed the total, and they add up to the total
    exactly when every item of the list is a movie or a show. *)
Theorem get_list_item_counts_bounds d list_id :
  let counts := get_list_item_counts d list_id in
  let rows :=
    filter (fun x => li_list_id (fst x) =? list_id) (items_with_content d) in
  0 <= ic_movies counts /\ 0 <= ic_shows counts
  /\ ic_movies counts + ic_shows counts <= ic_total counts
  /\ ic_total counts = Z.of_nat (List.length (get_list_items d list_id))
  /\ (ic_movies counts + ic_shows counts = ic_total counts <->
      forall x, In x rows ->
        c_media_type (snd x) = "movie"%string
        \/ c_media_type (snd x) = "tv"%string).
Proof.
  intros counts rows. subst counts. unfold get_list_item_counts.
  fold rows. cbn [ic_movies ic_shows ic_total coalesce0].
  destruct (sum_of_media_bounds "movie" rows) as [M0 ->].
  destruct (sum_of_media_bounds "tv" rows) as [S0 ->].
  unfold count_where in *.
  assert (Split :
    forall l : list (list_item_row * content_row),
      (List.length
         (filter (fun x => String.eqb (c_media_type (snd x)) "movie") l)
       + List.length
           (filter (fun x => String.eqb (c_media_type (snd x)) "tv") l)
       <= List.length l)%nat
      /\ ((List.length
             (filter (fun x => String.eqb (c_media_type (snd x)) "movie") l)
           + List.length
               (filter (fun x => String.eqb (c_media_type (snd x)) "tv") l)
           = List.length l)%nat <->
          forall x, In x l ->
            c_media_type (snd x) = "movie"%string
            \/ c_media_type (snd x) = "tv"%string)).
  { induction l as [|x l [IHle IHeq]]; simpl.
    - split; [lia|]. split; [intros _ x []|reflexivity].
    - destruct (String.eqb_spec (c_media_type (snd x)) "movie") as [Em|Em];
        destruct (String.eqb_spec (c_media_type (snd x)) "tv") as [Et|Et];
        simpl.
      + rewrite Em in Et. discriminate.
      + split; [lia|]. split.
        * intros H y [<-|Hy]; [now left|]. apply IHeq; [lia|assumption].
        * intros H. assert (forall y, In y l ->
                              c_media_type (snd y) = "movie"%string
                              \/ c_media_type (snd y) = "tv"%string)
            by (intros; apply H; auto).
          apply IHeq in H0. lia.
      + split; [lia|]. split.
        * intros H y [<-|Hy]; [now right|]. apply IHeq; [lia|assumption].
        * intros H. assert (forall y, In y l ->
                              c_media_type (snd y) = "movie"%string
                              \/ c_media_type (snd y) = "tv"%string)
            by (intros; apply H; auto).
          apply IHeq in H0. lia.
      + split; [lia|]. split.
        * intros H. lia.
        * intros H. destruct (H x (or_introl eq_refl)); contradiction. }
  destruct (Split rows) as [Le Eq].
  split; [lia|]. split; [lia|]. split; [lia|]. split.
  - unfold get_list_items. rewrite length_map.
    f_equal. apply Permutation_length. apply order_by_perm.
  - rewrite <- Eq. lia.
Qed.

(** ** Popular lists and search *)

Variable b64encode : string -> string.
Variable ilike : string -> string -> bool.





Lemma skipn_In_inv {A : Type} (n : nat) (l : list A) (x : A) :
  In x (skipn n l) -> In x l.
Proof.
  revert l. induction n as [|n IH]; intros [|y l]; simpl; auto.
Qed.

(** X9: [search_lists] never shows a private list to anyone but its owner:
    every list returned is public or belongs to the viewer, and a search
    without a viewer (no id, or the id 0) returns public lists only.  The
    page has at most [limit] entries, all of them lists of the store. *)
Theorem search_lists_visibility d query viewer limit_ offset :
  let found := search_lists b64encode ilike d query viewer limit_ offset in
  Forall (fun e => fl_is_public e = true
                   \/ exists v, viewer = Some v /\ v <> 0 /\ fl_user_id e = v)
    found
  /\ (viewer = None \/ viewer = Some 0 ->
      Forall (fun e => fl_is_public e = true) found)
  /\ (List.length found <= limit_)%nat
  /\ Forall (fun e => exists l u,
               In l (user_lists d) /\ In u (users d)
               /\ u_id u = ul_user_id l /\ fl_id e = ul_id l
               /\ fl_user_id e = ul_user_id l
               /\ fl_is_public e = ul_is_public l
               /\ fl_username e = u_username u) found.
Proof.
  intros found. subst found. unfold search_lists. cbv zeta.
  set (q := ("%" ++ strip query ++ "%")%string).
  assert (Rows :
    forall e,
      In e (map (found_list_of b64encode)
              (limit limit_
                 (skipn offset
                    (order_by popular_order
                       (filter (fun r => search_visible viewer r
                                         && search_match ilike q r)
                          (lists_with_owner d)))))) ->
      exists l u,
        e = found_list_of b64encode (l, u)
        /\ In (l, u) (lists_with_owner d)
        /\ search_visible viewer (l, u) = true).
  { intros e Hin. apply in_map_iff in Hin.
    destruct Hin as ([l u] & <- & Hin).
    apply limit_In, skipn_In_inv, order_by_In, filter_In in Hin.
    destruct Hin as [Hin Hv]. apply andb_true_iff in Hv.
    exists l, u. tauto. }
  split; [|split; [|split]].
  - apply Forall_forall. intros e Hin.
    destruct (Rows e Hin) as (l & u & -> & _ & Hv).
    unfold search_visible in Hv. simpl in *.
    destruct viewer as [v|]; [|now left].
    destruct (Z.eqb_spec v 0); [now left|].
    apply orb_true_iff in Hv. destruct Hv as [Hv|Hv]; [now left|].
    right. exists v. apply Z.eqb_eq in Hv. auto.
  - intros Anonymous. apply Forall_forall. intros e Hin.
    destruct (Rows e Hin) as (l & u & -> & _ & Hv).
    unfold search_visible in Hv. simpl in *.
    destruct Anonymous as [-> | ->]; exact Hv.
  - rewrite length_map. unfold limit. apply firstn_le_length.
  - apply Forall_forall. intros e Hin.
    destruct (Rows e Hin) as (l & u & -> & Hj & _).
    apply lists_with_owner_In in Hj. exists l, u. simpl. tauto.
Qed.

(** ** Finding a list by its name *)

Lemma hyphens_to_spaces_plain s :
  has_hyphen s = false -> hyphens_to_spaces s = s.
Proof.
  induction s as [|a s IH]; simpl; [reflexivity|].
  destruct (Ascii.eqb a "-"); simpl; [discriminate|].
  intros H. now rewrite IH.
Qed.

Lemma hyphens_to_spaces_none s : has_hyphen (hyphens_to_spaces s) = false.
Proof.
  induction s as [|a s IH]; simpl; [reflexivity|].
  destruct (Ascii.eqb a "-") eqn:E; simpl; [exact IH|].
  now rewrite E.
Qed.

Lemma create_user_list_success d now user_id name description is_public d' r :
  create_user_list sch d now user_id name description is_public = ret d' r ->
  user_has_list_name sch d user_id (strip name) = false
  /\ cl_name r = strip name
  /\ cl_id r = seq_lists (seqs d)
  /\ user_lists d'
     = insert {| ul_id := seq_lists (seqs d); ul_user_id := user_id;
                 ul_name := strip name; ul_description := description;
                 ul_is_public := is_public;
                 ul_likes_count := default_count sch;
                 ul_comments_count := default_count sch;
                 ul_created_at := now; ul_updated_at := now |}
         (user_lists d).
Proof.
  unfold create_user_list.
  destruct (String.eqb name "" || String.eqb (strip name) "");
    [discriminate|].
  destruct (200 <? len (strip name)); [discriminate|].
  destruct (user_has_list_name sch d user_id (strip name));
    [discriminate|].
  cbn. intros [= <- <-]. repeat split.
Qed.

(** X10: a list that [create_user_list] has just stored is found again by
    [get_list_by_user_and_name] under every URL part that equals its name
    up to case once hyphens are read as spaces, in particular under its own
    name when that has no hyphen; and [verify_user_owns_list] accepts its
    creator. *)
Theorem create_user_list_then_found
    d now user_id name description is_public d' r :
  create_user_list sch d now user_id name description is_public = ret d' r ->
  (forall slug,
     sql_lower sch (hyphens_to_spaces slug) = sql_lower sch (cl_name r) ->
     exists e,
       get_list_by_user_and_name sch d' user_id slug = Some e
       /\ le_id e = cl_id r /\ le_name e = cl_name r
       /\ le_user_id e = user_id)
  /\ (has_hyphen (cl_name r) = false ->
      exists e,
        get_list_by_user_and_name sch d' user_id (cl_name r) = Some e
        /\ le_id e = cl_id r)
  /\ verify_user_owns_list d' user_id (cl_id r) = true.
Proof.
  intros E. apply create_user_list_success in E.
  destruct E as (Free & Hn & Hi & Hl).
  assert (Found :
    forall slug,
      sql_lower sch (hyphens_to_spaces slug) = sql_lower sch (cl_name r) ->
      exists e,
        get_list_by_user_and_name sch d' user_id slug = Some e
        /\ le_id e = cl_id r /\ le_name e = cl_name r
        /\ le_user_id e = user_id).
  { intros slug Hs. unfold get_list_by_user_and_name. cbv zeta.
    rewrite Hl. unfold insert. rewrite fetchone_app.
    assert (Same : forall l,
              list_name_key sch user_id (hyphens_to_spaces slug) l
              = list_name_key sch user_id (strip name) l)
      by (intros l; unfold list_name_key; now rewrite Hs, Hn).
    unfold user_has_list_name in Free.
    assert (None0 : fetchone_where
                      (list_name_key sch user_id (hyphens_to_spaces slug))
                      (user_lists d) = None).
    { destruct (fetchone_where
                  (list_name_key sch user_id (hyphens_to_spaces slug))
                  (user_lists d)) as [l|] eqn:F; [|reflexivity].
      apply fetchone_some in F. destruct F as [Hin Hk].
      rewrite Same in Hk.
      destruct (fetchone_found _ _ l Hin Hk) as (l' & F').
      now rewrite F' in Free. }
    rewrite None0. simpl.
    unfold list_name_key at 1. simpl.
    rewrite Z.eqb_refl, Hs, Hn, String.eqb_refl. simpl.
    eexists. split; [reflexivity|]. simpl. auto. }
  split; [exact Found|]. split.
  - intros Plain.
    destruct (Found (cl_name r)) as (e & He & Hid & _);
      [now rewrite hyphens_to_spaces_plain | eauto].
  - unfold verify_user_owns_list.
    destruct (fetchone_found
                (fun l => (ul_id l =? cl_id r) && (ul_user_id l =? user_id))
                (user_lists d')
                {| ul_id := seq_lists (seqs d); ul_user_id := user_id;
                   ul_name := strip name; ul_description := description;
                   ul_is_public := is_public;
                   ul_likes_count := default_count sch;
                   ul_comments_count := default_count sch;
                   ul_created_at := now; ul_updated_at := now |})
      as (l & ->); [| | reflexivity].
    + rewrite Hl. unfold insert. apply in_or_app. right. now left.
    + simpl. now rewrite Hi, !Z.eqb_refl.
Qed.

(** X11: when case folding neither adds nor removes hyphens, a list whose
    name contains a hyphen is never returned by
    [get_list_by_user_and_name], whatever the URL part: the lookup compares
    stored names with a text that has no hyphen left. *)
Theorem hyphenated_list_name_not_found d user_id slug e :
  (forall s, has_hyphen (sql_lower sch s) = has_hyphen s) ->
  get_list_by_user_and_name sch d user_id slug = Some e ->
  has_hyphen (le_name e) = false
  /\ exists l, In l (user_lists d) /\ e = list_entry_of l
               /\ ul_user_id l = user_id.
Proof.
  intros Fold. unfold get_list_by_user_and_name. cbv zeta.
  destruct (fetchone_where _ (user_lists d)) as [l|] eqn:F; [|discriminate].
  intros [= <-]. apply fetchone_some in F. destruct F as [Hin Hk].
  unfold list_name_key in Hk. apply andb_true_iff in Hk.
  destruct Hk as [Hu Hn]. apply Z.eqb_eq in Hu. apply String.eqb_eq in Hn.
  split; [|eauto].
  simpl. rewrite <- Fold, Hn, Fold. apply hyphens_to_spaces_none.
Qed.

(** ** Review likes as the reader sees them *)

Lemma toggle_like_review_likes d user_id rating_id :
  user_rating_likes (fst (toggle_like_review d user_id rating_id))
  = match fetchone_where (rating_like_key user_id rating_id)
            (user_rating_likes d) with
    | Some _ =>
        delete_where (rating_like_key user_id rating_id) (user_rating_likes d)
    | None =>
        insert {| url_user_id := user_id; url_rating_id := rating_id |}
          (user_rating_likes d)
    end
  /\ forall r, snd (toggle_like_review d user_id rating_id) = inr r ->
       rlr_liked r
       = match fetchone_where (rating_like_key user_id rating_id)
                 (user_rating_likes d) with
         | Some _ => false
         | None => true
         end.
Proof.
  unfold toggle_like_review. cbv zeta.
  destruct (fetchone_where (rating_like_key user_id rating_id)
              (user_rating_likes d));
    match goal with
    | |- context [match ?x with Some _ => _ | None => _ end] => destruct x
    end; cbn; split; try reflexivity; intros res [= <-]; reflexivity.
Qed.

Lemma liked_by_key d user_id rating_id :
  liked_by d (Some user_id) rating_id
  = match fetchone_where (rating_like_key user_id rating_id)
            (user_rating_likes d) with
    | Some _ => true
    | None => false
    end.
Proof.
  unfold liked_by. rewrite <- existsb_fetchone.
  induction (user_rating_likes d) as [|k t IH]; simpl; [reflexivity|].
  rewrite IH. unfold rating_like_key.
  now rewrite (andb_comm (url_rating_id k =? rating_id)).
Qed.

(** X12: [toggle_like_review] flips what the reader is shown: the flag it
    returns is the [liked_by_me] that [get_content_reviews] reports for
    that reader and rating afterwards, the opposite of before; the flags of
    other readers and of other ratings do not move. *)
Theorem toggle_like_review_then_liked_by_me d user_id rating_id :
  let o := toggle_like_review d user_id rating_id in
  liked_by (fst o) (Some user_id) rating_id
  = negb (liked_by d (Some user_id) rating_id)
  /\ (forall r, snd o = inr r ->
        rlr_liked r = liked_by (fst o) (Some user_id) rating_id)
  /\ (forall tmdb_id media_type e,
        In e (get_content_reviews b64encode (fst o) tmdb_id media_type
                (Some user_id)) ->
        re_rating_id e = rating_id ->
        re_liked_by_me e = negb (liked_by d (Some user_id) rating_id))
  /\ (forall other rating,
        other <> user_id \/ rating <> rating_id ->
        liked_by (fst o) (Some other) rating = liked_by d (Some other) rating)
  /\ (forall rating, liked_by (fst o) None rating = false).
Proof.
  intros o.
  destruct (toggle_like_review_likes d user_id rating_id) as [Hl Hr].
  fold o in Hl, Hr.
  assert (Flip : liked_by (fst o) (Some user_id) rating_id
                 = negb (liked_by d (Some user_id) rating_id)).
  { rewrite !liked_by_key, Hl.
    destruct (fetchone_where (rating_like_key user_id rating_id)
                (user_rating_likes d)) eqn:F; simpl.
    - pose proof (count_delete_where (rating_like_key user_id rating_id)
                    (user_rating_likes d)) as Z0.
      apply fetchone_none_iff in Z0. now rewrite Z0.
    - unfold insert. rewrite fetchone_app, F. simpl.
      unfold rating_like_key. simpl. now rewrite !Z.eqb_refl. }
  split; [exact Flip|]. split; [|split; [|split]].
  - intros r Er. rewrite (Hr r Er), Flip, liked_by_key.
    now destruct (fetchone_where (rating_like_key user_id rating_id)
                    (user_rating_likes d)).
  - intros tmdb_id media_type e Hin Hid.
    unfold get_content_reviews in Hin. apply in_map_iff in Hin.
    destruct Hin as (x & <- & _). simpl in *. rewrite Hid. exact Flip.
  - intros other rating Hne. rewrite !liked_by_key, Hl.
    assert (Other : forall k,
              rating_like_key user_id rating_id k = true ->
              rating_like_key other rating k = false).
    { intros k Hk. unfold rating_like_key in *.
      apply andb_true_iff in Hk. destruct Hk as [Hu Hrt].
      apply Z.eqb_eq in Hu, Hrt. apply andb_false_iff.
      destruct Hne as [Hne|Hne]; [left|right]; apply Z.eqb_neq; congruence. }
    destruct (fetchone_where (rating_like_key user_id rating_id)
                (user_rating_likes d)) eqn:F.
    + assert (C : count_where (rating_like_key other rating)
                    (delete_where (rating_like_key user_id rating_id)
                       (user_rating_likes d))
                  = count_where (rating_like_key other rating)
                      (user_rating_likes d)).
      { apply count_delete_where_other. intros k _ Hk.
        destruct (rating_like_key user_id rating_id k) eqn:Ek;
          [|reflexivity].
        rewrite (Other k Ek) in Hk. discriminate. }
      destruct (fetchone_where (rating_like_key other rating)
                  (delete_where (rating_like_key user_id rating_id)
                     (user_rating_likes d))) eqn:F1;
        destruct (fetchone_where (rating_like_key other rating)
                    (user_rating_likes d)) eqn:F2; try reflexivity.
      * apply fetchone_none_iff in F2. rewrite F2 in C.
        apply fetchone_none_iff in C. congruence.
      * apply fetchone_none_iff in F1. rewrite F1 in C. symmetry in C.
        apply fetchone_none_iff in C. congruence.
    + unfold insert. rewrite fetchone_app.
      destruct (fetchone_where (rating_like_key other rating)
                  (user_rating_likes d)); [reflexivity|].
      simpl.
      rewrite (Other {| url_user_id := user_id; url_rating_id := rating_id |});
        [reflexivity|].
      unfold rating_like_key. simpl. now rewrite !Z.eqb_refl.
  - reflexivity.
Qed.

(** ** Statistics attached to catalog entries *)

Lemma find_over_app {A : Type} (p : A -> bool) (l1 l2 : list A) :
  find p (l1 ++ l2)
  = match find p l1 with Some x => Some x | None => find p l2 end.
Proof. exact (fetchone_app p l1 l2). Qed.

Section DictFacts.
Context {K V : Type} (eqb : K -> K -> bool).
Hypothesis eqb_eq : forall a b, eqb a b = true <-> a = b.

Lemma dict_get_set_same (k : K) (v : V) (m : list (K * V)) :
  dict_get eqb k (dict_set eqb k v m) = Some v.
Proof.
  unfold dict_get, dict_set.
  destruct (existsb (fun kv => eqb (fst kv) k) m) eqn:E.
  - induction m as [|[k0 v0] m IH]; simpl in *; [discriminate|].
    destruct (eqb k0 k) eqn:Ek; simpl.
    + now rewrite Ek.
    + rewrite Ek. simpl in E. now apply IH.
  - rewrite find_over_app.
    assert (F : find (fun kv : K * V => eqb (fst kv) k) m = None).
    { destruct (find (fun kv : K * V => eqb (fst kv) k) m) eqn:F;
        [|reflexivity].
      apply find_some in F. apply not_true_iff_false in E.
      exfalso. apply E. apply existsb_exists. eauto. }
    rewrite F. simpl.
    assert (eqb k k = true) as -> by now apply eqb_eq.
    reflexivity.
Qed.

Lemma dict_get_set_other (k k' : K) (v : V) (m : list (K * V)) :
  k' <> k -> dict_get eqb k' (dict_set eqb k v m) = dict_get eqb k' m.
Proof.
  intros Hne. unfold dict_get, dict_set.
  destruct (existsb (fun kv => eqb (fst kv) k) m).
  - induction m as [|[k0 v0] m IH]; simpl; [reflexivity|].
    destruct (eqb k0 k) eqn:Ek; simpl.
    + apply eqb_eq in Ek. subst k0.
      assert (eqb k k' = false) as ->
        by (apply not_true_iff_false; rewrite eqb_eq; congruence).
      exact IH.
    + destruct (eqb k0 k'); [reflexivity|exact IH].
  - rewrite find_over_app.
    destruct (find (fun kv : K * V => eqb (fst kv) k') m); [reflexivity|].
    simpl.
    assert (eqb k k' = false) as ->
      by (apply not_true_iff_false; rewrite eqb_eq; congruence).
    reflexivity.
Qed.
End DictFacts.

Lemma stats_key_eqb_eq (a b : option Z * string) :
  stats_key_eqb a b = true <-> a = b.
Proof.
  destruct a as [[x|] m], b as [[y|] n]; unfold stats_key_eqb; simpl;
    rewrite ?andb_true_iff, ?Z.eqb_eq, ?String.eqb_eq;
    split; try discriminate; try (intros [-> ->]; reflexivity);
    try (intros ->; reflexivity); intros [= ]; subst; auto.
Qed.

(** X13: [enrich_content_with_stats] keeps the entries, their order and
    their other keys, and gives each entry exactly the statistics that
    [get_content_stats] returns for its id and its media type, "movie" when
    it has none; an entry without id gets zeros. *)
Theorem enrich_content_with_stats_per_item d content_list :
  enrich_content_with_stats d content_list
  = map (fun item =>
           set_custom_stats
             match item_id item with
             | Some tmdb_id =>
                 get_content_stats d tmdb_id (media_type_of item)
             | None => zero_stats
             end item)
      content_list.
Proof.
  unfold enrich_content_with_stats.
  destruct content_list as [|first others]; [reflexivity|].
  set (items := first :: others).
  set (step := fun m item =>
                 match stats_row d item with
                 | Some row =>
                     dict_set stats_key_eqb (item_id item, media_type_of item)
                       (stats_of row) m
                 | None => m
                 end).
  set (row_of := fun k : option Z * string =>
                   match fst k with
                   | Some tmdb_id =>
                       fetchone_where (content_key tmdb_id (snd k)) (content d)
                   | None => None
                   end).
  assert (Row : forall item,
            stats_row d item = row_of (item_id item, media_type_of item))
    by reflexivity.
  assert (Inv :
    forall done m,
      (forall k, dict_get stats_key_eqb k m
                 = if existsb (fun item =>
                                 stats_key_eqb
                                   (item_id item, media_type_of item) k) done
                   then option_map stats_of (row_of k) else None) ->
      forall todo k,
        dict_get stats_key_eqb k (fold_left step todo m)
        = if existsb (fun item =>
                        stats_key_eqb (item_id item, media_type_of item) k)
               (done ++ todo)
          then option_map stats_of (row_of k) else None).
  { intros done m Hm todo. revert done m Hm.
    induction todo as [|item todo IH]; intros done m Hm k.
    - rewrite app_nil_r. apply Hm.
    - simpl.
      replace (done ++ item :: todo) with ((done ++ [item]) ++ todo)
        by (rewrite <- app_assoc; reflexivity).
      apply IH. clear k. intros k.
      rewrite existsb_app. simpl. rewrite orb_false_r.
      unfold step. rewrite Row.
      destruct (stats_key_eqb (item_id item, media_type_of item) k) eqn:Ek.
      + apply stats_key_eqb_eq in Ek. subst k. rewrite orb_true_r.
        destruct (row_of (item_id item, media_type_of item)) eqn:Er.
        * simpl. apply dict_get_set_same. exact stats_key_eqb_eq.
        * rewrite Hm, Er. simpl.
          now destruct (existsb _ done).
      + rewrite orb_false_r.
        destruct (row_of (item_id item, media_type_of item)); [|apply Hm].
        rewrite dict_get_set_other; [apply Hm | exact stats_key_eqb_eq |].
        intros ->.
        assert (stats_key_eqb (item_id item, media_type_of item)
                  (item_id item, media_type_of item) = true)
          by now apply stats_key_eqb_eq.
        congruence. }
  assert (Map : forall k,
            dict_get stats_key_eqb k (fold_left step items [])
            = if existsb (fun item =>
                            stats_key_eqb
                              (item_id item, media_type_of item) k) items
              then option_map stats_of (row_of k) else None)
    by (intros k; apply (Inv [] []); reflexivity).
  apply map_ext_in. intros item Hin. rewrite Map.
  assert (existsb (fun it => stats_key_eqb (item_id it, media_type_of it)
                               (item_id item, media_type_of item)) items
          = true) as ->.
  { apply existsb_exists. exists item. split; [assumption|].
    now apply stats_key_eqb_eq. }
  unfold row_of, get_content_stats. simpl.
  destruct (item_id item) as [tmdb_id|]; [|reflexivity].
  destruct (fetchone_where (content_key tmdb_id (media_type_of item))
              (content d)); reflexivity.
Qed.

(** ** Comments through the handler *)

(** X14: for a logged-in user and a comment id other than 0,
    [delete_list_comment_view] answers 404 exactly when the comment or its
    list does not exist, 403 exactly when both exist and the user is
    neither the author nor the owner of the list, and 200 otherwise; it
    never answers 500, and every answer but 200 leaves the store as it
    was.  Without a session it answers 401, without a comment id 400. *)
Theorem delete_list_comment_view_status d now user_id comment_id :
  comment_id <> 0 ->
  let o := delete_list_comment_view d now (Some user_id)
             (Parsed (Some comment_id)) in
  let comment :=
    fetchone_where (comment_has_id comment_id) (list_comments d) in
  let owner :=
    match comment with
    | Some c =>
        option_map ul_user_id
          (fetchone_where (list_has_id (lc_list_id c)) (user_lists d))
    | None => None
    end in
  (response_status (snd o) = 404 <-> owner = None)
  /\ (response_status (snd o) = 403 <->
      exists c w, comment = Some c /\ owner = Some w
                  /\ user_id <> lc_user_id c /\ user_id <> w)
  /\ (response_status (snd o) = 200 <->
      exists c w, comment = Some c /\ owner = Some w
                  /\ (user_id = lc_user_id c \/ user_id = w))
  /\ response_status (snd o) <> 500
  /\ (response_status (snd o) <> 200 -> fst o = d)
  /\ (forall body,
        delete_list_comment_view d now None body
        = (d, Failure 401 "Not logged in"))
  /\ delete_list_comment_view d now (Some user_id) (Parsed None)
     = (d, Failure 400 "Missing comment_id")
  /\ delete_list_comment_view d now (Some user_id) (Parsed (Some 0))
     = (d, Failure 400 "Missing comment_id").
Proof.
  intros Hc o comment owner. subst o comment owner.
  unfold delete_list_comment_view. simpl.
  apply Z.eqb_neq in Hc. rewrite Hc.
  destruct (fetchone_where (comment_has_id comment_id) (list_comments d))
    as [c|] eqn:Fc.
  2:{ unfold delete_list_comment. rewrite Fc. simpl.
      repeat split; try discriminate; try reflexivity;
        try (intros (c & w & E & _); discriminate); try lia. }
  destruct (fetchone_where (list_has_id (lc_list_id c)) (user_lists d))
    as [l|] eqn:Fl.
  2:{ unfold delete_list_comment. rewrite Fc, Fl. simpl.
      repeat split; try discriminate; try reflexivity;
        try (intros (c' & w & _ & E & _); discriminate); try lia. }
  simpl.
  destruct (Z.eq_dec user_id (lc_user_id c)) as [Ea|Na].
  - destruct (delete_list_comment_permitted d now user_id comment_id c l
                Fc Fl (or_introl Ea)) as (R & _).
    rewrite R. simpl.
    repeat split; try discriminate; try reflexivity; try lia.
    + intros (c' & w & [= <-] & _ & Nope & _). contradiction.
    + intros _. exists c, (ul_user_id l). auto.
  - destruct (Z.eq_dec user_id (ul_user_id l)) as [Eo|No].
    + destruct (delete_list_comment_permitted d now user_id comment_id c l
                  Fc Fl (or_intror Eo)) as (R & _).
      rewrite R. simpl.
      repeat split; try discriminate; try reflexivity; try lia.
      * intros (c' & w & _ & [= <-] & _ & Nope). contradiction.
      * intros _. exists c, (ul_user_id l). auto.
    + unfold delete_list_comment. rewrite Fc, Fl.
      apply Z.eqb_neq in Na as Na', No as No'. rewrite Na', No'. simpl.
      repeat split; try discriminate; try reflexivity; try lia.
      * intros _. exists c, (ul_user_id l). auto.
      * intros (c' & w & [= <-] & [= <-] & [E|E]); contradiction.
Qed.

Lemma delete_where_insert_fresh {row : Type} (p : row -> bool) (r : row)
    (t : list row) :
  count_where p t = 0 -> p r = true -> delete_where p (insert r t) = t.
Proof.
  intros H0 Hr. unfold delete_where, insert.
  rewrite filter_app. simpl. rewrite Hr. simpl. rewrite app_nil_r.
  now apply delete_where_absent.
Qed.

(** X15: a comment with text on an existing list is stored trimmed and
    raises the list's [comments_count] to the number of its comments; when
    the author deletes that comment again, the comment rows are exactly
    those from before and the counter is their number.  The id handed out
    must not be in use already. *)
Theorem add_then_delete_list_comment
    d now now' user_id list_id text l0 :
  strip text <> ""%string ->
  fetchone_where (list_has_id list_id) (user_lists d) = Some l0 ->
  count_where (comment_has_id (seq_comments (seqs d))) (list_comments d) = 0 ->
  let before := count_where (comment_of_list list_id) (list_comments d) in
  let o1 := add_list_comment d now user_id list_id text in
  exists added,
    snd o1 = inr added
    /\ ac_comment_text added = strip text
    /\ ac_comments_count added = Some (before + 1)
    /\ exists deleted,
         delete_list_comment (fst o1) now' user_id (ac_id added)
         = ret (fst (delete_list_comment (fst o1) now' user_id (ac_id added)))
             deleted
         /\ dc_comments_count deleted = Some before
         /\ dc_list_id deleted = list_id
         /\ list_comments
              (fst (delete_list_comment (fst o1) now' user_id (ac_id added)))
            = list_comments d.
Proof.
  intros Htext Hl0 Fresh before o1.
  destruct (add_list_comment_counter d now user_id list_id text Htext)
    as (Tc & Tl & _).
  fold o1 in Tc, Tl.
  set (new := {| lc_id := seq_comments (seqs d); lc_list_id := list_id;
                 lc_user_id := user_id; lc_comment_text := strip text;
                 lc_created_at := now; lc_updated_at := now |}) in *.
  assert (Cnt : count_where (comment_of_list list_id) (list_comments (fst o1))
                = before + 1).
  { rewrite Tc, count_where_insert. unfold comment_of_list at 2. simpl.
    now rewrite Z.eqb_refl. }
  assert (R1 : snd o1
               = inr {| ac_id := seq_comments (seqs d);
                        ac_comment_text := strip text;
                        ac_created_at := now; ac_updated_at := now;
                        ac_comments_count := Some (before + 1) |}).
  { subst o1. unfold add_list_comment in *. rewrite blank_text_test in *.
    apply String.eqb_neq in Htext. rewrite Htext in *.
    cbv zeta in *. unfold nextval_comments in *.
    cbn [set_seqs set_list_comments set_user_lists user_lists list_comments
         seqs seq_comments] in *.
    rewrite fetchone_update_where in * by reflexivity.
    rewrite Hl0 in *.
    cbn [option_map raise ret fst snd set_user_lists set_list_comments
         user_lists list_comments] in *.
    apply fetchone_some in Hl0. destruct Hl0 as [_ ->].
    cbn [ul_comments_count set_comments_count]. rewrite Cnt. reflexivity. }
  eexists. split; [exact R1|]. split; [reflexivity|].
  split; [reflexivity|]. cbn [ac_id].
  assert (Fc : fetchone_where (comment_has_id (seq_comments (seqs d)))
                 (list_comments (fst o1)) = Some new).
  { rewrite Tc. unfold insert. rewrite fetchone_app.
    apply fetchone_none_iff in Fresh. rewrite Fresh. simpl.
    unfold comment_has_id. simpl. now rewrite Z.eqb_refl. }
  assert (Fl : exists l1,
             fetchone_where (list_has_id (lc_list_id new))
               (user_lists (fst o1)) = Some l1).
  { rewrite Tl, fetchone_update_where by reflexivity.
    simpl. rewrite Hl0. simpl. eauto. }
  destruct Fl as (l1 & Fl).
  destruct (delete_list_comment_permitted (fst o1) now' user_id
              (seq_comments (seqs d)) new l1 Fc Fl (or_introl eq_refl))
    as (R2 & T2 & _).
  assert (Back : list_comments
                   (fst (delete_list_comment (fst o1) now' user_id
                           (seq_comments (seqs d))))
                 = list_comments d).
  { rewrite T2, Tc. apply delete_where_insert_fresh; [exact Fresh|].
    unfold comment_has_id. simpl. apply Z.eqb_refl. }
  eexists. split; [exact R2|]. split; [|split].
  - simpl. now rewrite Back.
  - reflexivity.
  - exact Back.
Qed.

(** ** The per-user settings *)

Lemma setting_key_iff user_id key r :
  setting_key user_id key r = true <->
  (us_user_id r, us_key r) = (user_id, key).
Proof.
  unfold setting_key. rewrite andb_true_iff, Z.eqb_eq, String.eqb_eq.
  split; [intros [-> ->]; reflexivity | intros [= -> ->]; auto].
Qed.

Lemma find_filter {A : Type} (p q : A -> bool) (l : list A) :
  find p (filter q l) = find (fun x => q x && p x) l.
Proof.
  induction l as [|x l IH]; simpl; [reflexivity|].
  destruct (q x); simpl; [|exact IH].
  destruct (p x); [reflexivity|exact IH].
Qed.

Lemma settings_keys_NoDup (t : list setting_row) user_id :
  NoDup (map (fun r => (us_user_id r, us_key r)) t) ->
  NoDup (map us_key (filter (fun r => us_user_id r =? user_id) t)).
Proof.
  induction t as [|r t IH]; simpl; intros U; [constructor|].
  apply NoDup_cons_iff in U. destruct U as [Hr U].
  destruct (Z.eqb_spec (us_user_id r) user_id) as [E|E]; simpl; auto.
  constructor; auto.
  intros C. apply Hr. apply in_map_iff in C.
  destruct C as (x & Hx & Hin). apply filter_In in Hin.
  destruct Hin as [Hin Ex]. apply Z.eqb_eq in Ex.
  apply in_map_iff. exists x. split; [|assumption]. congruence.
Qed.

Lemma dict_of_rows (rows : list setting_row) m k :
  NoDup (map us_key rows) ->
  dict_get String.eqb k
    (fold_left (fun m r => dict_set String.eqb (us_key r) (us_value r) m)
       rows m)
  = match find (fun r => String.eqb (us_key r) k) rows with
    | Some r => Some (us_value r)
    | None => dict_get String.eqb k m
    end.
Proof.
  revert m. induction rows as [|r rows IH]; intros m U; [reflexivity|].
  simpl in U. apply NoDup_cons_iff in U. destruct U as [Hr U].
  simpl. rewrite (IH _ U).
  destruct (String.eqb_spec (us_key r) k) as [E|E].
  - assert (find (fun r0 => String.eqb (us_key r0) k) rows = None) as ->.
    { destruct (find (fun r0 => String.eqb (us_key r0) k) rows) eqn:F;
        [|reflexivity].
      apply find_some in F. destruct F as [Hin Hk].
      apply String.eqb_eq in Hk. exfalso. apply Hr.
      apply in_map_iff. exists s. split; [congruence|assumption]. }
    rewrite E. apply dict_get_set_same. exact String.eqb_eq.
  - destruct (find (fun r0 => String.eqb (us_key r0) k) rows);
      [reflexivity|].
    apply dict_get_set_other; [exact String.eqb_eq | congruence].
Qed.

(** Reading a key of the dictionary is looking the row up by its primary
    key. *)
Lemma get_user_settings_lookup t user_id k :
  settings_unique t = true ->
  dict_get String.eqb k (get_user_settings t user_id)
  = option_map us_value (fetchone_where (setting_key user_id k) t).
Proof.
  intros U. unfold settings_unique, unique_on in U.
  apply (distinct_NoDup key_text_eqb key_text_eqb_eq) in U.
  unfold get_user_settings.
  rewrite dict_of_rows by now apply settings_keys_NoDup.
  rewrite find_filter. unfold fetchone_where, setting_key.
  now destruct (find _ t).
Qed.

Lemma upsert_setting_unique t user_id k v :
  settings_unique t = true ->
  settings_unique
    (insert_or_update (setting_key user_id k)
       {| us_user_id := user_id; us_key := k; us_value := Some v |}
       (set_setting_value (Some v)) t) = true.
Proof.
  intros U. unfold settings_unique, insert_or_update.
  destruct (existsb (setting_key user_id k) t) eqn:E.
  - now apply unique_on_update.
  - apply unique_on_insert; auto using key_text_eqb_eq.
    intros x Hx Hk. simpl in Hk.
    apply not_true_iff_false in E. apply E.
    apply existsb_exists. exists x. split; [assumption|].
    now apply setting_key_iff.
Qed.

Lemma upsert_setting_lookup t user_id k v user' k' :
  fetchone_where (setting_key user' k')
    (insert_or_update (setting_key user_id k)
       {| us_user_id := user_id; us_key := k; us_value := Some v |}
       (set_setting_value (Some v)) t)
  = if key_text_eqb (user', k') (user_id, k)
    then Some {| us_user_id := user_id; us_key := k; us_value := Some v |}
    else fetchone_where (setting_key user' k') t.
Proof.
  unfold insert_or_update. rewrite existsb_fetchone.
  destruct (key_text_eqb (user', k') (user_id, k)) eqn:Ek.
  - apply key_text_eqb_eq in Ek. injection Ek as -> ->.
    destruct (fetchone_where (setting_key user_id k) t) as [r|] eqn:F.
    + rewrite fetchone_update_where by reflexivity. rewrite F. simpl.
      apply fetchone_some in F. destruct F as [_ Hk]. rewrite Hk.
      apply setting_key_iff in Hk. injection Hk as Hu Hkk.
      unfold set_setting_value. now rewrite Hu, Hkk.
    + unfold insert. rewrite fetchone_app, F. simpl.
      unfold setting_key. simpl. now rewrite Z.eqb_refl, String.eqb_refl.
  - assert (Ne : forall r, setting_key user' k' r = true ->
                           setting_key user_id k r = false).
    { intros r Hr. apply setting_key_iff in Hr.
      apply not_true_iff_false. intros Hr'. apply setting_key_iff in Hr'.
      apply not_true_iff_false in Ek. apply Ek. apply key_text_eqb_eq.
      congruence. }
    destruct (fetchone_where (setting_key user_id k) t) as [r|] eqn:F.
    + rewrite fetchone_update_where by reflexivity.
      destruct (fetchone_where (setting_key user' k') t) as [r'|] eqn:F';
        [|reflexivity].
      simpl. apply fetchone_some in F'. destruct F' as [_ Hk'].
      now rewrite (Ne r' Hk').
    + unfold insert. rewrite fetchone_app.
      destruct (fetchone_where (setting_key user' k') t); [reflexivity|].
      simpl. unfold setting_key at 1. simpl.
      unfold key_text_eqb in Ek. simpl in Ek.
      rewrite Z.eqb_sym, (String.eqb_sym k k'), Ek. reflexivity.
Qed.

Lemma set_user_settings_lookup updates :
  NoDup (map fst updates) ->
  forall t user_id user' k',
    fetchone_where (setting_key user' k')
      (set_user_settings t user_id updates)
    = match (if user' =? user_id
             then dict_get String.eqb k' updates else None) with
      | Some v =>
          Some {| us_user_id := user_id; us_key := k'; us_value := Some v |}
      | None => fetchone_where (setting_key user' k') t
      end
    /\ (settings_unique t = true ->
        settings_unique (set_user_settings t user_id updates) = true).
Proof.
  unfold set_user_settings.
  induction updates as [|[k v] updates IH]; intros U t user_id user' k'.
  - simpl. split; [now destruct (user' =? user_id) | auto].
  - simpl in U. apply NoDup_cons_iff in U. destruct U as [Hk U].
    cbn [fold_left fst snd].
    destruct (IH U
                (insert_or_update (setting_key user_id k)
                   {| us_user_id := user_id; us_key := k;
                      us_value := Some v |}
                   (set_setting_value (Some v)) t) user_id user' k')
      as [L Un].
    split; [|intros Ut; apply Un; now apply upsert_setting_unique].
    rewrite L. rewrite upsert_setting_lookup.
    unfold key_text_eqb, dict_get. cbn [fst snd find].
    destruct (Z.eqb_spec user' user_id) as [->|Nu]; [|reflexivity].
    cbn [andb].
    destruct (String.eqb_spec k k') as [->|Nk].
    + rewrite String.eqb_refl.
      assert (find (fun kv : string * string => String.eqb (fst kv) k')
                updates = None) as ->; [|reflexivity].
      destruct (find (fun kv : string * string => String.eqb (fst kv) k')
                  updates) as [kv|] eqn:F; [|reflexivity].
      apply find_some in F. destruct F as [Hin Hkv].
      apply String.eqb_eq in Hkv. exfalso. apply Hk.
      apply in_map_iff. exists kv. auto.
    + assert (String.eqb k' k = false) as ->
        by (apply String.eqb_neq; congruence).
      reflexivity.
Qed.

Lemma dict_get_In (updates : list (string * string)) k v :
  NoDup (map fst updates) -> In (k, v) updates ->
  dict_get String.eqb k updates = Some v.
Proof.
  unfold dict_get.
  induction updates as [|[k0 v0] updates IH]; simpl; intros U Hin;
    [contradiction|].
  apply NoDup_cons_iff in U. destruct U as [Hk U].
  destruct Hin as [[= -> ->]|Hin].
  - now rewrite String.eqb_refl.
  - destruct (String.eqb_spec k0 k) as [->|]; [|now apply IH].
    exfalso. apply Hk. apply in_map_iff. exists (k, v). auto.
Qed.

Lemma dict_get_absent (updates : list (string * string)) k :
  ~ In k (map fst updates) -> dict_get String.eqb k updates = None.
Proof.
  unfold dict_get. intros Hk.
  destruct (find (fun kv : string * string => String.eqb (fst kv) k) updates)
    as [kv|] eqn:F; [|reflexivity].
  apply find_some in F. destruct F as [Hin Hkv].
  apply String.eqb_eq in Hkv. exfalso. apply Hk.
  apply in_map_iff. exists kv. auto.
Qed.

Lemma set_user_settings_other_user updates t user_id user' :
  user' <> user_id ->
  filter (fun r => us_user_id r =? user') (set_user_settings t user_id updates)
  = filter (fun r => us_user_id r =? user') t.
Proof.
  intros Ne. unfold set_user_settings. revert t.
  induction updates as [|[k v] updates IH]; intros t; [reflexivity|].
  cbn [fold_left fst snd]. rewrite IH. unfold insert_or_update.
  destruct (existsb (setting_key user_id k) t).
  - unfold update_where.
    induction t as [|r t IHt]; simpl; [reflexivity|].
    destruct (setting_key user_id k r) eqn:Ek.
    + apply setting_key_iff in Ek. injection Ek as Eu _.
      simpl. rewrite Eu.
      assert ((user_id =? user') = false) as ->
        by (apply Z.eqb_neq; congruence).
      exact IHt.
    + destruct (us_user_id r =? user'); simpl; now rewrite IHt.
  - unfold insert. rewrite filter_app. simpl.
    assert ((user_id =? user') = false) as ->
      by (apply Z.eqb_neq; congruence).
    apply app_nil_r.
Qed.

(** X16: on a settings table that respects its primary key,
    [set_user_settings] followed by [get_user_settings] for the same user
    reads every updated key with its new value and every other key with
    its old one; the settings of other users are unchanged and the primary
    key still holds. *)
Theorem set_then_get_user_settings t user_id updates :
  settings_unique t = true ->
  NoDup (map fst updates) ->
  let t' := set_user_settings t user_id updates in
  settings_unique t' = true
  /\ (forall k v, In (k, v) updates ->
        dict_get String.eqb k (get_user_settings t' user_id)
        = Some (Some v))
  /\ (forall k, ~ In k (map fst updates) ->
        dict_get String.eqb k (get_user_settings t' user_id)
        = dict_get String.eqb k (get_user_settings t user_id))
  /\ (forall user', user' <> user_id ->
        get_user_settings t' user' = get_user_settings t user').
Proof.
  intros U Keys t'. subst t'.
  assert (U' : settings_unique (set_user_settings t user_id updates) = true)
    by (apply (set_user_settings_lookup updates Keys t user_id user_id
                 ""%string); exact U).
  split; [exact U'|]. split; [|split].
  - intros k v Hin.
    rewrite (get_user_settings_lookup _ user_id k U').
    destruct (set_user_settings_lookup updates Keys t user_id user_id k)
      as [-> _].
    rewrite Z.eqb_refl, (dict_get_In updates k v Keys Hin). reflexivity.
  - intros k Hk.
    rewrite (get_user_settings_lookup _ user_id k U'),
            (get_user_settings_lookup t user_id k U).
    destruct (set_user_settings_lookup updates Keys t user_id user_id k)
      as [-> _].
    rewrite Z.eqb_refl, (dict_get_absent updates k Hk). reflexivity.
  - intros user' Ne. unfold get_user_settings.
    now rewrite set_user_settings_other_user.
Qed.

(** ** Stripping characters off both ends *)

Section StripFacts.
Variable p : ascii -> bool.

Lemma lstrip_chars_head s : head_is p (lstrip_chars p s) = false.
Proof.
  induction s as [|a s IH]; simpl; [reflexivity|].
  destruct (p a) eqn:E; [exact IH | simpl; exact E].
Qed.

Lemma lstrip_chars_fixed s : head_is p s = false -> lstrip_chars p s = s.
Proof.
  destruct s as [|a s]; simpl; [reflexivity|]. now intros ->.
Qed.

Lemma rstrip_chars_last s : last_is p (rstrip_chars p s) = false.
Proof.
  induction s as [|a s IH]; simpl; [reflexivity|].
  destruct (rstrip_chars p s) as [|b r] eqn:E.
  - destruct (p a) eqn:Ea; simpl; [reflexivity | exact Ea].
  - exact IH.
Qed.

Lemma rstrip_chars_fixed s : last_is p s = false -> rstrip_chars p s = s.
Proof.
  induction s as [|a s IH]; [reflexivity|].
  destruct s as [|b s].
  - simpl. now intros ->.
  - intros H. change (last_is p (String b s) = false) in H.
    change (rstrip_chars p (String a (String b s)))
      with (match rstrip_chars p (String b s) with
            | EmptyString =>
                if p a then EmptyString else String a EmptyString
            | String c r => String a (String c r)
            end).
    rewrite (IH H). reflexivity.
Qed.

Lemma rstrip_chars_head q s :
  rstrip_chars p s <> EmptyString ->
  head_is q (rstrip_chars p s) = head_is q s.
Proof.
  destruct s as [|a s]; simpl; [reflexivity|].
  destruct (rstrip_chars p s); [|reflexivity].
  destruct (p a); [congruence|reflexivity].
Qed.

Lemma rstrip_chars_keeps_head s :
  head_is p s = false -> head_is p (rstrip_chars p s) = false.
Proof.
  intros H. destruct (rstrip_chars p s) as [|b r] eqn:E; [reflexivity|].
  rewrite <- E, rstrip_chars_head; [exact H | congruence].
Qed.

Lemma all_chars_lstrip q s :
  all_chars q s = true -> all_chars q (lstrip_chars p s) = true.
Proof.
  induction s as [|a s IH]; simpl; [reflexivity|].
  intros H. apply andb_true_iff in H. destruct H as [Ha Hs].
  destruct (p a); [now apply IH | simpl; now rewrite Ha, Hs].
Qed.

Lemma all_chars_rstrip q s :
  all_chars q s = true -> all_chars q (rstrip_chars p s) = true.
Proof.
  induction s as [|a s IH]; simpl; [reflexivity|].
  intros H. apply andb_true_iff in H. destruct H as [Ha Hs].
  specialize (IH Hs).
  destruct (rstrip_chars p s) as [|b r].
  - destruct (p a); simpl; [reflexivity | now rewrite Ha].
  - cbn [all_chars] in *. now rewrite Ha, IH.
Qed.

Lemma strip_chars_shape s :
  head_is p (strip_chars p s) = false /\ last_is p (strip_chars p s) = false.
Proof.
  unfold strip_chars. split.
  - apply rstrip_chars_keeps_head, lstrip_chars_head.
  - apply rstrip_chars_last.
Qed.

Lemma strip_chars_fixed s :
  head_is p s = false -> last_is p s = false -> strip_chars p s = s.
Proof.
  intros Hh Hl. unfold strip_chars.
  now rewrite lstrip_chars_fixed, rstrip_chars_fixed.
Qed.

Lemma strip_chars_idempotent s :
  strip_chars p (strip_chars p s) = strip_chars p s.
Proof.
  destruct (strip_chars_shape s). now apply strip_chars_fixed.
Qed.

Lemma double_hyphen_lstrip s :
  double_hyphen s = false -> double_hyphen (lstrip_chars p s) = false.
Proof.
  induction s as [|a s IH]; [reflexivity|].
  intros H. cbn [lstrip_chars]. destruct (p a); [|exact H].
  apply IH. cbn [double_hyphen] in H. now apply orb_false_iff in H.
Qed.

Lemma double_hyphen_rstrip s :
  double_hyphen s = false -> double_hyphen (rstrip_chars p s) = false.
Proof.
  induction s as [|a s IH]; [reflexivity|].
  intros H. cbn [double_hyphen] in H. apply orb_false_iff in H.
  destruct H as [Ha Hs]. specialize (IH Hs).
  cbn [rstrip_chars].
  destruct (rstrip_chars p s) as [|b r] eqn:E.
  - destruct (p a); [reflexivity|].
    cbn. now rewrite andb_false_r.
  - change (double_hyphen (String a (String b r)))
      with ((is_hyphen a && head_is is_hyphen (String b r))
            || double_hyphen (String b r)).
    rewrite IH, orb_false_r.
    rewrite <- E, rstrip_chars_head by congruence. exact Ha.
Qed.
End StripFacts.

Lemma strip_as_chars s : strip s = strip_chars isspace s.
Proof.
  unfold strip, strip_chars.
  assert (L : forall x, lstrip x = lstrip_chars isspace x)
    by (induction x as [|a x IH]; simpl; [|rewrite IH]; reflexivity).
  assert (R : forall x, rstrip x = rstrip_chars isspace x)
    by (induction x as [|a x IH]; simpl; [|rewrite IH]; reflexivity).
  now rewrite L, R.
Qed.

(** ** Slugs *)

Ltac each_ascii :=
  let a := fresh "a" in
  intros a; destruct a as [[] [] [] [] [] [] [] []];
  vm_compute; try tauto; try (intros; congruence); repeat split;
  try (intros; congruence).

Lemma word_is_no_separator :
  forall a, isword a = true -> isspace a = false /\ is_hyphen a = false.
Proof. each_ascii. Qed.

Lemma py_lower_char_idempotent :
  forall a, py_lower_char (py_lower_char a) = py_lower_char a.
Proof. each_ascii. Qed.

Lemma py_lower_char_classes :
  forall a, isword (py_lower_char a) = isword a
            /\ isspace (py_lower_char a) = isspace a
            /\ is_hyphen (py_lower_char a) = is_hyphen a.
Proof. each_ascii. Qed.

Lemma digit_is_no_hyphen :
  forall a, isdigit_char a = true -> is_hyphen a = false.
Proof. each_ascii. Qed.

Lemma hyphen_is_lower : forall a, is_hyphen a = true -> py_lower_char a = a.
Proof. each_ascii. Qed.

Lemma all_chars_impl (p q : ascii -> bool) s :
  (forall a, p a = true -> q a = true) ->
  all_chars p s = true -> all_chars q s = true.
Proof.
  intros H. induction s as [|a s IH]; simpl; [reflexivity|].
  intros Hs. apply andb_true_iff in Hs. destruct Hs as [Ha Hs].
  now rewrite (H a Ha), IH.
Qed.

Lemma py_lower_lowered t : all_chars lowered (py_lower t) = true.
Proof.
  induction t as [|a t IH]; simpl; [reflexivity|].
  rewrite IH, andb_true_r. unfold lowered.
  rewrite py_lower_char_idempotent. apply Ascii.eqb_refl.
Qed.

Lemma drop_special_chars q x :
  all_chars q x = true ->
  all_chars (fun a => q a && (isword a || isspace a || is_hyphen a))
    (drop_special x) = true.
Proof.
  induction x as [|a x IH]; simpl; [reflexivity|].
  intros H. apply andb_true_iff in H. destruct H as [Ha Hx].
  destruct (isword a || isspace a || is_hyphen a) eqn:E; [|now apply IH].
  simpl. now rewrite Ha, E, IH.
Qed.

Lemma collapse_runs_chars b w :
  all_chars (fun a => lowered a && (isword a || isspace a || is_hyphen a)) w
  = true ->
  all_chars (fun a => lowered a && slug_char a) (collapse_runs b w) = true.
Proof.
  revert b. induction w as [|a w IH]; intros b; simpl; [reflexivity|].
  intros H. apply andb_true_iff in H. destruct H as [Ha Hw].
  apply andb_true_iff in Ha. destruct Ha as [Hl Hk].
  destruct (is_hyphen a || isspace a) eqn:Es.
  - destruct b; [now apply IH|].
    simpl. now rewrite IH.
  - apply orb_false_iff in Es. destruct Es as [Eh Esp].
    rewrite Eh, Esp, !orb_false_r in Hk.
    simpl. unfold slug_char. now rewrite Hl, Hk, IH.
Qed.

Lemma collapse_runs_single b w :
  double_hyphen (collapse_runs b w) = false
  /\ (b = true -> head_is is_hyphen (collapse_runs b w) = false).
Proof.
  revert b. induction w as [|a w IH]; intros b; simpl; [auto|].
  destruct (is_hyphen a || isspace a) eqn:Es.
  - destruct b; [apply IH|].
    split; [|discriminate].
    destruct (IH true) as [D H]. cbn [double_hyphen].
    now rewrite D, (H eq_refl), andb_false_r.
  - apply orb_false_iff in Es. destruct Es as [Eh _].
    destruct (IH false) as [D _]. cbn [double_hyphen head_is].
    now rewrite D, Eh.
Qed.

Lemma py_lower_fixed s : all_chars lowered s = true -> py_lower s = s.
Proof.
  induction s as [|a s IH]; simpl; [reflexivity|].
  intros H. apply andb_true_iff in H. destruct H as [Ha Hs].
  unfold lowered in Ha. apply Ascii.eqb_eq in Ha. now rewrite Ha, IH.
Qed.

Lemma drop_special_fixed s :
  all_chars slug_char s = true -> drop_special s = s.
Proof.
  induction s as [|a s IH]; simpl; [reflexivity|].
  intros H. apply andb_true_iff in H. destruct H as [Ha Hs].
  unfold slug_char in Ha. apply orb_true_iff in Ha.
  assert (isword a || isspace a || is_hyphen a = true) as ->
    by (destruct Ha as [-> | ->]; [reflexivity | apply orb_true_r]).
  now rewrite IH.
Qed.

Lemma collapse_runs_fixed s :
  all_chars slug_char s = true -> double_hyphen s = false ->
  forall b, (b = true -> head_is is_hyphen s = false) ->
            collapse_runs b s = s.
Proof.
  induction s as [|a s IH]; [reflexivity|].
  intros Hc Hd b Hb. cbn [all_chars] in Hc.
  apply andb_true_iff in Hc. destruct Hc as [Ha Hs].
  cbn [double_hyphen] in Hd. apply orb_false_iff in Hd.
  destruct Hd as [Hah Hd]. cbn [collapse_runs].
  destruct (is_hyphen a) eqn:Eh.
  - cbn [orb]. destruct b; [specialize (Hb eq_refl); simpl in Hb; congruence|].
    rewrite (IH Hs Hd true) by (intros _; exact Hah).
    unfold is_hyphen in Eh. apply Ascii.eqb_eq in Eh. now rewrite Eh.
  - unfold slug_char in Ha. rewrite Eh, orb_false_r in Ha.
    destruct (word_is_no_separator a Ha) as [-> _]. cbn [orb].
    now rewrite (IH Hs Hd false) by discriminate.
Qed.

(** X17: a slug made by [slugify_title] without a year consists of
    lower-case word characters and single hyphens, begins and ends with
    none, and is left unchanged when it is slugified again. *)
Theorem slugify_title_shape title :
  let slug := slugify_title title None in
  all_chars (fun a => lowered a && slug_char a) slug = true
  /\ double_hyphen slug = false
  /\ head_is is_hyphen slug = false
  /\ last_is is_hyphen slug = false
  /\ slugify_title slug None = slug.
Proof.
  intros slug. subst slug. unfold slugify_title. cbv zeta.
  set (w := drop_special (py_lower title)).
  assert (Hw : all_chars (fun a => lowered a
                                   && (isword a || isspace a || is_hyphen a))
                 w = true)
    by (apply drop_special_chars, py_lower_lowered).
  set (c := collapse_runs false w).
  assert (Hc : all_chars (fun a => lowered a && slug_char a) c = true)
    by now apply collapse_runs_chars.
  destruct (collapse_runs_single false w) as [Dc _]. fold c in Dc.
  set (s := strip_hyphens c).
  assert (Hs : all_chars (fun a => lowered a && slug_char a) s = true)
    by (apply all_chars_rstrip, all_chars_lstrip; exact Hc).
  assert (Ds : double_hyphen s = false)
    by (apply double_hyphen_rstrip, double_hyphen_lstrip; exact Dc).
  destruct (strip_chars_shape is_hyphen c) as [Hh Hl].
  fold (strip_hyphens c) in Hh, Hl. fold s in Hh, Hl.
  split; [exact Hs|]. split; [exact Ds|]. split; [exact Hh|].
  split; [exact Hl|].
  assert (Hlow : all_chars lowered s = true)
    by (apply (all_chars_impl (fun a => lowered a && slug_char a) lowered s);
        [intros a Ha; now apply andb_true_iff in Ha | exact Hs]).
  assert (Hslug : all_chars slug_char s = true)
    by (apply (all_chars_impl (fun a => lowered a && slug_char a) slug_char
                 s);
        [intros a Ha; now apply andb_true_iff in Ha | exact Hs]).
  rewrite (py_lower_fixed s Hlow), (drop_special_fixed s Hslug).
  rewrite (collapse_runs_fixed s Hslug Ds false) by discriminate.
  unfold strip_hyphens. now apply strip_chars_fixed.
Qed.

Lemma rsplit_hyphen_none y :
  all_chars (fun a => negb (is_hyphen a)) y = true -> rsplit_hyphen y = None.
Proof.
  induction y as [|a y IH]; simpl; [reflexivity|].
  intros H. apply andb_true_iff in H. destruct H as [Ha Hy].
  rewrite (IH Hy). apply negb_true_iff in Ha. now rewrite Ha.
Qed.

Lemma rsplit_hyphen_last s y :
  all_chars (fun a => negb (is_hyphen a)) y = true ->
  rsplit_hyphen (s ++ "-" ++ y)%string = Some (s, y).
Proof.
  intros Hy. change ("-" ++ y)%string with (String "-" y).
  induction s as [|a s IH]; simpl.
  - now rewrite (rsplit_hyphen_none y Hy).
  - now rewrite IH.
Qed.

Lemma rsplit_hyphen_shorter s before after :
  rsplit_hyphen s = Some (before, after) ->
  s = (before ++ "-" ++ after)%string
  /\ all_chars (fun a => negb (is_hyphen a)) after = true.
Proof.
  revert before. induction s as [|a s IH]; simpl; [discriminate|].
  intros before.
  destruct (rsplit_hyphen s) as [[b0 a0]|] eqn:E.
  - intros [= <- <-]. destruct (IH b0 eq_refl) as [-> Ha].
    split; [reflexivity|exact Ha].
  - destruct (is_hyphen a) eqn:Eh; [|discriminate].
    intros [= <- <-]. unfold is_hyphen in Eh. apply Ascii.eqb_eq in Eh.
    subst a. split; [reflexivity|].
    clear IH. induction s as [|c s IHs]; [reflexivity|].
    simpl in E. destruct (rsplit_hyphen s) as [[? ?]|]; [discriminate|].
    destruct (is_hyphen c) eqn:Ec; [discriminate|].
    simpl. rewrite Ec. simpl. now apply IHs.
Qed.

Lemma length_append (a b : string) :
  String.length (a ++ b)%string = (String.length a + String.length b)%nat.
Proof.
  induction a as [|c a IH]; simpl; [reflexivity|]. now rewrite IH.
Qed.

(** X18: the detail pages read back what [slugify_title] wrote: from a
    slug made with a year of digits they recover the year and, as the text
    to search for, the slug of the title alone.  From any other slug with
    a hyphen they take the text before the last hyphen, so that a slug
    made without a year loses its last word, or has it taken for the year
    when it is a number. *)
Theorem slug_parts_of_slugify_title title year :
  isdigit year = true ->
  slug_parts (slugify_title title (Some year))
  = (slugify_title title None, Some year)
  /\ (forall slug before after,
        rsplit_hyphen slug = Some (before, after) ->
        slug = (before ++ "-" ++ after)%string
        /\ fst (slug_parts slug) = before
        /\ snd (slug_parts slug)
           = (if isdigit after then Some after else None)
        /\ (String.length (fst (slug_parts slug)) < String.length slug)%nat)
  /\ (forall slug, rsplit_hyphen slug = None ->
        slug_parts slug = (slug, None)).
Proof.
  intros Hy. split; [|split].
  - unfold isdigit in Hy. apply andb_true_iff in Hy.
    destruct Hy as [Hne Hd]. apply negb_true_iff in Hne.
    assert (Plain : all_chars (fun a => negb (is_hyphen a)) year = true).
    { clear Hne. induction year as [|a y IH]; [reflexivity|].
      simpl in *. apply andb_true_iff in Hd. destruct Hd as [Ha Hd].
      now rewrite (digit_is_no_hyphen a Ha), IH. }
    unfold slugify_title at 1. cbv zeta. rewrite Hne.
    unfold slug_parts. rewrite (rsplit_hyphen_last _ year Plain).
    unfold isdigit. now rewrite Hne, Hd.
  - intros slug before after E.
    destruct (rsplit_hyphen_shorter slug before after E) as [-> _].
    unfold slug_parts. rewrite E. simpl.
    repeat split. rewrite length_append. simpl. lia.
  - intros slug E. unfold slug_parts. now rewrite E.
Qed.

(** ** Lists in environment variables *)

Lemma has_comma_all_chars s :
  has_comma s = false <->
  all_chars (fun a => negb (Ascii.eqb a ",")) s = true.
Proof.
  induction s as [|a s IH]; simpl.
  - split; reflexivity.
  - rewrite orb_false_iff, andb_true_iff, negb_true_iff, IH. reflexivity.
Qed.

Lemma strip_no_comma s : has_comma s = false -> has_comma (strip s) = false.
Proof.
  rewrite strip_as_chars, !has_comma_all_chars. intros H.
  unfold strip_chars. now apply all_chars_rstrip, all_chars_lstrip.
Qed.

Lemma split_commas_pieces s :
  Forall (fun piece => has_comma piece = false) (split_commas s).
Proof.
  induction s as [|a s IH]; simpl.
  - repeat constructor.
  - destruct (Ascii.eqb a ",") eqn:E.
    + constructor; [reflexivity|exact IH].
    + destruct (split_commas s) as [|first others].
      * repeat constructor. simpl. now rewrite E.
      * inversion IH as [|? ? Hf Ho]; subst.
        constructor; [simpl; now rewrite E, Hf | exact Ho].
Qed.

Lemma split_commas_plain x :
  has_comma x = false -> split_commas x = [x].
Proof.
  induction x as [|a x IH]; simpl; [reflexivity|].
  intros H. apply orb_false_iff in H. destruct H as [Ha Hx].
  now rewrite Ha, (IH Hx).
Qed.

Lemma split_commas_app x rest :
  has_comma x = false ->
  split_commas (x ++ "," ++ rest)%string = x :: split_commas rest.
Proof.
  change ("," ++ rest)%string with (String "," rest).
  induction x as [|a x IH]; simpl; [reflexivity|].
  intros H. apply orb_false_iff in H. destruct H as [Ha Hx].
  now rewrite Ha, (IH Hx).
Qed.

Lemma split_join_commas items :
  items <> [] ->
  Forall (fun item => has_comma item = false) items ->
  split_commas (join_commas items) = items.
Proof.
  induction items as [|x items IH]; [congruence|].
  intros _ H. inversion H as [|? ? Hx Hi]; subst.
  destruct items as [|y items].
  - simpl. now apply split_commas_plain.
  - change (join_commas (x :: y :: items))
      with (x ++ "," ++ join_commas (y :: items))%string.
    rewrite split_commas_app by assumption.
    f_equal. apply IH; [discriminate|assumption].
Qed.

(** X19: [_split_env_list] yields entries that are not empty, carry no
    white space at either end and contain no comma; it reads the default
    when the variable is not set; and it gives back any list of such
    entries that was written to the variable joined by commas. *)
Theorem split_env_list_entries env default_value :
  Forall (fun entry => entry <> ""%string /\ strip entry = entry
                       /\ has_comma entry = false)
    (_split_env_list env default_value)
  /\ _split_env_list None default_value
     = _split_env_list (Some default_value) default_value
  /\ forall items,
       Forall (fun entry => entry <> ""%string /\ strip entry = entry
                            /\ has_comma entry = false) items ->
       _split_env_list (Some (join_commas items)) default_value = items.
Proof.
  split; [|split].
  - unfold _split_env_list. cbv zeta. apply Forall_forall.
    intros entry Hin. apply in_map_iff in Hin.
    destruct Hin as (piece & <- & Hin). apply filter_In in Hin.
    destruct Hin as [Hin Keep]. apply andb_true_iff in Keep.
    destruct Keep as [_ Keep]. apply negb_true_iff in Keep.
    apply String.eqb_neq in Keep.
    split; [exact Keep|]. split.
    + rewrite !strip_as_chars. apply strip_chars_idempotent.
    + apply strip_no_comma.
      pose proof (split_commas_pieces
                    match env with Some v => v | None => default_value end)
        as P.
      rewrite Forall_forall in P. now apply P.
  - reflexivity.
  - intros items Hi. unfold _split_env_list. cbv zeta.
    destruct items as [|x items]; [reflexivity|].
    rewrite split_join_commas;
      [| discriminate
       | eapply Forall_impl; [|exact Hi];
         intros entry (_ & _ & Hc); exact Hc].
    induction Hi as [|y l (Hne & Hs & _) Hl IH]; [reflexivity|].
    cbn [filter map]. rewrite Hs.
    apply String.eqb_neq in Hne. rewrite Hne. cbn [negb andb map].
    now rewrite Hs, IH.
Qed.

(** ** The most recent items of a list *)

(** X20: [get_recent_list_items] returns at most [limit] entries, as many
    as the list has when it has fewer; each of them is an entry of
    [get_list_items]; and a limit that covers the whole list gives exactly
    what [get_list_items] gives. *)
Theorem get_recent_list_items_prefix d list_id limit_ :
  List.length (get_recent_list_items d list_id limit_)
  = Nat.min limit_ (List.length (get_list_items d list_id))
  /\ incl (get_recent_list_items d list_id limit_) (get_list_items d list_id)
  /\ ((List.length (get_list_items d list_id) <= limit_)%nat ->
      get_recent_list_items d list_id limit_ = get_list_items d list_id).
Proof.
  unfold get_recent_list_items, get_list_items, limit.
  rewrite !length_map. split; [|split].
  - apply length_firstn.
  - intros e He. apply in_map_iff in He. destruct He as (x & <- & Hx).
    apply in_map. eapply limit_In. exact Hx.
  - intros Hlen. now rewrite firstn_all2.
Qed.

(** ** Case folding and hyphens *)

Lemma ascii_lower_char_hyphen :
  forall a, Ascii.eqb (ascii_lower_char a) "-" = Ascii.eqb a "-".
Proof. each_ascii. Qed.

Lemma ascii_lower_keeps_hyphens s :
  has_hyphen (ascii_lower s) = has_hyphen s.
Proof.
  induction s as [|a s IH]; simpl; [reflexivity|].
  now rewrite ascii_lower_char_hyphen, IH.
Qed.

End MoreProperties.

(** * Instances of the properties *)

Lemma get_or_create_content_idempotent_witness :
  let o := get_or_create_content plain_schema empty_db 1 603 "movie"
             "The Matrix" None None None in
  get_or_create_content plain_schema (fst o) 2 603 "movie" "Matrix"
    (Some "/p.jpg"%string) None None = o
  /\ content_unique (fst o) = true.
Proof.
  cbv zeta.
  pose proof (get_or_create_content_idempotent plain_schema empty_db 1 603
                "movie" "The Matrix" None None None 2 "Matrix"
                (Some "/p.jpg"%string) None None) as H.
  cbv zeta in H. destruct H as (H1 & _ & H3 & _).
  split; [exact H1 | apply H3; reflexivity].
Defined.

Lemma mark_watched_reports_the_mark_witness :
  603 <> 0 /\ "movie"%string <> ""%string /\ "The Matrix"%string <> ""%string
  /\ exists stats n,
       snd (mark_watched plain_schema empty_db 1 (Some 1)
              (Parsed {| cp_tmdb_id := Some 603;
                         cp_media_type := Some "movie"%string;
                         cp_title := Some "The Matrix"%string;
                         cp_poster_path := None |}))
       = Success stats
       /\ cs_watched_count stats = Some n /\ 1 <= n.
Proof.
  assert (H1 : 603 <> 0) by discriminate.
  assert (H2 : "movie"%string <> ""%string) by discriminate.
  assert (H3 : "The Matrix"%string <> ""%string) by discriminate.
  repeat (split; [assumption|]).
  destruct (mark_watched_reports_the_mark plain_schema empty_db 1 1 603
              "movie" "The Matrix" None H1 H2 H3)
    as (stats & n & Hs & _ & Hn & Hle & _).
  exists stats, n. auto.
Defined.

Lemma add_rating_then_has_user_rated_witness :
  has_user_rated
    (add_rating plain_schema two_reviews 3 1 603 "movie" "The Matrix" 95 None
       None) 1 603 "movie" = true.
Proof.
  pose proof (add_rating_then_has_user_rated plain_schema two_reviews 3 1 603
                "movie" "The Matrix" 95 None None) as H.
  cbv zeta in H. exact (proj1 H).
Defined.


Lemma add_to_list_view_owner_only_witness :
  verify_user_owns_list commented_list 2 1 = false
  /\ add_to_list_view plain_schema commented_list 5 (Some 2)
       (Parsed {| lp_list_id := Some 1; lp_tmdb_id := Some 603;
                  lp_media_type := Some "movie"%string;
                  lp_title := Some "The Matrix"%string;
                  lp_poster_path := None |})
     = (commented_list, Failure 403 "Unauthorized list access").
Proof.
  split; [reflexivity|].
  refine (proj1 (proj2 (add_to_list_view_owner_only plain_schema
                          commented_list 5 (Some 2)
                          (Parsed {| lp_list_id := Some 1;
                                     lp_tmdb_id := Some 603;
                                     lp_media_type := Some "movie"%string;
                                     lp_title := Some "The Matrix"%string;
                                     lp_poster_path := None |})))
            2 1 603 "movie"%string "The Matrix"%string None eq_refl eq_refl
            _ _ _ _ eq_refl); discriminate.
Defined.

Lemma add_to_list_then_listed_witness :
  exists e,
    In e (get_list_items
            (add_to_list plain_schema commented_list 5 1 603 "movie"
               "The Matrix" None) 1)
    /\ lie_tmdb_id e = 603 /\ lie_media_type e = "movie"%string.
Proof.
  pose proof (add_to_list_then_listed plain_schema commented_list 5 6 1 603
                "movie" "The Matrix" "Matrix" None None) as H.
  cbv zeta in H. exact (proj1 H).
Defined.

Lemma get_list_item_counts_bounds_witness :
  let counts :=
    get_list_item_counts
      (add_to_list plain_schema commented_list 5 1 603 "movie" "The Matrix"
         None) 1 in
  ic_movies counts + ic_shows counts <= ic_total counts.
Proof.
  cbv zeta.
  pose proof (get_list_item_counts_bounds
                (add_to_list plain_schema commented_list 5 1 603 "movie"
                   "The Matrix" None) 1) as H.
  cbv zeta in H. destruct H as (_ & _ & H & _). exact H.
Defined.


Lemma search_lists_visibility_witness :
  Forall (fun e => fl_is_public e = true)
    (search_lists no_encoding ilike_contains two_ranked_lists "i" None 10 0).
Proof.
  pose proof (search_lists_visibility no_encoding ilike_contains
                two_ranked_lists "i" None 10 0) as H.
  cbv zeta in H. destruct H as (_ & H & _). apply H. left. reflexivity.
Defined.

Lemma create_user_list_then_found_witness :
  let o := create_user_list plain_schema commented_list 7 2 "Sci Fi" None
             true in
  exists r,
    o = ret (fst o) r
    /\ exists e,
         get_list_by_user_and_name plain_schema (fst o) 2 "sci-fi" = Some e
         /\ le_id e = cl_id r /\ le_name e = "Sci Fi"%string.
Proof.
  cbv zeta.
  destruct (create_user_list plain_schema commented_list 7 2 "Sci Fi" None
              true) as [d' [x|r]] eqn:E.
  - vm_compute in E. discriminate E.
  - exists r. split; [reflexivity|].
    assert (N : cl_name r = "Sci Fi"%string)
      by (vm_compute in E; injection E as _ <-; reflexivity).
    destruct (proj1 (create_user_list_then_found plain_schema commented_list
                       7 2 "Sci Fi" None true d' r E) "sci-fi"%string)
      as (e & H1 & H2 & H3 & _).
    + rewrite N. reflexivity.
    + exists e. simpl. rewrite <- N. auto.
Defined.

Lemma hyphenated_list_name_not_found_witness :
  (forall s, has_hyphen (sql_lower plain_schema s) = has_hyphen s)
  /\ get_list_by_user_and_name plain_schema commented_list 1 "my-favorites"
     = Some (list_entry_of alice_list)
  /\ has_hyphen (le_name (list_entry_of alice_list)) = false.
Proof.
  split; [exact ascii_lower_keeps_hyphens|].
  split; [reflexivity|].
  exact (proj1 (hyphenated_list_name_not_found plain_schema commented_list 1
                  "my-favorites" (list_entry_of alice_list)
                  ascii_lower_keeps_hyphens eq_refl)).
Defined.

Lemma toggle_like_review_then_liked_by_me_witness :
  liked_by (fst (toggle_like_review two_reviews 3 1)) (Some 3) 1
  = negb (liked_by two_reviews (Some 3) 1).
Proof.
  pose proof (toggle_like_review_then_liked_by_me no_encoding two_reviews 3
                1) as H.
  cbv zeta in H. exact (proj1 H).
Defined.

Lemma enrich_content_with_stats_per_item_witness :
  map item_custom_stats
    (enrich_content_with_stats two_reviews
       [{| item_id := Some 603; item_media_type := None; item_other := [];
           item_custom_stats := None |};
        {| item_id := None; item_media_type := Some "tv"%string;
           item_other := []; item_custom_stats := None |}])
  = [Some (get_content_stats two_reviews 603 "movie"); Some zero_stats].
Proof.
  rewrite enrich_content_with_stats_per_item. reflexivity.
Defined.

Lemma delete_list_comment_view_status_witness :
  1 <> 0
  /\ response_status
       (snd (delete_list_comment_view commented_list 9 (Some 3)
               (Parsed (Some 1)))) = 403.
Proof.
  assert (H0 : 1 <> 0) by discriminate.
  split; [exact H0|].
  pose proof (delete_list_comment_view_status commented_list 9 3 1 H0) as H.
  cbv zeta in H. destruct H as (_ & H & _). apply H.
  exists bob_comment, 1. repeat split; try reflexivity; discriminate.
Defined.

Lemma add_then_delete_list_comment_witness :
  strip "  Great  " <> ""%string
  /\ fetchone_where (list_has_id 2) (user_lists commented_list)
     = Some bob_list
  /\ count_where (comment_has_id (seq_comments (seqs commented_list)))
       (list_comments commented_list) = 0
  /\ exists added,
       snd (add_list_comment commented_list 9 3 2 "  Great  ") = inr added
       /\ ac_comment_text added = "Great"%string
       /\ list_comments
            (fst (delete_list_comment
                    (fst (add_list_comment commented_list 9 3 2 "  Great  "))
                    10 3 (ac_id added)))
          = list_comments commented_list.
Proof.
  assert (H1 : strip "  Great  " <> ""%string) by (vm_compute; discriminate).
  split; [exact H1|]. split; [reflexivity|]. split; [reflexivity|].
  pose proof (add_then_delete_list_comment commented_list 9 10 3 2
                "  Great  " bob_list H1 eq_refl eq_refl) as H.
  cbv zeta in H.
  destruct H as (added & Ha & Ht & _ & deleted & _ & _ & _ & Hrows).
  exists added. split; [exact Ha|]. split; [exact Ht|exact Hrows].
Defined.

Lemma set_then_get_user_settings_witness :
  let t := [{| us_user_id := 1; us_key := "theme";
               us_value := Some "dark"%string |};
            {| us_user_id := 2; us_key := "theme";
               us_value := Some "light"%string |}] in
  let updates := [("theme", "light"); ("language", "en")]%string in
  settings_unique t = true
  /\ NoDup (map fst updates)
  /\ dict_get String.eqb "theme"%string
       (get_user_settings (set_user_settings t 1 updates) 1)
     = Some (Some "light"%string).
Proof.
  cbv zeta.
  assert (N : NoDup (map fst [("theme", "light"); ("language", "en")]%string)).
  { simpl. constructor.
    - intros [H|[]]. discriminate H.
    - constructor; [intros []|constructor]. }
  split; [reflexivity|]. split; [exact N|].
  pose proof (set_then_get_user_settings
                [{| us_user_id := 1; us_key := "theme";
                    us_value := Some "dark"%string |};
                 {| us_user_id := 2; us_key := "theme";
                    us_value := Some "light"%string |}]
                1 [("theme", "light"); ("language", "en")]%string
                eq_refl N) as H.
  cbv zeta in H. destruct H as (_ & H & _).
  apply H. left. reflexivity.
Defined.

Lemma slugify_title_shape_witness :
  slugify_title (slugify_title "The Matrix: Reloaded!" None) None
  = slugify_title "The Matrix: Reloaded!" None.
Proof.
  pose proof (slugify_title_shape "The Matrix: Reloaded!") as H.
  cbv zeta in H. destruct H as (_ & _ & _ & _ & H). exact H.
Defined.

Lemma slug_parts_of_slugify_title_witness :
  isdigit "2003" = true
  /\ slug_parts (slugify_title "The Matrix: Reloaded!" (Some "2003"%string))
     = (slugify_title "The Matrix: Reloaded!" None, Some "2003"%string).
Proof.
  split; [reflexivity|].
  exact (proj1 (slug_parts_of_slugify_title "The Matrix: Reloaded!" "2003"
                  eq_refl)).
Defined.

Lemma split_env_list_entries_witness :
  Forall (fun entry => entry <> ""%string /\ strip entry = entry
                       /\ has_comma entry = false)
    ["localhost"; "127.0.0.1"]%string
  /\ _split_env_list (Some (join_commas ["localhost"; "127.0.0.1"]%string))
       ""
     = ["localhost"; "127.0.0.1"]%string.
Proof.
  assert (H : Forall (fun entry => entry <> ""%string /\ strip entry = entry
                                   /\ has_comma entry = false)
                ["localhost"; "127.0.0.1"]%string).
  { repeat constructor; discriminate. }
  split; [exact H|].
  exact (proj2 (proj2 (split_env_list_entries None ""%string)) _ H).
Defined.

Lemma get_recent_list_items_prefix_witness :
  let d := add_to_list plain_schema commented_list 5 1 603 "movie"
             "The Matrix" None in
  (List.length (get_list_items d 1) <= 5)%nat
  /\ get_recent_list_items d 1 5 = get_list_items d 1.
Proof.
  cbv zeta.
  assert (H : (List.length
                 (get_list_items
                    (add_to_list plain_schema commented_list 5 1 603 "movie"
                       "The Matrix" None) 1) <= 5)%nat)
    by (vm_compute; repeat constructor).
  split; [exact H|].
  exact (proj2 (proj2 (get_recent_list_items_prefix _ 1 5%nat)) H).
Defined.
